(** * Control-plane reconciler: DNS-authority fan-out, auth-proxy fan-out,
      health ingestion, Olm sync and session validation.

    Shallow embedding of
      - server/routers/dns/dnsAuthority.ts
      - server/routers/olm/sync.ts
      - server/routers/target/handleHealthcheckStatusMessage.ts
      - server/routers/auth/authProxy.ts
      - server/routers/auth/validateSession.ts (and lib/jwtKeypair.ts)

    Conventions of the embedding.
      - A table is the list of its rows, in the order the driver returns
        them; a join is the nested loop over the joined tables; [limit(1)]
        with array destructuring is the head of the result.
      - A nullable column is an [option]; JavaScript truthiness is written
        out ([truthy_str], [or_num], ...).
      - A string is the UTF-8 encoding of the JavaScript string, byte by
        byte, as Rocq's string literals are; the operations of the sources
        (comparison, [split] at ["."], [replace] of an ASCII pattern,
        [parseInt]) give the same result on the bytes as on the code
        units of the JavaScript string. Database integers are [Z]. The
        Number that [parseInt] returns is a double: NaN, an infinity, or
        the integer nearest to the digits read.
      - A [Date] is its time value in milliseconds; [toISOString] throws
        outside the range of valid dates.
      - Code that sends to agents runs in a state monad over a [World]
        (database snapshot and the list of messages handed to the bus).
        [sendToClient] is delivery-or-drop and every caller swallows its
        failure, so a send is recorded as the message handed over. *)

From Stdlib Require Import ZArith List String Ascii Bool Lia.
From Stdlib Require Import DecimalString.
Import ListNotations.
Local Open Scope string_scope.
Local Open Scope Z_scope.

(* ===================================================================== *)
(** ** JavaScript primitives used by the sources *)
(* ===================================================================== *)

Module JS.

(** [!!s] for a nullable string: null and the empty string are falsy. *)
Definition truthy_str (s : option string) : bool :=
  match s with
  | Some s' => negb (String.eqb s' "")
  | None => false
  end.

(** [!!b] for a nullable boolean. *)
Definition truthy_bool (b : option bool) : bool :=
  match b with
  | Some true => true
  | _ => false
  end.

(** [n || d] on a number. *)
Definition or_Z (n d : Z) : Z := if n =? 0 then d else n.

(** [n || d] on a nullable number. *)
Definition or_num (n : option Z) (d : Z) : Z :=
  match n with
  | Some n' => or_Z n' d
  | None => d
  end.

(** [s || d] on a nullable string. *)
Definition or_str (s : option string) (d : string) : string :=
  match s with
  | Some s' => if String.eqb s' "" then d else s'
  | None => d
  end.

(** [`${n}`] for an integer. *)
Definition string_of_Z (n : Z) : string :=
  NilZero.string_of_int (Z.to_int n).

(** Insertion into a [Set]: membership is tested with [eqb], insertion
    order is kept. *)
Fixpoint mem {A} (eqb : A -> A -> bool) (x : A) (l : list A) : bool :=
  match l with
  | [] => false
  | y :: l' => eqb x y || mem eqb x l'
  end.

Definition set_add {A} (eqb : A -> A -> bool) (s : list A) (x : A) : list A :=
  if mem eqb x s then s else (s ++ [x])%list.

(** [Array.from(new Set(l))]. *)
Definition set_of_list {A} (eqb : A -> A -> bool) (l : list A) : list A :=
  fold_left (set_add eqb) l [].

(** [s.split(c)] for a one-character separator. *)
Fixpoint split (sep : ascii) (s : string) : list string :=
  match s with
  | EmptyString => [EmptyString]
  | String c rest =>
      if Ascii.eqb c sep then EmptyString :: split sep rest
      else match split sep rest with
           | [] => [String c EmptyString]
           | h :: t => String c h :: t
           end
  end.

(** [parts.join(sep)]. *)
Definition join (sep : string) (parts : list string) : string :=
  String.concat sep parts.

(** [a.slice(-n)]. *)
Definition slice_last {A} (n : nat) (a : list A) : list A :=
  skipn (List.length a - n) a.

(** [s.startsWith(p)] *)
Definition starts_with (p s : string) : bool := String.prefix p s.

Fixpoint drop (n : nat) (s : string) : string :=
  match n, s with
  | O, _ => s
  | S n', String _ r => drop n' r
  | S _, EmptyString => EmptyString
  end.

(** [s.replace(pat, rep)] with a string pattern: the first occurrence only. *)
Fixpoint replace (pat rep s : string) : string :=
  if starts_with pat s then rep ++ drop (String.length pat) s
  else match s with
       | EmptyString => EmptyString
       | String c r => String c (replace pat rep r)
       end.

(** *** [parseInt(s)] with no radix argument *)

(** White space and line terminators that [parseInt] skips
    ([StrWhiteSpaceChar]). One byte: TAB, LF, VT, FF, CR, SP. The byte
    [A0] on its own starts no character of a UTF-8 string; it is read as
    the code unit U+00A0, so that a key written as one byte per code unit
    is skipped in the same way. *)
Definition is_ws (c : ascii) : bool :=
  let n := nat_of_ascii c in
  ((9 <=? n) && (n <=? 13))%nat || (n =? 32)%nat || (n =? 160)%nat.

(** Two bytes: U+00A0 (no-break space), encoded [C2 A0]. *)
Definition is_ws2 (c1 c2 : ascii) : bool :=
  ((nat_of_ascii c1 =? 194) && (nat_of_ascii c2 =? 160))%nat.

(** Three bytes: U+1680 [E1 9A 80]; U+2000 to U+200A [E2 80 80] to
    [E2 80 8A]; the line and paragraph separators U+2028, U+2029
    [E2 80 A8], [E2 80 A9]; U+202F [E2 80 AF]; U+205F [E2 81 9F];
    U+3000 [E3 80 80]; and U+FEFF [EF BB BF]. *)
Definition is_ws3 (c1 c2 c3 : ascii) : bool :=
  let n1 := nat_of_ascii c1 in
  let n2 := nat_of_ascii c2 in
  let n3 := nat_of_ascii c3 in
  ((n1 =? 225) && (n2 =? 154) && (n3 =? 128)
   || (n1 =? 226) && (n2 =? 128)
      && ((128 <=? n3) && (n3 <=? 138) || (n3 =? 168) || (n3 =? 169)
          || (n3 =? 175))
   || (n1 =? 226) && (n2 =? 129) && (n3 =? 159)
   || (n1 =? 227) && (n2 =? 128) && (n3 =? 128)
   || (n1 =? 239) && (n2 =? 187) && (n3 =? 191))%nat.

Fixpoint trim_start (s : string) : string :=
  match s with
  | String c1 r1 =>
      if is_ws c1 then trim_start r1
      else
        match r1 with
        | String c2 r2 =>
            if is_ws2 c1 c2 then trim_start r2
            else
              match r2 with
              | String c3 r3 => if is_ws3 c1 c2 c3 then trim_start r3 else s
              | EmptyString => s
              end
        | EmptyString => s
        end
  | EmptyString => s
  end.

(** Value of [c] as a digit in the given radix, if it is one. *)
Definition digit_val (radix : Z) (c : ascii) : option Z :=
  let n := Z.of_nat (nat_of_ascii c) in
  let v := if (48 <=? n) && (n <=? 57) then Some (n - 48)
           else if (97 <=? n) && (n <=? 122) then Some (n - 87)
           else if (65 <=? n) && (n <=? 90) then Some (n - 55)
           else None in
  match v with
  | Some d => if d <? radix then Some d else None
  | None => None
  end.

(** The longest prefix of radix digits, as a number; [acc] is [None] until
    a first digit has been read. *)
Fixpoint parse_digits (radix : Z) (s : string) (acc : option Z) : option Z :=
  match s with
  | String c r =>
      match digit_val radix c with
      | Some d =>
          parse_digits radix r
            (Some (match acc with Some a => a * radix + d | None => d end))
      | None => acc
      end
  | EmptyString => acc
  end.

(** An optional sign: [(-1, rest)] after ["-"], [(1, rest)] after ["+"]. *)
Definition strip_sign (s : string) : Z * string :=
  match s with
  | String c r =>
      if Ascii.eqb c "-" then (-1, r)
      else if Ascii.eqb c "+" then (1, r)
      else (1, s)
  | EmptyString => (1, s)
  end.

(** With no radix argument, a leading ["0x"] or ["0X"] is removed and
    selects radix 16. *)
Definition strip_hex_prefix (s : string) : Z * string :=
  match s with
  | String c0 (String c1 r) =>
      if Ascii.eqb c0 "0" && (Ascii.eqb c1 "x" || Ascii.eqb c1 "X")
      then (16, r)
      else (10, s)
  | _ => (10, s)
  end.

(** The Numbers that [parseInt] can return: NaN, a double whose value is
    the integer [n], or an infinity. The zero under a minus sign is
    [Num 0]: the sources only test it with [isNaN] and compare it with
    database integers. *)
Inductive Number :=
| NaN
| Num (n : Z)
| Infinity (negative : bool).

(** The double nearest to an integer, ties to the even significand: exact
    up to 53 bits, an infinity from [2^1024 - 2^970] on. *)
Definition to_double (n : Z) : Number :=
  let a := Z.abs n in
  let e := Z.log2 a - 52 in
  if e <=? 0 then Num n
  else
    let q := Z.shiftr a e in
    let r := a - Z.shiftl q e in
    let half := Z.shiftl 1 (e - 1) in
    let q' := if (half <? r) || ((r =? half) && Z.odd q) then q + 1 else q in
    let m := Z.shiftl q' e in
    if 1024 <=? Z.log2 m then Infinity (n <? 0)
    else Num (Z.sgn n * m).

(** [parseInt(s)]. *)
Definition parseInt (s : string) : Number :=
  let '(sign, s2) := strip_sign (trim_start s) in
  let '(radix, s3) := strip_hex_prefix s2 in
  match parse_digits radix s3 None with
  | Some n => to_double (sign * n)
  | None => NaN
  end.

(** [isNaN(x)] *)
Definition isNaN (x : Number) : bool :=
  match x with
  | NaN => true
  | _ => false
  end.

(** *** [Date.prototype.toISOString] on a time value in milliseconds *)

Fixpoint zeros (n : nat) : string :=
  match n with
  | O => ""
  | S n' => String "0" (zeros n')
  end.

(** [s.padStart(width, "0")]. *)
Definition pad_left (width : nat) (s : string) : string :=
  zeros (width - String.length s) ++ s.

Definition pad (width : nat) (n : Z) : string :=
  pad_left width (string_of_Z n).

(** Civil date of a day count since 1970-01-01. *)
Definition civil_from_days (days : Z) : Z * Z * Z :=
  let z := days + 719468 in
  let era := z / 146097 in
  let doe := z - era * 146097 in
  let yoe := (doe - doe / 1460 + doe / 36524 - doe / 146096) / 365 in
  let y := yoe + era * 400 in
  let doy := doe - (365 * yoe + yoe / 4 - yoe / 100) in
  let mp := (5 * doy + 2) / 153 in
  let d := doy - (153 * mp + 2) / 5 + 1 in
  let m := if mp <? 10 then mp + 3 else mp - 9 in
  (if m <=? 2 then y + 1 else y, m, d).

(** The largest time value of a valid [Date], in either direction. *)
Definition max_time : Z := 8640000000000000.

(** The text of a valid date. *)
Definition iso_string (t : Z) : string :=
  let days := t / 86400000 in
  let ms := t mod 86400000 in
  let '(y, m, d) := civil_from_days days in
  let year :=
    if (0 <=? y) && (y <=? 9999) then pad 4 y
    else (if y <? 0 then "-" else "+") ++ pad 6 (Z.abs y) in
  year ++ "-" ++ pad 2 m ++ "-" ++ pad 2 d ++ "T"
    ++ pad 2 (ms / 3600000) ++ ":" ++ pad 2 (ms / 60000 mod 60) ++ ":"
    ++ pad 2 (ms / 1000 mod 60) ++ "." ++ pad 3 (ms mod 1000) ++ "Z".

(** [d.toISOString()] for the date made from the time value [t]; [None]
    is the [RangeError] thrown for an invalid date, which is what a value
    beyond [max_time] gives. *)
Definition toISOString (t : Z) : option string :=
  if Z.abs t <=? max_time then Some (iso_string t) else None.

End JS.

(* ===================================================================== *)
(** ** Relational state *)
(* ===================================================================== *)

Module Schema.

(** The columns read by the sources. Columns that the sources treat as
    possibly null ([fullDomain], [publicIp], [exitNodeId], [olmId], the
    DNS-authority settings of a resource, a Newt's [siteId]) are options.
    The session and user tables are with the session validator. *)

Record Org := { org_orgId : string; org_name : string }.

Record Site := {
  s_siteId : Z;
  s_orgId : string;
  s_name : string;
  s_publicIp : option string;
  s_dnsAuthorityEnabled : bool;
  s_exitNodeId : option Z
}.

Record Resource := {
  r_resourceId : Z;
  r_name : string;
  r_fullDomain : option string;
  r_ssl : bool;
  r_http : bool;
  r_sso : bool;
  r_blockAccess : bool;
  r_emailWhitelistEnabled : bool;
  r_dnsAuthorityEnabled : bool;
  r_dnsAuthorityTtl : option Z;
  r_dnsAuthorityRoutingPolicy : option string
}.

Record Target := {
  t_targetId : Z;
  t_resourceId : Z;
  t_siteId : Z;
  t_ip : string;
  t_port : Z;
  t_method : option string;
  t_enabled : bool;
  t_priority : Z
}.

Record TargetHealthCheck := {
  hc_targetId : Z;
  hc_hcEnabled : bool;
  hc_hcHealth : option string
}.

Record ResourceWhitelist := { wl_resourceId : Z; wl_email : string }.

Record Newt := { n_newtId : string; n_siteId : option Z }.

Record Olm := { o_olmId : string }.

Record Client := { c_clientId : Z; c_olmId : option string; c_pubKey : option string }.

Record ClientSiteAssociation := { a_clientId : Z; a_siteId : Z }.

Record ExitNode := { e_exitNodeId : Z; e_publicKey : string; e_endpoint : string }.

Record Db := {
  orgs : list Org;
  sites : list Site;
  resources : list Resource;
  targets : list Target;
  targetHealthCheck : list TargetHealthCheck;
  resourceWhitelist : list ResourceWhitelist;
  newts : list Newt;
  clients : list Client;
  clientSitesAssociationsCache : list ClientSiteAssociation;
  exitNodes : list ExitNode
}.

(** [eq(col, v)] against a nullable integer column: null matches nothing. *)
Definition eq_nullable (col : option Z) (v : Z) : bool :=
  match col with
  | Some c => c =? v
  | None => false
  end.

(** [db.select().from(resources).where(eq(resources.resourceId, id)).limit(1)] *)
Definition select_resource (db : Db) (resourceId : Z) : option Resource :=
  find (fun r => r_resourceId r =? resourceId) (resources db).

(** [db.select().from(sites).where(eq(sites.siteId, id)).limit(1)] *)
Definition select_site (db : Db) (siteId : Z) : option Site :=
  find (fun s => s_siteId s =? siteId) (sites db).

(** [db.select().from(orgs).where(eq(orgs.orgId, id)).limit(1)] *)
Definition select_org (db : Db) (orgId : string) : option Org :=
  find (fun o => String.eqb (org_orgId o) orgId) (orgs db).

(** Replace the [targetHealthCheck] table. *)
Definition with_targetHealthCheck (db : Db) (hcs : list TargetHealthCheck) : Db :=
  {| orgs := orgs db; sites := sites db; resources := resources db;
     targets := targets db; targetHealthCheck := hcs;
     resourceWhitelist := resourceWhitelist db; newts := newts db;
     clients := clients db;
     clientSitesAssociationsCache := clientSitesAssociationsCache db;
     exitNodes := exitNodes db |}.

End Schema.
Import Schema.

(* ===================================================================== *)
(** ** Messages and the agent bus *)
(* ===================================================================== *)

Module Bus.

(** dnsAuthority.ts, [DNSAuthorityTarget] *)
Record DNSAuthorityTarget := {
  dt_ip : string;
  dt_priority : Z;
  dt_healthy : bool;
  dt_siteId : Z;
  dt_siteName : string
}.

(** dnsAuthority.ts, [DNSAuthorityConfig] *)
Record DNSAuthorityConfig := {
  z_enabled : bool;
  z_domain : string;
  z_ttl : Z;
  z_routingPolicy : string;
  z_targets : list DNSAuthorityTarget
}.

(** An element of [zones]: a full config, or the [{ domain }] object that
    the remove path casts to a config. *)
Inductive Zone :=
| ZoneConfig (cfg : DNSAuthorityConfig)
| ZoneDomain (domain : string).

Inductive Action := Update | Remove | Start | Stop.

(** dnsAuthority.ts, [DNSAuthorityConfigMessage] *)
Record DNSAuthorityConfigMessage := {
  dm_action : Action;
  dm_zones : list Zone
}.

(** authProxy.ts, [AuthConfig] *)
Record AuthConfig := {
  ac_enabled : bool;
  ac_pangolinUrl : string;
  ac_jwtPublicKey : string;
  ac_cookieName : string;
  ac_cookieDomain : string;
  ac_sessionValidationUrl : string
}.

(** authProxy.ts, [ResourceAuthConfig] *)
Record ResourceAuthConfig := {
  ra_resourceId : Z;
  ra_domain : string;
  ra_sso : bool;
  ra_blockAccess : bool;
  ra_emailWhitelistEnabled : bool;
  ra_allowedEmails : list string;
  ra_targetUrl : string;
  ra_ssl : bool
}.

(** authProxy.ts, [AuthProxyConfigMessage] *)
Record AuthProxyConfigMessage := {
  am_action : Action;
  am_auth : AuthConfig;
  am_resources : list ResourceAuthConfig
}.

(** One entry of [exitNodes] in the [olm/sync] payload. *)
Record ExitNodeData := {
  xd_publicKey : string;
  xd_relayPort : Z;
  xd_endpoint : string;
  xd_siteIds : list Z
}.

Section Messages.

(** What [buildSiteConfigurationForOlmClient] (./buildConfiguration, outside
    these sources) returns per site. *)
Variable SiteConfiguration : Type.

Inductive Payload :=
| DnsAuthorityData (m : DNSAuthorityConfigMessage)
| AuthProxyData (m : AuthProxyConfigMessage)
| OlmSyncData (siteConfigurations : list SiteConfiguration)
              (exitNodesData : list ExitNodeData).

(** The argument pair of [sendToClient(id, { type, data })]. *)
Record Envelope := {
  env_to : string;
  env_type : string;
  env_data : Payload
}.

(** The database and the messages handed to the bus so far, oldest first. *)
Record World := { w_db : Db; w_sent : list Envelope }.

Definition M (A : Type) : Type := World -> A * World.

Definition ret {A} (a : A) : M A := fun w => (a, w).

Definition bind {A B} (m : M A) (k : A -> M B) : M B :=
  fun w => let '(a, w') := m w in k a w'.

(** Read the current database. *)
Definition getDb : M Db := fun w => (w_db w, w).

(** Replace the database (used by [db.update]). *)
Definition putDb (db : Db) : M unit :=
  fun w => (tt, {| w_db := db; w_sent := w_sent w |}).

(** [await sendToClient(id, { type, data })] inside a [try]/[catch] or with
    [.catch] that only logs. *)
Definition sendToClient (id type : string) (data : Payload) : M unit :=
  fun w => (tt, {| w_db := w_db w;
                   w_sent := (w_sent w ++
                     [{| env_to := id; env_type := type; env_data := data |}])%list |}).

(** [for (const x of xs) { await body(x) }] *)
Fixpoint forEach {A} (xs : list A) (body : A -> M unit) : M unit :=
  match xs with
  | [] => ret tt
  | x :: xs' => bind (body x) (fun _ => forEach xs' body)
  end.

(** A [for ... of] loop that updates local variables [acc]. *)
Fixpoint forFold {A S} (xs : list A) (acc : S) (body : S -> A -> M S) : M S :=
  match xs with
  | [] => ret acc
  | x :: xs' => bind (body acc x) (fun acc' => forFold xs' acc' body)
  end.

End Messages.

Arguments DnsAuthorityData {SiteConfiguration}.
Arguments AuthProxyData {SiteConfiguration}.
Arguments OlmSyncData {SiteConfiguration}.
Arguments Build_Envelope {SiteConfiguration}.
Arguments env_to {SiteConfiguration}.
Arguments env_type {SiteConfiguration}.
Arguments env_data {SiteConfiguration}.
Arguments Build_World {SiteConfiguration}.
Arguments w_db {SiteConfiguration}.
Arguments w_sent {SiteConfiguration}.
Arguments ret {SiteConfiguration A}.
Arguments bind {SiteConfiguration A B}.
Arguments getDb {SiteConfiguration}.
Arguments putDb {SiteConfiguration}.
Arguments sendToClient {SiteConfiguration}.
Arguments forEach {SiteConfiguration A}.
Arguments forFold {SiteConfiguration A S}.

Declare Scope monad_scope.
Delimit Scope monad_scope with monad.
Notation "x <- m ;; k" := (bind m (fun x => k))
  (at level 61, m at next level, right associativity) : monad_scope.
Notation "m ;; k" := (bind m (fun _ => k))
  (at level 61, right associativity) : monad_scope.

End Bus.
Import Bus.
Local Open Scope monad_scope.

(* ===================================================================== *)
(** ** server/routers/dns/dnsAuthority.ts *)
(* ===================================================================== *)

Module DnsAuthority.

(** A row of the [resourceTargets] query of [buildDNSAuthorityConfig]:
    targets inner-joined with sites, left-joined with targetHealthCheck. *)
Record TargetRow := {
  row_targetId : Z;
  row_siteId : Z;
  row_ip : string;
  row_port : Z;
  row_enabled : bool;
  row_priority : Z;
  row_siteName : string;
  row_sitePublicIp : option string;
  row_siteDnsAuthorityEnabled : bool;
  row_hcEnabled : option bool;
  row_hcHealth : option string
}.

Definition mkTargetRow (t : Target) (s : Site) (h : option TargetHealthCheck)
  : TargetRow :=
  {| row_targetId := t_targetId t;
     row_siteId := t_siteId t;
     row_ip := t_ip t;
     row_port := t_port t;
     row_enabled := t_enabled t;
     row_priority := t_priority t;
     row_siteName := s_name s;
     row_sitePublicIp := s_publicIp s;
     row_siteDnsAuthorityEnabled := s_dnsAuthorityEnabled s;
     row_hcEnabled := option_map hc_hcEnabled h;
     row_hcHealth := match h with Some h' => hc_hcHealth h' | None => None end |}.

(** [.leftJoin(targetHealthCheck, eq(targets.targetId, targetHealthCheck.targetId))] *)
Definition leftJoinHealth (db : Db) (t : Target) : list (option TargetHealthCheck) :=
  match filter (fun h => hc_targetId h =? t_targetId t) (targetHealthCheck db) with
  | [] => [None]
  | hs => map Some hs
  end.

(** The [resourceTargets] query of [buildDNSAuthorityConfig]. *)
Definition selectResourceTargets (db : Db) (resourceId : Z) : list TargetRow :=
  flat_map (fun t =>
    flat_map (fun s => map (mkTargetRow t s) (leftJoinHealth db t))
      (filter (fun s => t_siteId t =? s_siteId s) (sites db)))
    (filter (fun t => t_resourceId t =? resourceId) (targets db)).

(** The predicate of [validTargets]. *)
Definition validTarget (t : TargetRow) : bool :=
  row_enabled t && JS.truthy_str (row_sitePublicIp t)
    && row_siteDnsAuthorityEnabled t.

(** The mapping that builds [dnsTargets]. [t.sitePublicIp!] is applied to
    rows that passed [validTarget], where the column is not null; the
    [None] branch is never taken. *)
Definition dnsTarget (t : TargetRow) : DNSAuthorityTarget :=
  {| dt_ip := match row_sitePublicIp t with Some ip => ip | None => "" end;
     dt_priority := JS.or_Z (row_priority t) 100;
     dt_healthy :=
       if JS.truthy_bool (row_hcEnabled t)
       then match row_hcHealth t with
            | Some h => String.eqb h "healthy"
            | None => false
            end
       else true;
     dt_siteId := row_siteId t;
     dt_siteName :=
       if String.eqb (row_siteName t) ""
       then "Site " ++ JS.string_of_Z (row_siteId t)
       else row_siteName t |}.

Definition buildDNSAuthorityConfig (db : Db) (resourceId : Z)
  : option DNSAuthorityConfig :=
  match select_resource db resourceId with
  | None => None
  | Some resource =>
      if negb (r_dnsAuthorityEnabled resource) then None
      else
        let domain := r_fullDomain resource in
        if negb (JS.truthy_str domain) then None
        else
          let resourceTargets := selectResourceTargets db resourceId in
          let validTargets := filter validTarget resourceTargets in
          if (List.length validTargets =? 0)%nat then None
          else
            let dnsTargets := map dnsTarget validTargets in
            Some {| z_enabled := true;
                    z_domain := match domain with Some d => d | None => "" end;
                    z_ttl := JS.or_num (r_dnsAuthorityTtl resource) 60;
                    z_routingPolicy :=
                      JS.or_str (r_dnsAuthorityRoutingPolicy resource) "failover";
                    z_targets := dnsTargets |}
  end.

(** The per-site query of [getDNSAuthoritySiteOlmIds]:
    clientSitesAssociationsCache inner-joined with clients, for one site,
    where [clients.olmId] is not null. *)
Definition selectOlmClients (db : Db) (siteId : Z) : list (option string) :=
  flat_map (fun a =>
    map c_olmId
      (filter (fun c => (a_clientId a =? c_clientId c)
                          && match c_olmId c with Some _ => true | None => false end)
         (clients db)))
    (filter (fun a => a_siteId a =? siteId) (clientSitesAssociationsCache db)).

(** Site ids of the enabled targets of the resource whose site has DNS
    authority enabled and a public IP (one entry per target). *)
Definition dnsAuthoritySiteIds (db : Db) (resourceId : Z) : list Z :=
  map fst
    (filter (fun t : Z * Site =>
               s_dnsAuthorityEnabled (snd t) && JS.truthy_str (s_publicIp (snd t)))
       (flat_map (fun t =>
          map (fun s => (t_siteId t, s))
            (filter (fun s => t_siteId t =? s_siteId s) (sites db)))
          (filter (fun t => (t_resourceId t =? resourceId) && t_enabled t)
             (targets db)))).

Definition getDNSAuthoritySiteOlmIds (db : Db) (resourceId : Z) : list string :=
  let siteIds := dnsAuthoritySiteIds db resourceId in
  match siteIds with
  | [] => []
  | first :: others =>
      let olmClients :=
        (selectOlmClients db first ++ flat_map (selectOlmClients db) others)%list in
      JS.set_of_list String.eqb
        (flat_map (fun id : option string =>
                     match id with
                     | Some i => if JS.truthy_str id then [i] else []
                     | None => []
                     end)
           olmClients)
  end.

(** A row of the query of [getDNSAuthoritySiteNewtIds], after the final map. *)
Record NewtSite := { ns_newtId : string; ns_siteId : Z }.

Definition getDNSAuthoritySiteNewtIds (db : Db) (resourceId : Z) : list NewtSite :=
  let resourceTargets :=
    flat_map (fun t =>
      flat_map (fun s =>
        map (fun n => (t, s, n))
          (filter (fun n => eq_nullable (n_siteId n) (s_siteId s)) (newts db)))
        (filter (fun s => t_siteId t =? s_siteId s) (sites db)))
      (filter (fun t => (t_resourceId t =? resourceId) && t_enabled t)
         (targets db)) in
  filter (fun t => negb (String.eqb (ns_newtId t) ""))
    (map (fun '(t, s, n) => {| ns_newtId := n_newtId n; ns_siteId := t_siteId t |})
       (filter (fun '(t, s, n) =>
                  JS.truthy_str (s_publicIp s) && s_dnsAuthorityEnabled s)
          resourceTargets)).

Section Dispatch.

Variable SC : Type.
Local Abbreviation M := (Bus.M SC).

Definition sendDNSAuthorityConfigToNewt (newtId : string)
    (config : DNSAuthorityConfigMessage) : M unit :=
  sendToClient newtId "newt/dns/authority/config" (DnsAuthorityData config).

Definition sendDNSAuthorityConfigToOlm (olmId : string)
    (config : DNSAuthorityConfigMessage) : M unit :=
  sendToClient olmId "olm/dns/authority/config" (DnsAuthorityData config).

(** The body shared by the two loops of [updateDNSAuthorityForResource]:
    an update when there is a config, otherwise a remove when the resource
    still has a domain. *)
Definition dispatchZone (send : string -> DNSAuthorityConfigMessage -> M unit)
    (config : option DNSAuthorityConfig) (resourceId : Z) (agentId : string)
  : M unit :=
  match config with
  | Some cfg => send agentId {| dm_action := Update; dm_zones := [ZoneConfig cfg] |}
  | None =>
      db <- getDb ;;
      match select_resource db resourceId with
      | Some resource =>
          match r_fullDomain resource with
          | Some d =>
              if JS.truthy_str (Some d)
              then send agentId {| dm_action := Remove; dm_zones := [ZoneDomain d] |}
              else ret tt
          | None => ret tt
          end
      | None => ret tt
      end
  end.

Definition updateDNSAuthorityForResource (resourceId : Z) : M unit :=
  db <- getDb ;;
  let config := buildDNSAuthorityConfig db resourceId in
  db <- getDb ;;
  let newtSites := getDNSAuthoritySiteNewtIds db resourceId in
  forEach newtSites (fun ns =>
    dispatchZone sendDNSAuthorityConfigToNewt config resourceId (ns_newtId ns)) ;;
  db <- getDb ;;
  let olmIds := getDNSAuthoritySiteOlmIds db resourceId in
  forEach olmIds (fun olmId =>
    dispatchZone sendDNSAuthorityConfigToOlm config resourceId olmId).

(** The query of [onHealthCheckUpdate] and [updateDNSAuthorityHealthForTarget]:
    targets inner-joined with resources, for one target id, first row. *)
Definition selectTargetInfo (db : Db) (targetId : Z) : option (Z * bool) :=
  hd_error
    (flat_map (fun t =>
       map (fun r => (t_resourceId t, r_dnsAuthorityEnabled r))
         (filter (fun r => t_resourceId t =? r_resourceId r) (resources db)))
       (filter (fun t => t_targetId t =? targetId) (targets db))).

Definition updateDNSAuthorityHealthForTarget (targetId : Z)
    (newHealthStatus : string) : M unit :=
  db <- getDb ;;
  match selectTargetInfo db targetId with
  | Some (resourceId, true) => updateDNSAuthorityForResource resourceId
  | _ => ret tt
  end.

(** The first loop of [onHealthCheckUpdate]: the [resourceIds] set. *)
Definition collectResourceIds (targetIds : list Z) : M (list Z) :=
  forFold targetIds [] (fun resourceIds targetId =>
    db <- getDb ;;
    match selectTargetInfo db targetId with
    | Some (resourceId, true) => ret (JS.set_add Z.eqb resourceIds resourceId)
    | _ => ret resourceIds
    end).

Definition onHealthCheckUpdate (targetIds : list Z) : M unit :=
  resourceIds <- collectResourceIds targetIds ;;
  forEach resourceIds updateDNSAuthorityForResource.

End Dispatch.

End DnsAuthority.

(* ===================================================================== *)
(** ** server/routers/olm/sync.ts *)
(* ===================================================================== *)

Module OlmSync.
Import DnsAuthority.

Section Sync.

Variable SC : Type.
Local Abbreviation M := (Bus.M SC).

(** [buildSiteConfigurationForOlmClient(client, publicKey, relay)], imported
    from ./buildConfiguration. *)
Variable buildSiteConfigurationForOlmClient :
  Db -> Client -> option string -> bool -> list SC.

(** [config.getRawConfig().gerbil.clients_start_port] *)
Variable clients_start_port : Z.

(** The [clientSites] query: clientSitesAssociationsCache inner-joined with
    sites, for one client; the site of each row. *)
Definition selectClientSites (db : Db) (clientId : Z) : list Site :=
  flat_map (fun a => filter (fun s => s_siteId s =? a_siteId a) (sites db))
    (filter (fun a => a_clientId a =? clientId) (clientSitesAssociationsCache db)).

Definition exitNodesData (db : Db) (clientSites : list Site) : list ExitNodeData :=
  let exitNodeIds :=
    JS.set_of_list Z.eqb
      (flat_map (fun s => match s_exitNodeId s with Some i => [i] | None => [] end)
         clientSites) in
  if (0 <? List.length exitNodeIds)%nat then
    let allExitNodes :=
      filter (fun e => JS.mem Z.eqb (e_exitNodeId e) exitNodeIds) (exitNodes db) in
    let exitNodeIdToSiteIds (exitNodeId : Z) : list Z :=
      map s_siteId
        (filter (fun s => eq_nullable (s_exitNodeId s) exitNodeId) clientSites) in
    map (fun exitNode =>
           {| xd_publicKey := e_publicKey exitNode;
              xd_relayPort := clients_start_port;
              xd_endpoint := e_endpoint exitNode;
              xd_siteIds := exitNodeIdToSiteIds (e_exitNodeId exitNode) |})
      allExitNodes
  else [].

(** The [dnsResources] query of [sendDNSAuthorityZonesToOlm]: targets
    inner-joined with resources and sites, where the target is enabled and
    both the resource and the site have DNS authority enabled. *)
Record DnsResourceRow := {
  dr_resourceId : Z;
  dr_dnsAuthorityEnabled : bool;
  dr_siteDnsAuthorityEnabled : bool;
  dr_sitePublicIp : option string
}.

Definition selectDnsResources (db : Db) : list DnsResourceRow :=
  flat_map (fun t =>
    flat_map (fun r =>
      map (fun s =>
             {| dr_resourceId := r_resourceId r;
                dr_dnsAuthorityEnabled := r_dnsAuthorityEnabled r;
                dr_siteDnsAuthorityEnabled := s_dnsAuthorityEnabled s;
                dr_sitePublicIp := s_publicIp s |})
        (filter (fun s => (t_siteId t =? s_siteId s) && s_dnsAuthorityEnabled s)
           (sites db)))
      (filter (fun r => (t_resourceId t =? r_resourceId r) && r_dnsAuthorityEnabled r)
         (resources db)))
    (filter t_enabled (targets db)).

(** The resource ids whose zones are built: [relevantResourceIds]. *)
Definition relevantResourceIds (db : Db) : list Z :=
  JS.set_of_list Z.eqb
    (map dr_resourceId
       (filter (fun r => JS.truthy_str (dr_sitePublicIp r)
                           && dr_siteDnsAuthorityEnabled r)
          (selectDnsResources db))).

(** The [zones] array: the non-null configs of the relevant resources. *)
Definition buildZones (db : Db) (resourceIds : list Z) : list DNSAuthorityConfig :=
  flat_map (fun resourceId =>
              match buildDNSAuthorityConfig db resourceId with
              | Some zoneConfig => [zoneConfig]
              | None => []
              end)
    resourceIds.

Definition sendDNSAuthorityZonesToOlm (olm : Olm) (client : Client) : M unit :=
  db <- getDb ;;
  let associatedSites :=
    filter (fun a => a_clientId a =? c_clientId client)
      (clientSitesAssociationsCache db) in
  if (List.length associatedSites =? 0)%nat then ret tt
  else
    let siteIds := map a_siteId associatedSites in
    db <- getDb ;;
    let relevant := relevantResourceIds db in
    if (List.length relevant =? 0)%nat then ret tt
    else
      db <- getDb ;;
      let zones := buildZones db relevant in
      if (0 <? List.length zones)%nat
      then sendDNSAuthorityConfigToOlm SC (o_olmId olm)
             {| dm_action := Update; dm_zones := map ZoneConfig zones |}
      else ret tt.

Definition sendOlmSyncMessage (olm : Olm) (client : Client) : M unit :=
  db <- getDb ;;
  let siteConfigurations :=
    buildSiteConfigurationForOlmClient db client (c_pubKey client) false in
  db <- getDb ;;
  let clientSites := selectClientSites db (c_clientId client) in
  let exitNodesData := exitNodesData db clientSites in
  sendToClient (o_olmId olm) "olm/sync"
    (OlmSyncData siteConfigurations exitNodesData) ;;
  sendDNSAuthorityZonesToOlm olm client.

End Sync.

End OlmSync.

(* ===================================================================== *)
(** ** server/routers/target/handleHealthcheckStatusMessage.ts *)
(* ===================================================================== *)

Module Healthcheck.
Import DnsAuthority.

(** [TargetHealthStatus]; the [config] echo of the health-check knobs is
    not read by the handler and is left out. *)
Record TargetHealthStatus := {
  hs_status : string;
  hs_lastCheck : string;
  hs_checkCount : Z;
  hs_lastError : option string
}.

(** [message.data]: [targets] is [None] when the field is missing, and
    otherwise the list [Object.entries(data.targets)]. *)
Record HealthcheckStatusMessage := {
  hm_targets : option (list (string * TargetHealthStatus))
}.

(** The local variables of the handler's loop. *)
Record Tally := {
  successCount : Z;
  errorCount : Z;
  updatedTargetIds : list Z
}.

(** The [targetCheck] query: targets inner-joined with resources and sites,
    for one target id and the reporting Newt's site, first row. *)
Definition selectTargetCheck (db : Db) (targetIdNum newtSiteId : Z)
  : option (Z * Z) :=
  hd_error
    (flat_map (fun t =>
       flat_map (fun r =>
         map (fun s => (t_targetId t, t_siteId t))
           (filter (fun s => (t_siteId t =? s_siteId s) && (s_siteId s =? newtSiteId))
              (sites db)))
         (filter (fun r => t_resourceId t =? r_resourceId r) (resources db)))
       (filter (fun t => t_targetId t =? targetIdNum) (targets db))).

(** [db.update(targetHealthCheck).set({ hcHealth }).where(eq(targetId, id))] *)
Definition updateHcHealth (db : Db) (targetIdNum : Z) (status : string) : Db :=
  with_targetHealthCheck db
    (map (fun h =>
            if hc_targetId h =? targetIdNum
            then {| hc_targetId := hc_targetId h;
                    hc_hcEnabled := hc_hcEnabled h;
                    hc_hcHealth := Some status |}
            else h)
       (targetHealthCheck db)).

Section Handler.

Variable SC : Type.
Local Abbreviation M := (Bus.M SC).

(** One iteration of the loop over [Object.entries(data.targets)]. *)
Definition processEntry (newtSiteId : Z) (tally : Tally)
    (entry : string * TargetHealthStatus) : M Tally :=
  let '(targetId, healthStatus) := entry in
  match JS.parseInt targetId with
  | JS.NaN =>
      ret {| successCount := successCount tally;
             errorCount := errorCount tally + 1;
             updatedTargetIds := updatedTargetIds tally |}
  | JS.Infinity _ =>
      (* [isNaN] is false of an infinity; the [targetCheck] query then
         compares the integer column [targetId] with it and has no row *)
      ret {| successCount := successCount tally;
             errorCount := errorCount tally + 1;
             updatedTargetIds := updatedTargetIds tally |}
  | JS.Num targetIdNum =>
      db <- getDb ;;
      match selectTargetCheck db targetIdNum newtSiteId with
      | None =>
          ret {| successCount := successCount tally;
                 errorCount := errorCount tally + 1;
                 updatedTargetIds := updatedTargetIds tally |}
      | Some _ =>
          db <- getDb ;;
          putDb (updateHcHealth db targetIdNum (hs_status healthStatus)) ;;
          ret {| successCount := successCount tally + 1;
                 errorCount := errorCount tally;
                 updatedTargetIds :=
                   (updatedTargetIds tally ++ [targetIdNum])%list |}
      end
  end.

(** The loop, from given values of the counters. *)
Definition processEntries (newtSiteId : Z)
    (entries : list (string * TargetHealthStatus)) (tally : Tally) : M Tally :=
  forFold entries tally (processEntry newtSiteId).

Definition emptyTally : Tally :=
  {| successCount := 0; errorCount := 0; updatedTargetIds := [] |}.

(** The handler; it returns the final counters, which the source logs. *)
Definition handleHealthcheckStatusMessage (newt : option Newt)
    (data : HealthcheckStatusMessage) : M (option Tally) :=
  match newt with
  | None => ret None
  | Some newt =>
      match n_siteId newt with
      | None => ret None
      | Some newtSiteId =>
          if newtSiteId =? 0 then ret None
          else
            match hm_targets data with
            | None => ret None
            | Some entries =>
                tally <- processEntries newtSiteId entries emptyTally ;;
                (if (0 <? List.length (updatedTargetIds tally))%nat
                 then onHealthCheckUpdate SC (updatedTargetIds tally)
                 else ret tt) ;;
                ret (Some tally)
            end
      end
  end.

End Handler.

End Healthcheck.

(* ===================================================================== *)
(** ** server/lib/jwtKeypair.ts (the part read by the auth-proxy builder) *)
(* ===================================================================== *)

Module JwtKeypair.

(** The module-level cache and what [loadJwtKeypair] would return from the
    files under [auth/]: [None] when a file is missing or unreadable. *)
Record KeyStore := {
  cachedPublicKeyPem : option string;
  loadedPublicKeyPem : option string
}.

Definition getJwtPublicKeyPem (ks : KeyStore) : string :=
  if JS.truthy_str (cachedPublicKeyPem ks)
  then match cachedPublicKeyPem ks with Some pem => pem | None => "" end
  else match loadedPublicKeyPem ks with
       | Some pem => pem
       | None => ""
       end.

End JwtKeypair.

(* ===================================================================== *)
(** ** server/routers/auth/authProxy.ts *)
(* ===================================================================== *)

Module AuthProxy.
Import JwtKeypair.

(** The options of [config.getRawConfig()] read by the builder. *)
Record RawConfig := {
  app_dashboard_url : option string;
  server_secret : option string
}.

(** A row of the [siteTargets] query: targets inner-joined with resources. *)
Record SiteTargetRow := {
  st_resourceId : Z;
  st_siteId : Z;
  st_targetIp : string;
  st_targetPort : Z;
  st_targetMethod : option string;
  st_resourceName : string;
  st_fullDomain : option string;
  st_sso : bool;
  st_blockAccess : bool;
  st_emailWhitelistEnabled : bool;
  st_ssl : bool;
  st_http : bool;
  st_dnsAuthorityEnabled : bool
}.

Definition mkSiteTargetRow (t : Target) (r : Resource) : SiteTargetRow :=
  {| st_resourceId := t_resourceId t;
     st_siteId := t_siteId t;
     st_targetIp := t_ip t;
     st_targetPort := t_port t;
     st_targetMethod := t_method t;
     st_resourceName := r_name r;
     st_fullDomain := r_fullDomain r;
     st_sso := r_sso r;
     st_blockAccess := r_blockAccess r;
     st_emailWhitelistEnabled := r_emailWhitelistEnabled r;
     st_ssl := r_ssl r;
     st_http := r_http r;
     st_dnsAuthorityEnabled := r_dnsAuthorityEnabled r |}.

Definition selectSiteTargets (db : Db) (siteId : Z) : list SiteTargetRow :=
  flat_map (fun t =>
    map (mkSiteTargetRow t)
      (filter (fun r => t_resourceId t =? r_resourceId r) (resources db)))
    (filter (fun t => (t_siteId t =? siteId) && t_enabled t) (targets db)).

(** The predicate of [protectedResources]. *)
Definition isProtected (t : SiteTargetRow) : bool :=
  st_dnsAuthorityEnabled t
    && (st_sso t || st_blockAccess t || st_emailWhitelistEnabled t).

(** The body of the loop that fills [resourceConfigs]. *)
Definition resourceConfig (db : Db) (target : SiteTargetRow)
  : list ResourceAuthConfig :=
  match st_fullDomain target with
  | None => []
  | Some fullDomain =>
      if negb (JS.truthy_str (Some fullDomain)) then []
      else
        let allowedEmails :=
          if st_emailWhitelistEnabled target
          then map wl_email
                 (filter (fun w => wl_resourceId w =? st_resourceId target)
                    (resourceWhitelist db))
          else [] in
        let scheme := if st_ssl target then "https" else "http" in
        let targetUrl :=
          scheme ++ "://" ++ st_targetIp target ++ ":"
            ++ JS.string_of_Z (st_targetPort target) in
        [{| ra_resourceId := st_resourceId target;
            ra_domain := fullDomain;
            ra_sso := st_sso target || false;
            ra_blockAccess := st_blockAccess target || false;
            ra_emailWhitelistEnabled := st_emailWhitelistEnabled target || false;
            ra_allowedEmails := allowedEmails;
            ra_targetUrl := targetUrl;
            ra_ssl := st_ssl target || false |}]
  end.

Section Builder.

(** [new URL(url).hostname] of the runtime; [None] when the constructor
    throws. *)
Variable URL_hostname : string -> option string.

Variable config : RawConfig.
Variable keys : KeyStore.

Definition extractBaseDomain (url : string) : string :=
  match URL_hostname url with
  | Some hostname =>
      let parts := JS.split "." hostname in
      if (2 <=? List.length parts)%nat
      then "." ++ JS.join "." (JS.slice_last 2 parts)
      else hostname
  | None => ""
  end.

Definition buildAuthProxyConfig (db : Db) (siteId : Z)
  : option AuthProxyConfigMessage :=
  match select_site db siteId with
  | None => None
  | Some site =>
      match select_org db (s_orgId site) with
      | None => None
      | Some org =>
          let siteTargets := selectSiteTargets db siteId in
          let protectedResources := filter isProtected siteTargets in
          if (List.length protectedResources =? 0)%nat then None
          else
            let dashboardUrl := app_dashboard_url config in
            let serverSecret := server_secret config in
            match dashboardUrl with
            | None => None
            | Some resolvedDashboardUrl =>
                if negb (JS.truthy_str dashboardUrl) then None
                else
                  let authConfig :=
                    {| ac_enabled := true;
                       ac_pangolinUrl := resolvedDashboardUrl;
                       ac_jwtPublicKey := getJwtPublicKeyPem keys;
                       ac_cookieName := "p_session";
                       ac_cookieDomain := extractBaseDomain resolvedDashboardUrl;
                       ac_sessionValidationUrl :=
                         resolvedDashboardUrl ++ "/api/v1/auth/session/validate" |} in
                  let resourceConfigs :=
                    flat_map (resourceConfig db) protectedResources in
                  Some {| am_action := Update;
                          am_auth := authConfig;
                          am_resources := resourceConfigs |}
            end
      end
  end.

Variable SC : Type.
Local Abbreviation M := (Bus.M SC).

Definition sendAuthProxyConfigToNewt (newtId : string)
    (cfg : AuthProxyConfigMessage) : M unit :=
  sendToClient newtId "newt/auth/proxy/config" (AuthProxyData cfg).

(** The query of [updateAuthProxyForSite]: sites inner-joined with newts,
    for one site, first row. *)
Definition selectSiteNewt (db : Db) (siteId : Z) : option string :=
  hd_error
    (flat_map (fun s =>
       map n_newtId
         (filter (fun n => eq_nullable (n_siteId n) (s_siteId s)) (newts db)))
       (filter (fun s => s_siteId s =? siteId) (sites db))).

Definition updateAuthProxyForSite (siteId : Z) : M unit :=
  db <- getDb ;;
  match selectSiteNewt db siteId with
  | None => ret tt
  | Some newtId =>
      if String.eqb newtId "" then ret tt
      else
        db <- getDb ;;
        match buildAuthProxyConfig db siteId with
        | Some cfg => sendAuthProxyConfigToNewt newtId cfg
        | None => ret tt
        end
  end.

(** The query of [updateAuthProxyForResource]: targets inner-joined with
    sites and newts, for the enabled targets of one resource. *)
Definition selectResourceNewts (db : Db) (resourceId : Z) : list (Z * string) :=
  flat_map (fun t =>
    flat_map (fun s =>
      map (fun n => (t_siteId t, n_newtId n))
        (filter (fun n => eq_nullable (n_siteId n) (s_siteId s)) (newts db)))
      (filter (fun s => t_siteId t =? s_siteId s) (sites db)))
    (filter (fun t => (t_resourceId t =? resourceId) && t_enabled t) (targets db)).

Definition updateAuthProxyForResource (resourceId : Z) : M unit :=
  db <- getDb ;;
  let resourceTargets := selectResourceNewts db resourceId in
  let siteIds := JS.set_of_list Z.eqb (map fst resourceTargets) in
  forEach siteIds (fun siteId =>
    db <- getDb ;;
    match buildAuthProxyConfig db siteId with
    | Some cfg =>
        match find (fun t => fst t =? siteId) resourceTargets with
        | Some target =>
            if String.eqb (snd target) "" then ret tt
            else sendAuthProxyConfigToNewt (snd target) cfg
        | None => ret tt
        end
    | None => ret tt
    end).

End Builder.

(** A reference instance of the URL parser for simple absolute URLs
    [scheme://host], [scheme://host:port], [scheme://host/path]; it fails on
    anything without ["://"]. Used by the examples. *)
Fixpoint after_scheme (s : string) : option string :=
  match s with
  | EmptyString => None
  | String c r =>
      if JS.starts_with "://" s then Some (JS.drop 3 s) else after_scheme r
  end.

Fixpoint until_delim (s : string) : string :=
  match s with
  | EmptyString => EmptyString
  | String c r =>
      if (Ascii.eqb c ":" || Ascii.eqb c "/" || Ascii.eqb c "?" || Ascii.eqb c "#")%bool
      then EmptyString
      else String c (until_delim r)
  end.

Definition simple_hostname (url : string) : option string :=
  option_map until_delim (after_scheme url).

End AuthProxy.

(* ===================================================================== *)
(** ** server/routers/auth/validateSession.ts *)
(* ===================================================================== *)

Module ValidateSession.

Record Session := {
  sessionId : string;
  sessionToken : string;
  sess_userId : string;
  expiresAt : Z
}.

Record User := { userId : string; email : option string }.

(** The result of awaiting a query: its rows, or a thrown error. *)
Inductive Outcome (A : Type) :=
| Rows (rows : A)
| Throws.
Arguments Rows {A}.
Arguments Throws {A}.

Record Store := {
  sessions : Outcome (list Session);
  users : Outcome (list User)
}.

(** The parts of an express request that the handler reads. *)
Record Request := {
  cookies_p_session : option string;
  headers_authorization : option string
}.

Record SessionValidationResponse := {
  valid : bool;
  resp_userId : option string;
  resp_email : option string;
  resp_orgId : option string;
  resp_expiresAt : option string
}.

(** The argument of [response(res, ...)]. *)
Record Response := {
  data : SessionValidationResponse;
  success : bool;
  error : bool;
  message : string;
  status : Z
}.

Definition HttpCode_OK : Z := 200.
Definition HttpCode_INTERNAL_SERVER_ERROR : Z := 500.

Definition invalid : SessionValidationResponse :=
  {| valid := false; resp_userId := None; resp_email := None;
     resp_orgId := None; resp_expiresAt := None |}.

(** [req.cookies?.p_session || req.headers.authorization?.replace("Bearer ", "")] *)
Definition extractToken (req : Request) : option string :=
  if JS.truthy_str (cookies_p_session req) then cookies_p_session req
  else option_map (JS.replace "Bearer " "") (headers_authorization req).

Definition validateSession (st : Store) (now : Z) (req : Request) : Response :=
  match extractToken req with
  | None =>
      {| data := invalid; success := true; error := false;
         message := "No session token provided"; status := HttpCode_OK |}
  | Some token =>
      if negb (JS.truthy_str (Some token)) then
        {| data := invalid; success := true; error := false;
           message := "No session token provided"; status := HttpCode_OK |}
      else
        match sessions st with
        | Throws =>
            {| data := invalid; success := false; error := true;
               message := "Session validation failed";
               status := HttpCode_INTERNAL_SERVER_ERROR |}
        | Rows rows =>
            match find (fun s => String.eqb (sessionToken s) token
                                   && (now <? expiresAt s)) rows with
            | None =>
                {| data := invalid; success := true; error := false;
                   message := "Invalid or expired session"; status := HttpCode_OK |}
            | Some session =>
                match users st with
                | Throws =>
                    {| data := invalid; success := false; error := true;
                       message := "Session validation failed";
                       status := HttpCode_INTERNAL_SERVER_ERROR |}
                | Rows urows =>
                    match find (fun u => String.eqb (userId u) (sess_userId session))
                            urows with
                    | None =>
                        {| data := invalid; success := true; error := false;
                           message := "User not found"; status := HttpCode_OK |}
                    | Some user =>
                        match JS.toISOString (expiresAt session) with
                        | None =>
                            (* the [RangeError] lands in the [catch] *)
                            {| data := invalid; success := false; error := true;
                               message := "Session validation failed";
                               status := HttpCode_INTERNAL_SERVER_ERROR |}
                        | Some iso =>
                            {| data :=
                                 {| valid := true;
                                    resp_userId := Some (userId user);
                                    resp_email := email user;
                                    resp_orgId := None;
                                    resp_expiresAt := Some iso |};
                               success := true; error := false;
                               message := "Session valid";
                               status := HttpCode_OK |}
                        end
                    end
                end
            end
        end
  end.

End ValidateSession.

(* ===================================================================== *)
(** ** server/lib/jwtKeypair.ts, with its files and its cache *)
(* ===================================================================== *)

Module JwtKeypairFiles.

Section Crypto.

(** [crypto.KeyObject] *)
Variable KeyObject : Type.

(** [crypto.createPrivateKey(pem)]; [None] when it throws. *)
Variable createPrivateKey : string -> option KeyObject.

(** The [auth/] directory with its two files (their contents when they
    exist) and the two module-level caches. File modes are not modelled,
    and reading an existing file succeeds. *)
Record KeyState := {
  authDir : bool;
  privateKeyFile : option string;
  publicKeyFile : option string;
  cachedPrivateKey : option KeyObject;
  cachedPublicKeyPem : option string
}.

(** What [crypto.generateKeyPairSync] returns, with the two PEM exports. *)
Record Generated := {
  g_privateKey : KeyObject;
  g_privateKeyPem : string;
  g_publicKeyPem : string
}.

Definition generateJwtKeypair (g : Generated) (st : KeyState)
  : (KeyObject * string) * KeyState :=
  ((g_privateKey g, g_publicKeyPem g),
   {| authDir := true;
      privateKeyFile := Some (g_privateKeyPem g);
      publicKeyFile := Some (g_publicKeyPem g);
      cachedPrivateKey := Some (g_privateKey g);
      cachedPublicKeyPem := Some (g_publicKeyPem g) |}).

Definition loadJwtKeypair (st : KeyState)
  : option (KeyObject * string) * KeyState :=
  match privateKeyFile st, publicKeyFile st with
  | Some privateKeyPem, Some publicKeyPem =>
      match createPrivateKey privateKeyPem with
      | Some privateKey =>
          (Some (privateKey, publicKeyPem),
           {| authDir := authDir st;
              privateKeyFile := privateKeyFile st;
              publicKeyFile := publicKeyFile st;
              cachedPrivateKey := Some privateKey;
              cachedPublicKeyPem := Some publicKeyPem |})
      | None => (None, st)
      end
  | _, _ => (None, st)
  end.

Definition ensureJwtKeypair (g : Generated) (st : KeyState)
  : (KeyObject * string) * KeyState :=
  match loadJwtKeypair st with
  | (Some existing, st') => (existing, st')
  | (None, st') => generateJwtKeypair g st'
  end.

Definition getJwtPublicKeyPem (st : KeyState) : string * KeyState :=
  match cachedPublicKeyPem st with
  | Some pem =>
      if JS.truthy_str (Some pem) then (pem, st)
      else match loadJwtKeypair st with
           | (Some loaded, st') => (snd loaded, st')
           | (None, st') => ("", st')
           end
  | None =>
      match loadJwtKeypair st with
      | (Some loaded, st') => (snd loaded, st')
      | (None, st') => ("", st')
      end
  end.

Definition getJwtPrivateKey (st : KeyState) : option KeyObject * KeyState :=
  match cachedPrivateKey st with
  | Some key => (Some key, st)
  | None =>
      match loadJwtKeypair st with
      | (Some loaded, st') => (Some (fst loaded), st')
      | (None, st') => (None, st')
      end
  end.

End Crypto.

Arguments authDir {KeyObject}.
Arguments privateKeyFile {KeyObject}.
Arguments publicKeyFile {KeyObject}.
Arguments cachedPrivateKey {KeyObject}.
Arguments cachedPublicKeyPem {KeyObject}.
Arguments Build_KeyState {KeyObject}.
Arguments g_privateKey {KeyObject}.
Arguments g_privateKeyPem {KeyObject}.
Arguments g_publicKeyPem {KeyObject}.
Arguments Build_Generated {KeyObject}.
Arguments generateJwtKeypair {KeyObject}.
Arguments loadJwtKeypair {KeyObject}.
Arguments ensureJwtKeypair {KeyObject}.
Arguments getJwtPublicKeyPem {KeyObject}.
Arguments getJwtPrivateKey {KeyObject}.

End JwtKeypairFiles.

(* ===================================================================== *)
(** ** src/app/[orgId]/settings/sites/[niceId]/general/page.tsx
       (the form logic of the site settings) *)
(* ===================================================================== *)

Module SiteSettingsForm.

(** [GeneralFormValues]; an optional or nullable field that is missing or
    null is [None]. *)
Record GeneralFormValues := {
  f_name : string;
  f_niceId : option string;
  f_dockerSocketEnabled : option bool;
  f_publicIp : option string;
  f_dnsAuthorityEnabled : option bool
}.

(** The [.refine] predicate of [GeneralFormSchema]. *)
Definition refinement (data : GeneralFormValues) : bool :=
  negb (JS.truthy_bool (f_dnsAuthorityEnabled data))
  || (JS.truthy_str (f_publicIp data)
      && match f_publicIp data with
         | Some ip => negb (String.eqb ip "")
         | None => true
         end).

(** The body that [onSubmit] posts to [/site/:siteId]. *)
Record SiteUpdate := {
  u_name : string;
  u_niceId : option string;
  u_dockerSocketEnabled : option bool;
  u_publicIp : option string;
  u_dnsAuthorityEnabled : option bool
}.

Definition submitted (data : GeneralFormValues) : SiteUpdate :=
  {| u_name := f_name data;
     u_niceId := f_niceId data;
     u_dockerSocketEnabled := f_dockerSocketEnabled data;
     u_publicIp :=
       if JS.truthy_str (f_publicIp data) then f_publicIp data else None;
     u_dnsAuthorityEnabled := f_dnsAuthorityEnabled data |}.

(** The fields of the site in context that the switch handler reads;
    [None] for the whole record when there is no site. *)
Record SiteInfo := {
  i_publicIp : option string;
  i_serverPublicIp : option string
}.

(** [site?.publicIp || site?.serverPublicIp || ""] *)
Definition defaultIp (site : option SiteInfo) : string :=
  match site with
  | Some i =>
      if JS.truthy_str (i_publicIp i)
      then JS.or_str (i_publicIp i) ""
      else JS.or_str (i_serverPublicIp i) ""
  | None => ""
  end.

(** [field.onChange(checked)] *)
Definition setDnsAuthorityEnabled (checked : bool) (data : GeneralFormValues)
  : GeneralFormValues :=
  {| f_name := f_name data;
     f_niceId := f_niceId data;
     f_dockerSocketEnabled := f_dockerSocketEnabled data;
     f_publicIp := f_publicIp data;
     f_dnsAuthorityEnabled := Some checked |}.

(** [form.setValue("publicIp", ip)] *)
Definition setPublicIp (ip : string) (data : GeneralFormValues)
  : GeneralFormValues :=
  {| f_name := f_name data;
     f_niceId := f_niceId data;
     f_dockerSocketEnabled := f_dockerSocketEnabled data;
     f_publicIp := Some ip;
     f_dnsAuthorityEnabled := f_dnsAuthorityEnabled data |}.

(** [onCheckedChange] of the DNS-authority switch, on the form values:
    the switch value is stored, and on enabling with an empty IP field the
    field is filled from the site's public IP or its detected IP. *)
Definition onCheckedChange (site : option SiteInfo) (checked : bool)
    (data : GeneralFormValues) : GeneralFormValues :=
  let data1 := setDnsAuthorityEnabled checked data in
  if checked && negb (JS.truthy_str (f_publicIp data1)) then
    if negb (String.eqb (defaultIp site) "")
    then setPublicIp (defaultIp site) data1
    else data1
  else data1.

End SiteSettingsForm.

(* ===================================================================== *)
(** ** Definitions used to state the properties *)
(* ===================================================================== *)

Module Props.
Import DnsAuthority.

(** The world after handing [l] to the bus. *)
Definition emit {SC} (w : World SC) (l : list (Envelope SC)) : World SC :=
  {| w_db := w_db w; w_sent := (w_sent w ++ l)%list |}.

(** The messages of one iteration of the loops of
    [updateDNSAuthorityForResource], for the agent [agentId]. *)
Definition zoneMessage {SC} (type : string) (config : option DNSAuthorityConfig)
    (db : Db) (resourceId : Z) (agentId : string) : list (Envelope SC) :=
  match config with
  | Some cfg =>
      [{| env_to := agentId; env_type := type;
          env_data := DnsAuthorityData
                        {| dm_action := Update; dm_zones := [ZoneConfig cfg] |} |}]
  | None =>
      match select_resource db resourceId with
      | Some resource =>
          match r_fullDomain resource with
          | Some d =>
              if JS.truthy_str (Some d)
              then [{| env_to := agentId; env_type := type;
                       env_data := DnsAuthorityData
                                     {| dm_action := Remove;
                                        dm_zones := [ZoneDomain d] |} |}]
              else []
          | None => []
          end
      | None => []
      end
  end.

(** The messages of [updateDNSAuthorityForResource] as a function of the
    database: first the Newt recipients, then the Olm recipients. *)
Definition updateMessages {SC} (db : Db) (resourceId : Z) : list (Envelope SC) :=
  let config := buildDNSAuthorityConfig db resourceId in
  (flat_map (fun ns => zoneMessage "newt/dns/authority/config" config db
                         resourceId (ns_newtId ns))
     (getDNSAuthoritySiteNewtIds db resourceId)
   ++ flat_map (zoneMessage "olm/dns/authority/config" config db resourceId)
        (getDNSAuthoritySiteOlmIds db resourceId))%list.

(** One step of the first loop of [onHealthCheckUpdate], on a snapshot. *)
Definition collectStep (db : Db) (resourceIds : list Z) (targetId : Z) : list Z :=
  match selectTargetInfo db targetId with
  | Some (resourceId, true) => JS.set_add Z.eqb resourceIds resourceId
  | _ => resourceIds
  end.

(** Target [t] of resource [resourceId], hosted on site [s]. *)
Definition target_on (db : Db) (resourceId : Z) (t : Target) (s : Site) : Prop :=
  In t (targets db) /\ t_resourceId t = resourceId
  /\ In s (sites db) /\ s_siteId s = t_siteId t.

(** The health row joined to target [t]: a row of [targetHealthCheck] with
    its id, or none when the table has no such row. *)
Definition health_of (db : Db) (t : Target) (h : option TargetHealthCheck) : Prop :=
  match h with
  | Some hc => In hc (targetHealthCheck db) /\ hc_targetId hc = t_targetId t
  | None => forall hc, In hc (targetHealthCheck db) -> hc_targetId hc <> t_targetId t
  end.

(** The site has a public IP: the column is neither null nor empty. *)
Definition has_public_ip (s : Site) (ip : string) : Prop :=
  s_publicIp s = Some ip /\ ip <> "".

(** The retention condition of a target and its site. *)
Definition retained (t : Target) (s : Site) (ip : string) : Prop :=
  t_enabled t = true /\ s_dnsAuthorityEnabled s = true /\ has_public_ip s ip.

(** The entry a retained target yields, in the words of the specification:
    the site's public IP, the priority or 100, healthy unless a health check
    is enabled and its state is not ["healthy"], the site's id and name (the
    name falls back to ["Site <id>"] when empty). *)
Definition emitted (t : Target) (s : Site) (h : option TargetHealthCheck)
    (ip : string) : DNSAuthorityTarget :=
  {| dt_ip := ip;
     dt_priority := if t_priority t =? 0 then 100 else t_priority t;
     dt_healthy :=
       match h with
       | Some hc =>
           if hc_hcEnabled hc
           then match hc_hcHealth hc with
                | Some state => String.eqb state "healthy"
                | None => false
                end
           else true
       | None => true
       end;
     dt_siteId := s_siteId s;
     dt_siteName :=
       if String.eqb (s_name s) "" then "Site " ++ JS.string_of_Z (s_siteId s)
       else s_name s |}.

(** The resource is protected: DNS authority together with SSO, blocked
    access or an e-mail whitelist. *)
Definition protected_resource (r : Resource) : Prop :=
  r_dnsAuthorityEnabled r = true
  /\ (r_sso r = true \/ r_blockAccess r = true
      \/ r_emailWhitelistEnabled r = true).

(** Enabled target [t] on the site, with its resource [r]. *)
Definition enabled_target_on_site (db : Db) (siteId : Z) (t : Target)
    (r : Resource) : Prop :=
  In t (targets db) /\ t_siteId t = siteId /\ t_enabled t = true
  /\ In r (resources db) /\ r_resourceId r = t_resourceId t.

(** The site hosts at least one enabled target of a protected resource. *)
Definition hosts_protected_target (db : Db) (siteId : Z) : Prop :=
  exists t r, enabled_target_on_site db siteId t r /\ protected_resource r.

(** A dot-separated label: a string without ["."]. *)
Fixpoint is_label (s : string) : bool :=
  match s with
  | EmptyString => true
  | String c r => negb (Ascii.eqb c ".") && is_label r
  end.

(** The messages of [updateAuthProxyForSite] as a function of the database. *)
Definition siteMessages {SC} (URL_hostname : string -> option string)
    (config : AuthProxy.RawConfig) (keys : JwtKeypair.KeyStore)
    (db : Db) (siteId : Z) : list (Envelope SC) :=
  match AuthProxy.selectSiteNewt db siteId with
  | Some newtId =>
      if String.eqb newtId "" then []
      else match AuthProxy.buildAuthProxyConfig URL_hostname config keys db siteId with
           | Some cfg =>
               [{| env_to := newtId; env_type := "newt/auth/proxy/config";
                   env_data := AuthProxyData cfg |}]
           | None => []
           end
  | None => []
  end.

(** A decimal digit ["0"] .. ["9"]. *)
Definition is_decimal (c : ascii) : bool :=
  let n := nat_of_ascii c in ((48 <=? n) && (n <=? 57))%nat.

Fixpoint all_decimal (s : string) : bool :=
  match s with
  | EmptyString => true
  | String c r => is_decimal c && all_decimal r
  end.

Definition starts_with_decimal (s : string) : bool :=
  match s with
  | EmptyString => false
  | String c _ => is_decimal c
  end.

(** The number written by a string of decimal digits, after [acc]. *)
Fixpoint decimal_from (acc : Z) (s : string) : Z :=
  match s with
  | EmptyString => acc
  | String c r => decimal_from (10 * acc + (Z.of_nat (nat_of_ascii c) - 48)) r
  end.

Definition decimal_value (s : string) : Z := decimal_from 0 s.

(** The token that a request presents: the [p_session] cookie when it is
    there and not empty; otherwise the [Authorization] header without its
    first ["Bearer "] (a header that does not contain it is taken whole);
    nothing when the header is missing as well. *)
Inductive presents : ValidateSession.Request -> option string -> Prop :=
| presents_cookie : forall (c : string) (h : option string),
    c <> "" ->
    presents {| ValidateSession.cookies_p_session := Some c;
                ValidateSession.headers_authorization := h |}
             (Some c)
| presents_header : forall (c : option string) (h : string),
    JS.truthy_str c = false ->
    presents {| ValidateSession.cookies_p_session := c;
                ValidateSession.headers_authorization := Some h |}
             (Some (JS.replace "Bearer " "" h))
| presents_nothing : forall (c : option string),
    JS.truthy_str c = false ->
    presents {| ValidateSession.cookies_p_session := c;
                ValidateSession.headers_authorization := None |}
             None.

(** The integers up to which every integer is a double. *)
Definition max_exact : Z := 9007199254740992.

(** The characters that [parseInt] skips before the number, each as its
    UTF-8 encoding: TAB, LF, VT, FF, CR, SP, U+00A0, U+1680, U+2000 to
    U+200A, U+2028, U+2029, U+202F, U+205F, U+3000 and U+FEFF. *)
Definition StrWhiteSpaceChar : list string :=
  [ String "009" ""; String "010" ""; String "011" ""; String "012" "";
    String "013" ""; String "032" "";
    String "194" (String "160" "");
    String "225" (String "154" (String "128" ""));
    String "226" (String "128" (String "128" ""));
    String "226" (String "128" (String "129" ""));
    String "226" (String "128" (String "130" ""));
    String "226" (String "128" (String "131" ""));
    String "226" (String "128" (String "132" ""));
    String "226" (String "128" (String "133" ""));
    String "226" (String "128" (String "134" ""));
    String "226" (String "128" (String "135" ""));
    String "226" (String "128" (String "136" ""));
    String "226" (String "128" (String "137" ""));
    String "226" (String "128" (String "138" ""));
    String "226" (String "128" (String "168" ""));
    String "226" (String "128" (String "169" ""));
    String "226" (String "128" (String "175" ""));
    String "226" (String "129" (String "159" ""));
    String "227" (String "128" (String "128" ""));
    String "239" (String "187" (String "191" "")) ].

(** The string starts with the letter that marks a hexadecimal literal. *)
Definition starts_with_x (s : string) : bool :=
  match s with
  | EmptyString => false
  | String c _ => Ascii.eqb c "x" || Ascii.eqb c "X"
  end.

(** The counters after one more rejected entry. *)
Definition rejected (tally : Healthcheck.Tally) : Healthcheck.Tally :=
  {| Healthcheck.successCount := Healthcheck.successCount tally;
     Healthcheck.errorCount := Healthcheck.errorCount tally + 1;
     Healthcheck.updatedTargetIds := Healthcheck.updatedTargetIds tally |}.

(** The counters after one more accepted entry for target [n]. *)
Definition accepted (tally : Healthcheck.Tally) (n : Z) : Healthcheck.Tally :=
  {| Healthcheck.successCount := Healthcheck.successCount tally + 1;
     Healthcheck.errorCount := Healthcheck.errorCount tally;
     Healthcheck.updatedTargetIds :=
       (Healthcheck.updatedTargetIds tally ++ [n])%list |}.

End Props.
Import Props.
Import DnsAuthority OlmSync Healthcheck AuthProxy.

(* ===================================================================== *)
(** ** Definitions used to state the recipient and fan-out properties *)
(* ===================================================================== *)

Module Fanout.

(** A Newt recipient of the resource: a Newt with a non-empty id bound to a
    site that hosts a retained target of the resource. *)
Definition newt_recipient (db : Db) (resourceId : Z) (newtId : string)
    (siteId : Z) : Prop :=
  exists t s ip n,
    target_on db resourceId t s /\ retained t s ip
    /\ In n (newts db) /\ n_siteId n = Some (s_siteId s)
    /\ n_newtId n = newtId /\ newtId <> "" /\ siteId = t_siteId t.

(** An Olm recipient of the resource: the Olm of a client associated with a
    site that hosts a retained target of the resource. *)
Definition olm_recipient (db : Db) (resourceId : Z) (olmId : string) : Prop :=
  exists t s ip a c,
    target_on db resourceId t s /\ retained t s ip
    /\ In a (clientSitesAssociationsCache db) /\ a_siteId a = t_siteId t
    /\ In c (clients db) /\ c_clientId c = a_clientId a
    /\ c_olmId c = Some olmId /\ olmId <> "".

(** The [update] message for one zone, as an envelope. *)
Definition zoneUpdate {SC} (type agentId : string) (cfg : DNSAuthorityConfig)
  : Envelope SC :=
  {| env_to := agentId; env_type := type;
     env_data := DnsAuthorityData
                   {| dm_action := Update; dm_zones := [ZoneConfig cfg] |} |}.

(** The [remove] message for one domain, as an envelope. *)
Definition zoneRemove {SC} (type agentId domain : string) : Envelope SC :=
  {| env_to := agentId; env_type := type;
     env_data := DnsAuthorityData
                   {| dm_action := Remove; dm_zones := [ZoneDomain domain] |} |}.

End Fanout.
Import Fanout.

(* ===================================================================== *)
(** ** Definitions used to state the health-ingestion properties *)
(* ===================================================================== *)

Module Ingest.

(** Every table but [targetHealthCheck] is the same in both databases. *)
Definition same_except_health (db db' : Db) : Prop :=
  orgs db' = orgs db /\ sites db' = sites db /\ resources db' = resources db
  /\ targets db' = targets db
  /\ resourceWhitelist db' = resourceWhitelist db
  /\ newts db' = newts db /\ clients db' = clients db
  /\ clientSitesAssociationsCache db' = clientSitesAssociationsCache db
  /\ exitNodes db' = exitNodes db.

(** What may happen to one [targetHealthCheck] row while the Newt bound to
    [siteId] reports: it is kept as it is, or it belongs to a target of that
    site and keeps its key and its [hcEnabled]. *)
Definition health_row_step (db : Db) (siteId : Z)
    (h h' : TargetHealthCheck) : Prop :=
  h' = h
  \/ (hc_targetId h' = hc_targetId h /\ hc_hcEnabled h' = hc_hcEnabled h
      /\ exists t, In t (targets db) /\ t_targetId t = hc_targetId h
                   /\ t_siteId t = siteId).

(** Target [n] passes the tenancy check of the Newt bound to [siteId]: it
    exists with its resource, on that site. *)
Definition passes_tenancy (db : Db) (siteId n : Z) : Prop :=
  exists t r s,
    In t (targets db) /\ t_targetId t = n /\ t_siteId t = siteId
    /\ In r (resources db) /\ r_resourceId r = t_resourceId t
    /\ In s (sites db) /\ s_siteId s = siteId.

(** Two zone targets that differ at most in their [healthy] flag, the new
    flag being the old one or what the reported status says. *)
Definition same_target_but_health (status : string)
    (dt dt' : DNSAuthorityTarget) : Prop :=
  dt_ip dt' = dt_ip dt /\ dt_priority dt' = dt_priority dt
  /\ dt_siteId dt' = dt_siteId dt /\ dt_siteName dt' = dt_siteName dt
  /\ (dt_healthy dt' = dt_healthy dt
      \/ dt_healthy dt' = String.eqb status "healthy").

(** Two query rows that differ at most in their health state, the new state
    being the old one or the reported status. *)
Definition same_row_but_health (status : string)
    (row row' : DnsAuthority.TargetRow) : Prop :=
  DnsAuthority.row_targetId row' = DnsAuthority.row_targetId row
  /\ DnsAuthority.row_siteId row' = DnsAuthority.row_siteId row
  /\ DnsAuthority.row_enabled row' = DnsAuthority.row_enabled row
  /\ DnsAuthority.row_priority row' = DnsAuthority.row_priority row
  /\ DnsAuthority.row_siteName row' = DnsAuthority.row_siteName row
  /\ DnsAuthority.row_sitePublicIp row' = DnsAuthority.row_sitePublicIp row
  /\ DnsAuthority.row_siteDnsAuthorityEnabled row'
     = DnsAuthority.row_siteDnsAuthorityEnabled row
  /\ DnsAuthority.row_hcEnabled row' = DnsAuthority.row_hcEnabled row
  /\ (DnsAuthority.row_hcHealth row' = DnsAuthority.row_hcHealth row
      \/ DnsAuthority.row_hcHealth row' = Some status).

(** What the update of [updateHcHealth] does to one health row. *)
Definition touch (n : Z) (status : string) (h : TargetHealthCheck)
    : TargetHealthCheck :=
  if hc_targetId h =? n
  then {| hc_targetId := hc_targetId h; hc_hcEnabled := hc_hcEnabled h;
          hc_hcHealth := Some status |}
  else h.

End Ingest.
Import Ingest.

(* ===================================================================== *)
(** ** Definitions used to state the Olm sync properties *)
(* ===================================================================== *)

Module SyncProps.

(** The zones message of a sync, as an envelope. *)
Definition zonesUpdate {SC} (olmId : string) (zones : list DNSAuthorityConfig)
  : Envelope SC :=
  {| env_to := olmId; env_type := "olm/dns/authority/config";
     env_data := DnsAuthorityData
                   {| dm_action := Update; dm_zones := map ZoneConfig zones |} |}.

(** The messages of [sendDNSAuthorityZonesToOlm] as a function of the
    database. *)
Definition zonesMessages {SC} (db : Db) (olm : Olm) (client : Client)
  : list (Envelope SC) :=
  match filter (fun a => a_clientId a =? c_clientId client)
          (clientSitesAssociationsCache db) with
  | [] => []
  | _ :: _ =>
      match buildZones db (relevantResourceIds db) with
      | [] => []
      | zones => [zonesUpdate (o_olmId olm) zones]
      end
  end.

End SyncProps.
Import SyncProps.

(* ===================================================================== *)
(** ** Definitions used to state the auth-proxy properties *)
(* ===================================================================== *)

Module ProxyProps.

(** The [ResourceAuthConfig] of an enabled target [t] of the protected
    resource [r] with domain [d]: the resource's flags, its e-mail whitelist
    when the whitelist is enabled, and the target's address with the scheme
    given by the resource's [ssl]. *)
Definition resource_entry (db : Db) (t : Target) (r : Resource) (d : string)
  : ResourceAuthConfig :=
  {| ra_resourceId := r_resourceId r;
     ra_domain := d;
     ra_sso := r_sso r;
     ra_blockAccess := r_blockAccess r;
     ra_emailWhitelistEnabled := r_emailWhitelistEnabled r;
     ra_allowedEmails :=
       if r_emailWhitelistEnabled r
       then map wl_email
              (filter (fun wl => wl_resourceId wl =? r_resourceId r)
                 (resourceWhitelist db))
       else [];
     ra_targetUrl :=
       (if r_ssl r then "https" else "http") ++ "://" ++ t_ip t ++ ":"
         ++ JS.string_of_Z (t_port t);
     ra_ssl := r_ssl r |}.

(** The distinct sites [updateAuthProxyForResource] visits. *)
Definition resourceSiteIds (db : Db) (resourceId : Z) : list Z :=
  JS.set_of_list Z.eqb (map fst (AuthProxy.selectResourceNewts db resourceId)).

(** The ids of the Newts bound to a site, once per [sites] row of the
    site, in the order of the [newts] table. *)
Definition siteNewtIds (db : Db) (siteId : Z) : list string :=
  flat_map (fun _ : Site =>
              map n_newtId
                (filter (fun n => eq_nullable (n_siteId n) siteId) (newts db)))
    (filter (fun s => s_siteId s =? siteId) (sites db)).

(** The messages of one iteration of the loop of
    [updateAuthProxyForResource], given the rows of its query. *)
Definition resourceSiteMessages {SC} (URL_hostname : string -> option string)
    (config : AuthProxy.RawConfig) (keys : JwtKeypair.KeyStore)
    (resourceTargets : list (Z * string)) (db : Db) (siteId : Z)
  : list (Envelope SC) :=
  match AuthProxy.buildAuthProxyConfig URL_hostname config keys db siteId with
  | Some cfg =>
      match find (fun t => fst t =? siteId) resourceTargets with
      | Some target =>
          if String.eqb (snd target) "" then []
          else [{| env_to := snd target; env_type := "newt/auth/proxy/config";
                   env_data := AuthProxyData cfg |}]
      | None => []
      end
  | None => []
  end.

End ProxyProps.
Import ProxyProps.

(* ===================================================================== *)
(** ** Fixtures: the literal scenarios of the specification *)
(* ===================================================================== *)

Module Fixtures.

Definition org1 : Org := {| org_orgId := "org1"; org_name := "Org" |}.

Definition site1 : Site :=
  {| s_siteId := 1; s_orgId := "org1"; s_name := "Site A";
     s_publicIp := Some "203.0.113.10"; s_dnsAuthorityEnabled := true;
     s_exitNodeId := Some 7 |}.

Definition site2 : Site :=
  {| s_siteId := 2; s_orgId := "org1"; s_name := "Site B";
     s_publicIp := Some "198.51.100.20"; s_dnsAuthorityEnabled := true;
     s_exitNodeId := None |}.

Definition resource1 : Resource :=
  {| r_resourceId := 1; r_name := "svc"; r_fullDomain := Some "svc.example.com";
     r_ssl := false; r_http := true; r_sso := false; r_blockAccess := false;
     r_emailWhitelistEnabled := false; r_dnsAuthorityEnabled := true;
     r_dnsAuthorityTtl := None; r_dnsAuthorityRoutingPolicy := Some "failover" |}.

Definition resource2 : Resource :=
  {| r_resourceId := 2; r_name := "secure";
     r_fullDomain := Some "secure.example.com";
     r_ssl := false; r_http := true; r_sso := true; r_blockAccess := false;
     r_emailWhitelistEnabled := false; r_dnsAuthorityEnabled := true;
     r_dnsAuthorityTtl := Some 120;
     r_dnsAuthorityRoutingPolicy := Some "roundrobin" |}.

Definition target1 : Target :=
  {| t_targetId := 1; t_resourceId := 1; t_siteId := 1; t_ip := "10.0.0.4";
     t_port := 80; t_method := Some "http"; t_enabled := true;
     t_priority := 100 |}.

Definition target2 : Target :=
  {| t_targetId := 2; t_resourceId := 2; t_siteId := 2; t_ip := "10.0.0.5";
     t_port := 8080; t_method := Some "http"; t_enabled := true;
     t_priority := 100 |}.

Definition olm1 : Olm := {| o_olmId := "olm1" |}.

Definition client10 : Client :=
  {| c_clientId := 10; c_olmId := Some "olm1"; c_pubKey := Some "pk10" |}.

(** Two sites with DNS authority; resource 1 is served by site 1 only and
    resource 2 by site 2 only; the client of [olm1] peers with site 1 only. *)
Definition db0 : Db :=
  {| orgs := [org1];
     sites := [site1; site2];
     resources := [resource1; resource2];
     targets := [target1; target2];
     targetHealthCheck :=
       [{| hc_targetId := 1; hc_hcEnabled := true; hc_hcHealth := Some "healthy" |};
        {| hc_targetId := 2; hc_hcEnabled := false; hc_hcHealth := Some "unknown" |}];
     resourceWhitelist := [];
     newts := [{| n_newtId := "newt1"; n_siteId := Some 1 |};
               {| n_newtId := "newt2"; n_siteId := Some 2 |}];
     clients := [client10];
     clientSitesAssociationsCache := [{| a_clientId := 10; a_siteId := 1 |}];
     exitNodes := [{| e_exitNodeId := 7; e_publicKey := "ek7";
                      e_endpoint := "exit.example.com" |}] |}.

Definition world0 : World unit := {| w_db := db0; w_sent := [] |}.

(** The zone of resource 1 (scenario S1). *)
Definition zone1 : DNSAuthorityConfig :=
  {| z_enabled := true; z_domain := "svc.example.com"; z_ttl := 60;
     z_routingPolicy := "failover";
     z_targets := [{| dt_ip := "203.0.113.10"; dt_priority := 100;
                      dt_healthy := true; dt_siteId := 1;
                      dt_siteName := "Site A" |}] |}.

(** The zone of resource 2. *)
Definition zone2 : DNSAuthorityConfig :=
  {| z_enabled := true; z_domain := "secure.example.com"; z_ttl := 120;
     z_routingPolicy := "roundrobin";
     z_targets := [{| dt_ip := "198.51.100.20"; dt_priority := 100;
                      dt_healthy := true; dt_siteId := 2;
                      dt_siteName := "Site B" |}] |}.

Definition report_unhealthy : Healthcheck.TargetHealthStatus :=
  {| Healthcheck.hs_status := "unhealthy"; Healthcheck.hs_lastCheck := "";
     Healthcheck.hs_checkCount := 1; Healthcheck.hs_lastError := None |}.

Definition report_healthy : Healthcheck.TargetHealthStatus :=
  {| Healthcheck.hs_status := "healthy"; Healthcheck.hs_lastCheck := "";
     Healthcheck.hs_checkCount := 1; Healthcheck.hs_lastError := None |}.

(** Site 3 has DNS authority enabled and the empty string as public IP. *)
Definition site3 : Site :=
  {| s_siteId := 3; s_orgId := "org1"; s_name := "Site C";
     s_publicIp := Some ""; s_dnsAuthorityEnabled := true;
     s_exitNodeId := None |}.

Definition target3 : Target :=
  {| t_targetId := 3; t_resourceId := 1; t_siteId := 3; t_ip := "10.0.0.6";
     t_port := 80; t_method := Some "http"; t_enabled := true;
     t_priority := 100 |}.

(** Resource 1 served by site 3 only. *)
Definition db_empty_ip : Db :=
  {| orgs := [org1];
     sites := [site3];
     resources := [resource1];
     targets := [target3];
     targetHealthCheck := [];
     resourceWhitelist := [];
     newts := [{| n_newtId := "newt3"; n_siteId := Some 3 |}];
     clients := [];
     clientSitesAssociationsCache := [];
     exitNodes := [] |}.

(** Resource 4 is SSO-protected with DNS authority and has no domain. *)
Definition resource4 : Resource :=
  {| r_resourceId := 4; r_name := "nodomain"; r_fullDomain := None;
     r_ssl := false; r_http := true; r_sso := true; r_blockAccess := false;
     r_emailWhitelistEnabled := false; r_dnsAuthorityEnabled := true;
     r_dnsAuthorityTtl := None; r_dnsAuthorityRoutingPolicy := None |}.

Definition target4 : Target :=
  {| t_targetId := 4; t_resourceId := 4; t_siteId := 1; t_ip := "10.0.0.7";
     t_port := 8080; t_method := Some "http"; t_enabled := true;
     t_priority := 100 |}.

(** Site 1 hosts resource 1 (not protected) and resource 4. *)
Definition db_no_domain : Db :=
  {| orgs := [org1];
     sites := [site1];
     resources := [resource1; resource4];
     targets := [target1; target4];
     targetHealthCheck := [];
     resourceWhitelist := [];
     newts := [{| n_newtId := "newt1"; n_siteId := Some 1 |}];
     clients := [];
     clientSitesAssociationsCache := [];
     exitNodes := [] |}.

(** Scenario S5: the dashboard at [https://app.example.com]. *)
Definition config_app : AuthProxy.RawConfig :=
  {| AuthProxy.app_dashboard_url := Some "https://app.example.com";
     AuthProxy.server_secret := Some "secret" |}.

(** A configuration with no dashboard URL. *)
Definition config_no_url : AuthProxy.RawConfig :=
  {| AuthProxy.app_dashboard_url := None;
     AuthProxy.server_secret := Some "secret" |}.

Definition keys0 : JwtKeypair.KeyStore :=
  {| JwtKeypair.cachedPublicKeyPem := Some "PEM";
     JwtKeypair.loadedPublicKeyPem := None |}.

(** The auth configuration of scenario S5. *)
Definition auth_app : AuthConfig :=
  {| ac_enabled := true;
     ac_pangolinUrl := "https://app.example.com";
     ac_jwtPublicKey := "PEM";
     ac_cookieName := "p_session";
     ac_cookieDomain := ".example.com";
     ac_sessionValidationUrl :=
       "https://app.example.com/api/v1/auth/session/validate" |}.

(** Scenario S6: a session [abc] of user [u1], expiring one hour after
    2024-02-29T12:34:56.789Z. *)
Definition store_S6 : ValidateSession.Store :=
  {| ValidateSession.sessions :=
       ValidateSession.Rows
         [{| ValidateSession.sessionId := "s1";
             ValidateSession.sessionToken := "abc";
             ValidateSession.sess_userId := "u1";
             ValidateSession.expiresAt := 1709210096789 + 3600000 |}];
     ValidateSession.users :=
       ValidateSession.Rows
         [{| ValidateSession.userId := "u1";
             ValidateSession.email := Some "a@x" |}] |}.

(** The same session with an expiry that is no valid date. *)
Definition store_bad_expiry : ValidateSession.Store :=
  {| ValidateSession.sessions :=
       ValidateSession.Rows
         [{| ValidateSession.sessionId := "s1";
             ValidateSession.sessionToken := "abc";
             ValidateSession.sess_userId := "u1";
             ValidateSession.expiresAt := 8640000000000001 |}];
     ValidateSession.users :=
       ValidateSession.Rows
         [{| ValidateSession.userId := "u1";
             ValidateSession.email := Some "a@x" |}] |}.

Definition request_bearer_abc : ValidateSession.Request :=
  {| ValidateSession.cookies_p_session := None;
     ValidateSession.headers_authorization := Some "Bearer abc" |}.

Definition request_abc : ValidateSession.Request :=
  {| ValidateSession.cookies_p_session := Some "abc";
     ValidateSession.headers_authorization := None |}.

(** A generated keypair whose key object is its own PEM, and a second one. *)
Definition generated1 : JwtKeypairFiles.Generated string :=
  {| JwtKeypairFiles.g_privateKey := "PRIV";
     JwtKeypairFiles.g_privateKeyPem := "PRIV";
     JwtKeypairFiles.g_publicKeyPem := "PUB" |}.

Definition generated2 : JwtKeypairFiles.Generated string :=
  {| JwtKeypairFiles.g_privateKey := "PRIV2";
     JwtKeypairFiles.g_privateKeyPem := "PRIV2";
     JwtKeypairFiles.g_publicKeyPem := "PUB2" |}.

(** No [auth/] directory, nothing cached. *)
Definition keys_absent : JwtKeypairFiles.KeyState string :=
  {| JwtKeypairFiles.authDir := false;
     JwtKeypairFiles.privateKeyFile := None;
     JwtKeypairFiles.publicKeyFile := None;
     JwtKeypairFiles.cachedPrivateKey := None;
     JwtKeypairFiles.cachedPublicKeyPem := None |}.

(** The settings form of site 1 with DNS authority switched on. *)
Definition form_site1 : SiteSettingsForm.GeneralFormValues :=
  {| SiteSettingsForm.f_name := "Site A";
     SiteSettingsForm.f_niceId := None;
     SiteSettingsForm.f_dockerSocketEnabled := Some false;
     SiteSettingsForm.f_publicIp := Some "203.0.113.10";
     SiteSettingsForm.f_dnsAuthorityEnabled := Some true |}.

(** A client with no site association. *)
Definition client99 : Client :=
  {| c_clientId := 99; c_olmId := Some "olm99"; c_pubKey := Some "pk99" |}.

(** The database [db_empty_ip] with nothing sent yet. *)
Definition world_empty_ip : World unit :=
  {| w_db := db_empty_ip; w_sent := [] |}.

(** The settings form of a site with DNS authority off and no IP entered,
    and what the page knows of the site. *)
Definition form_empty_ip : SiteSettingsForm.GeneralFormValues :=
  {| SiteSettingsForm.f_name := "Site A";
     SiteSettingsForm.f_niceId := None;
     SiteSettingsForm.f_dockerSocketEnabled := Some false;
     SiteSettingsForm.f_publicIp := Some "";
     SiteSettingsForm.f_dnsAuthorityEnabled := Some false |}.

Definition site1_info : SiteSettingsForm.SiteInfo :=
  {| SiteSettingsForm.i_publicIp := Some "203.0.113.10";
     SiteSettingsForm.i_serverPublicIp := Some "192.0.2.1" |}.

End Fixtures.

(* ===================================================================== *)
(** ** Lemmas on the primitives *)
(* ===================================================================== *)

Section MonadFacts.

Context {SC : Type}.

Lemma emit_nil (w : World SC) : emit w [] = w.
Proof.
  destruct w as [db sent]. unfold emit. simpl. now rewrite app_nil_r.
Qed.

Lemma emit_emit (w : World SC) l1 l2 : emit (emit w l1) l2 = emit w (l1 ++ l2).
Proof.
  unfold emit. simpl. now rewrite app_assoc.
Qed.

Lemma emit_db (w : World SC) l : w_db (emit w l) = w_db w.
Proof. reflexivity. Qed.

Lemma sendToClient_emit id ty (p : Payload SC) w :
  sendToClient id ty p w
  = (tt, emit w [{| env_to := id; env_type := ty; env_data := p |}]).
Proof. reflexivity. Qed.

(** A loop whose body only hands messages to the bus hands over the
    concatenation of the bodies' messages. *)
Lemma forEach_emit {A} (f : Db -> A -> list (Envelope SC)) (body : A -> M SC unit) :
  (forall x w, body x w = (tt, emit w (f (w_db w) x))) ->
  forall xs w, forEach xs body w = (tt, emit w (flat_map (f (w_db w)) xs)).
Proof.
  intros Hbody xs. induction xs as [|x xs IH]; intros w; simpl.
  - unfold ret. now rewrite emit_nil.
  - unfold bind. rewrite Hbody, IH, emit_emit. reflexivity.
Qed.

End MonadFacts.

Section DnsDispatchFacts.

Context {SC : Type}.

Lemma dispatchZone_newt config rid agent (w : World SC) :
  dispatchZone SC (sendDNSAuthorityConfigToNewt SC) config rid agent w
  = (tt, emit w (zoneMessage "newt/dns/authority/config" config (w_db w) rid agent)).
Proof.
  unfold dispatchZone, zoneMessage, sendDNSAuthorityConfigToNewt.
  destruct config as [cfg|]; [reflexivity|].
  unfold bind, getDb. cbv beta iota zeta.
  destruct (select_resource (w_db w) rid) as [res|];
    [|unfold ret; now rewrite emit_nil].
  destruct (r_fullDomain res) as [d|]; [|unfold ret; now rewrite emit_nil].
  destruct (JS.truthy_str (Some d)); [reflexivity|].
  unfold ret; now rewrite emit_nil.
Qed.

Lemma dispatchZone_olm config rid agent (w : World SC) :
  dispatchZone SC (sendDNSAuthorityConfigToOlm SC) config rid agent w
  = (tt, emit w (zoneMessage "olm/dns/authority/config" config (w_db w) rid agent)).
Proof.
  unfold dispatchZone, zoneMessage, sendDNSAuthorityConfigToOlm.
  destruct config as [cfg|]; [reflexivity|].
  unfold bind, getDb. cbv beta iota zeta.
  destruct (select_resource (w_db w) rid) as [res|];
    [|unfold ret; now rewrite emit_nil].
  destruct (r_fullDomain res) as [d|]; [|unfold ret; now rewrite emit_nil].
  destruct (JS.truthy_str (Some d)); [reflexivity|].
  unfold ret; now rewrite emit_nil.
Qed.

(** [updateDNSAuthorityForResource] reads the database and hands
    [updateMessages] to the bus; it writes nothing else. *)
Lemma updateDNSAuthorityForResource_run rid (w : World SC) :
  updateDNSAuthorityForResource SC rid w
  = (tt, emit w (updateMessages (w_db w) rid)).
Proof.
  unfold updateDNSAuthorityForResource, updateMessages.
  unfold bind at 1. unfold getDb at 1.
  unfold bind at 1. unfold getDb at 1.
  unfold bind at 1.
  rewrite (forEach_emit
             (fun db ns => zoneMessage "newt/dns/authority/config"
                             (buildDNSAuthorityConfig (w_db w) rid) db rid
                             (ns_newtId ns))).
  2:{ intros x w0. apply dispatchZone_newt. }
  unfold bind at 1. unfold getDb at 1. rewrite emit_db.
  rewrite (forEach_emit
             (fun db olmId => zoneMessage "olm/dns/authority/config"
                             (buildDNSAuthorityConfig (w_db w) rid) db rid olmId)).
  2:{ intros x w0. apply dispatchZone_olm. }
  rewrite emit_emit, emit_db. reflexivity.
Qed.

End DnsDispatchFacts.

Section SetFacts.

Context {A : Type} (eqb : A -> A -> bool).
Hypothesis eqb_spec : forall x y, eqb x y = true <-> x = y.

Lemma mem_In x l : JS.mem eqb x l = true <-> In x l.
Proof.
  induction l as [|y l IH]; simpl.
  - split; [discriminate | tauto].
  - rewrite orb_true_iff, IH, eqb_spec. split; intros [H|H]; auto.
Qed.

Lemma set_add_In s x y : In y (JS.set_add eqb s x) <-> In y s \/ y = x.
Proof.
  unfold JS.set_add. destruct (JS.mem eqb x s) eqn:E.
  - apply mem_In in E. split; [auto | intros [H|H]; subst; auto].
  - rewrite in_app_iff. simpl. split; intros [H|H]; auto.
    + destruct H as [H|[]]; auto.
Qed.

Lemma set_add_NoDup s x : NoDup s -> NoDup (JS.set_add eqb s x).
Proof.
  intros Hs. unfold JS.set_add. destruct (JS.mem eqb x s) eqn:E; [assumption|].
  assert (Hx : ~ In x s).
  { intros Hin. apply mem_In in Hin. congruence. }
  clear E. induction Hs as [|y s Hy Hs IH]; simpl.
  - constructor; [tauto | constructor].
  - constructor.
    + rewrite in_app_iff. simpl. intros [H|[H|[]]]; [tauto|].
      subst. apply Hx. now left.
    + apply IH. intros H. apply Hx. now right.
Qed.

Lemma set_of_list_from_In l : forall s y,
  In y (fold_left (JS.set_add eqb) l s) <-> In y s \/ In y l.
Proof.
  induction l as [|x l IH]; intros s y; simpl.
  - tauto.
  - rewrite IH, set_add_In. split; intros H; intuition auto.
Qed.

Lemma set_of_list_from_NoDup l : forall s,
  NoDup s -> NoDup (fold_left (JS.set_add eqb) l s).
Proof.
  induction l as [|x l IH]; intros s Hs; simpl; [assumption|].
  apply IH. now apply set_add_NoDup.
Qed.

Lemma set_of_list_In l y : In y (JS.set_of_list eqb l) <-> In y l.
Proof.
  unfold JS.set_of_list. rewrite set_of_list_from_In. simpl. tauto.
Qed.

Lemma set_of_list_NoDup l : NoDup (JS.set_of_list eqb l).
Proof.
  apply set_of_list_from_NoDup. constructor.
Qed.

End SetFacts.

Section QueryFacts.

(** A filter on a unique key selects exactly the row that carries it. *)
Lemma filter_unique_key {A} (key : A -> Z) (l : list A) (x : A) :
  NoDup (map key l) -> In x l ->
  filter (fun y => key y =? key x) l = [x].
Proof.
  induction l as [|y l IH]; simpl; intros Hnd Hin; [contradiction|].
  inversion Hnd as [|? ? Hy Hl]; subst.
  destruct Hin as [->|Hin].
  - rewrite Z.eqb_refl. f_equal.
    clear IH Hnd Hl. induction l as [|z l IH]; simpl; [reflexivity|].
    simpl in Hy. destruct (Z.eqb_spec (key z) (key x)) as [E|E].
    + exfalso. apply Hy. left. exact E.
    + apply IH. intros H. apply Hy. now right.
  - destruct (Z.eqb_spec (key y) (key x)) as [E|E].
    + exfalso. apply Hy. rewrite E. now apply in_map.
    + now apply IH.
Qed.

(** The first joined row, when there is one, comes from a target with the
    requested id and a resource with the target's resource id. *)
Lemma selectTargetInfo_sound db tid r e :
  selectTargetInfo db tid = Some (r, e) ->
  exists t res,
    In t (targets db) /\ t_targetId t = tid
    /\ In res (resources db) /\ r_resourceId res = t_resourceId t
    /\ r = t_resourceId t /\ e = r_dnsAuthorityEnabled res.
Proof.
  unfold selectTargetInfo. intros H.
  assert (Hin : In (r, e)
    (flat_map (fun t => map (fun r0 => (t_resourceId t, r_dnsAuthorityEnabled r0))
       (filter (fun r0 => t_resourceId t =? r_resourceId r0) (resources db)))
       (filter (fun t => t_targetId t =? tid) (targets db)))).
  { destruct (flat_map _ _) as [|p l]; simpl in H; [discriminate|].
    inversion H; subst. now left. }
  apply in_flat_map in Hin. destruct Hin as (t & Ht & Hin).
  apply filter_In in Ht. destruct Ht as (Ht & Etid). apply Z.eqb_eq in Etid.
  apply in_map_iff in Hin. destruct Hin as (res & Epair & Hres).
  apply filter_In in Hres. destruct Hres as (Hres & Erid). apply Z.eqb_eq in Erid.
  inversion Epair; subst.
  exists t, res. repeat split; auto.
Qed.

(** With unique primary keys the join has exactly one row. *)
Lemma selectTargetInfo_complete db t res :
  NoDup (map t_targetId (targets db)) ->
  NoDup (map r_resourceId (resources db)) ->
  In t (targets db) -> In res (resources db) ->
  r_resourceId res = t_resourceId t ->
  selectTargetInfo db (t_targetId t)
  = Some (t_resourceId t, r_dnsAuthorityEnabled res).
Proof.
  intros Ht Hr Hint Hinr E. unfold selectTargetInfo.
  rewrite (filter_unique_key t_targetId _ t Ht Hint). simpl.
  rewrite app_nil_r.
  rewrite (filter_ext (fun r0 => t_resourceId t =? r_resourceId r0)
             (fun r0 => r_resourceId r0 =? r_resourceId res)).
  2:{ intros a. rewrite E. apply Z.eqb_sym. }
  rewrite (filter_unique_key r_resourceId _ res Hr Hinr). reflexivity.
Qed.

End QueryFacts.

Section HealthUpdateFacts.

Context {SC : Type}.

Lemma collect_from_run targetIds : forall acc (w : World SC),
  forFold targetIds acc (fun resourceIds targetId =>
    db <- getDb ;;
    match selectTargetInfo db targetId with
    | Some (resourceId, true) => ret (JS.set_add Z.eqb resourceIds resourceId)
    | _ => ret resourceIds
    end) w
  = (fold_left (collectStep (w_db w)) targetIds acc, w).
Proof.
  induction targetIds as [|tid tids IH]; intros acc w; simpl; [reflexivity|].
  unfold bind at 1. unfold bind at 1. unfold getDb at 1.
  unfold collectStep at 2.
  destruct (selectTargetInfo (w_db w) tid) as [[r [|]]|]; unfold ret at 1;
    apply IH.
Qed.

Lemma collect_from_In db targetIds : forall acc r,
  In r (fold_left (collectStep db) targetIds acc)
  <-> In r acc \/ exists tid, In tid targetIds
                              /\ selectTargetInfo db tid = Some (r, true).
Proof.
  induction targetIds as [|tid tids IH]; intros acc r; simpl.
  - split; [auto | intros [H|(tid & [] & _)]; exact H].
  - rewrite IH. unfold collectStep at 1.
    destruct (selectTargetInfo db tid) as [[r0 [|]]|] eqn:E.
    + rewrite (set_add_In Z.eqb Z.eqb_eq). split.
      * intros [[H|H]|(x & Hx & Hs)]; auto.
        -- subst. right. exists tid. auto.
        -- right. exists x. auto.
      * intros [H|(x & [Hx|Hx] & Hs)]; auto.
        -- subst. rewrite E in Hs. inversion Hs; subst. auto.
        -- right. exists x. auto.
    + split.
      * intros [H|(x & Hx & Hs)]; auto. right. exists x. auto.
      * intros [H|(x & [Hx|Hx] & Hs)]; auto.
        -- subst. rewrite E in Hs. discriminate.
        -- right. exists x. auto.
    + split.
      * intros [H|(x & Hx & Hs)]; auto. right. exists x. auto.
      * intros [H|(x & [Hx|Hx] & Hs)]; auto.
        -- subst. rewrite E in Hs. discriminate.
        -- right. exists x. auto.
Qed.

Lemma collect_from_NoDup db targetIds : forall acc,
  NoDup acc -> NoDup (fold_left (collectStep db) targetIds acc).
Proof.
  induction targetIds as [|tid tids IH]; intros acc Hacc; simpl; [assumption|].
  apply IH. unfold collectStep.
  destruct (selectTargetInfo db tid) as [[r0 [|]]|]; auto.
  now apply (set_add_NoDup Z.eqb Z.eqb_eq).
Qed.

(** The first loop of [onHealthCheckUpdate] leaves the world as it is and
    returns a duplicate-free list of the resources selected by the query. *)
Lemma collectResourceIds_run targetIds (w : World SC) :
  exists resourceIds,
    collectResourceIds SC targetIds w = (resourceIds, w)
    /\ NoDup resourceIds
    /\ forall r, In r resourceIds
                 <-> exists tid, In tid targetIds
                       /\ selectTargetInfo (w_db w) tid = Some (r, true).
Proof.
  exists (fold_left (collectStep (w_db w)) targetIds []).
  split; [apply collect_from_run|]. split.
  - apply collect_from_NoDup. constructor.
  - intros r. rewrite collect_from_In. simpl. tauto.
Qed.

End HealthUpdateFacts.

Section ParseIntFacts.

Lemma is_decimal_bounds c :
  is_decimal c = true <-> 48 <= Z.of_nat (nat_of_ascii c) <= 57.
Proof.
  unfold is_decimal. rewrite andb_true_iff, !Nat.leb_le. lia.
Qed.

Lemma is_decimal_not c (d : ascii) :
  is_decimal c = true -> is_decimal d = false -> Ascii.eqb c d = false.
Proof.
  intros Hc Hd. destruct (Ascii.eqb_spec c d) as [->|]; congruence.
Qed.

Lemma is_decimal_not_ws c : is_decimal c = true -> JS.is_ws c = false.
Proof.
  intros H. apply is_decimal_bounds in H. unfold JS.is_ws. cbv zeta.
  replace (nat_of_ascii c <=? 13)%nat with false
    by (symmetry; apply Nat.leb_gt; lia).
  replace (nat_of_ascii c =? 32)%nat with false
    by (symmetry; apply Nat.eqb_neq; lia).
  replace (nat_of_ascii c =? 160)%nat with false
    by (symmetry; apply Nat.eqb_neq; lia).
  now rewrite andb_false_r.
Qed.

Lemma is_decimal_not_ws2 c c2 : is_decimal c = true -> JS.is_ws2 c c2 = false.
Proof.
  intros H. apply is_decimal_bounds in H. unfold JS.is_ws2.
  apply andb_false_iff. left. apply Nat.eqb_neq. lia.
Qed.

Lemma is_decimal_not_ws3 c c2 c3 :
  is_decimal c = true -> JS.is_ws3 c c2 c3 = false.
Proof.
  intros H. apply is_decimal_bounds in H. unfold JS.is_ws3. cbv zeta.
  replace (nat_of_ascii c =? 225)%nat with false
    by (symmetry; apply Nat.eqb_neq; lia).
  replace (nat_of_ascii c =? 226)%nat with false
    by (symmetry; apply Nat.eqb_neq; lia).
  replace (nat_of_ascii c =? 227)%nat with false
    by (symmetry; apply Nat.eqb_neq; lia).
  replace (nat_of_ascii c =? 239)%nat with false
    by (symmetry; apply Nat.eqb_neq; lia).
  reflexivity.
Qed.

(** Nothing is skipped before a decimal digit. *)
Lemma trim_start_decimal c r :
  is_decimal c = true -> JS.trim_start (String c r) = String c r.
Proof.
  intros H. cbn [JS.trim_start]. rewrite (is_decimal_not_ws c H).
  destruct r as [|c2 r2]; [reflexivity|].
  rewrite (is_decimal_not_ws2 c c2 H).
  destruct r2 as [|c3 r3]; [reflexivity|].
  now rewrite (is_decimal_not_ws3 c c2 c3 H).
Qed.

(** Each white-space character is skipped, whatever follows it. *)
Lemma trim_start_white_space_char ws s :
  In ws StrWhiteSpaceChar -> JS.trim_start (ws ++ s) = JS.trim_start s.
Proof.
  intros H. unfold StrWhiteSpaceChar in H.
  repeat (destruct H as [<-|H]; [reflexivity|]).
  destruct H.
Qed.

Lemma trim_start_white_space wss s :
  Forall (fun ws => In ws StrWhiteSpaceChar) wss ->
  JS.trim_start (fold_right String.append s wss) = JS.trim_start s.
Proof.
  induction 1 as [|ws wss Hws _ IH]; [reflexivity|].
  cbn [fold_right]. now rewrite (trim_start_white_space_char ws _ Hws).
Qed.

(** [parseInt] does not see leading white space. *)
Lemma parseInt_white_space wss s :
  Forall (fun ws => In ws StrWhiteSpaceChar) wss ->
  JS.parseInt (fold_right String.append s wss) = JS.parseInt s.
Proof.
  intros H. unfold JS.parseInt. now rewrite (trim_start_white_space wss s H).
Qed.

(** An integer of at most 53 bits is a double. *)
Lemma to_double_exact n :
  Z.abs n <= max_exact -> JS.to_double n = JS.Num n.
Proof.
  unfold max_exact. intros H.
  destruct (Z.eq_dec (Z.abs n) 9007199254740992) as [E|E].
  - assert (Hn : n = 9007199254740992 \/ n = -9007199254740992) by lia.
    destruct Hn as [-> | ->]; vm_compute; reflexivity.
  - unfold JS.to_double. cbv zeta.
    assert (Hlog : Z.log2 (Z.abs n) - 52 <= 0).
    { destruct (Z.eq_dec (Z.abs n) 0) as [E0|E0]; [rewrite E0; simpl; lia|].
      assert (Z.log2 (Z.abs n) < 53) by (apply Z.log2_lt_pow2; lia). lia. }
    destruct (Z.leb_spec (Z.log2 (Z.abs n) - 52) 0); [reflexivity|lia].
Qed.

(** The double nearest to an integer is a number or an infinity. *)
Lemma to_double_not_NaN n : JS.to_double n <> JS.NaN.
Proof.
  unfold JS.to_double. cbv zeta.
  destruct (Z.log2 (Z.abs n) - 52 <=? 0); [discriminate|].
  match goal with |- (if ?b then _ else _) <> _ => destruct b end;
    discriminate.
Qed.

Lemma digit_val_decimal c :
  is_decimal c = true ->
  JS.digit_val 10 c = Some (Z.of_nat (nat_of_ascii c) - 48).
Proof.
  intros H. apply is_decimal_bounds in H. unfold JS.digit_val.
  destruct (Z.leb_spec 48 (Z.of_nat (nat_of_ascii c))); [|lia].
  destruct (Z.leb_spec (Z.of_nat (nat_of_ascii c)) 57); [|lia].
  simpl. destruct (Z.ltb_spec (Z.of_nat (nat_of_ascii c) - 48) 10); [reflexivity|lia].
Qed.

Lemma digit_val_not_decimal c :
  is_decimal c = false -> JS.digit_val 10 c = None.
Proof.
  intros H. unfold JS.digit_val.
  assert (Hn : ~ 48 <= Z.of_nat (nat_of_ascii c) <= 57).
  { intros Hb. apply is_decimal_bounds in Hb. congruence. }
  destruct (Z.leb_spec 48 (Z.of_nat (nat_of_ascii c)));
  destruct (Z.leb_spec (Z.of_nat (nat_of_ascii c)) 57); simpl; try lia;
  destruct (Z.leb_spec 97 (Z.of_nat (nat_of_ascii c)));
  destruct (Z.leb_spec (Z.of_nat (nat_of_ascii c)) 122); simpl;
  try (destruct (Z.ltb_spec (Z.of_nat (nat_of_ascii c) - 87) 10);
       [lia|reflexivity]);
  destruct (Z.leb_spec 65 (Z.of_nat (nat_of_ascii c)));
  destruct (Z.leb_spec (Z.of_nat (nat_of_ascii c)) 90); simpl;
  try reflexivity;
  try (destruct (Z.ltb_spec (Z.of_nat (nat_of_ascii c) - 55) 10);
       [lia|reflexivity]).
Qed.

(** Reading stops at the first character that is not a decimal digit. *)
Lemma parse_digits_stop rest acc :
  starts_with_decimal rest = false -> JS.parse_digits 10 rest acc = acc.
Proof.
  destruct rest as [|c r]; simpl; intros H; [reflexivity|].
  now rewrite digit_val_not_decimal.
Qed.

Lemma parse_digits_decimal digits : forall rest a,
  all_decimal digits = true -> starts_with_decimal rest = false ->
  JS.parse_digits 10 (digits ++ rest) (Some a) = Some (decimal_from a digits).
Proof.
  induction digits as [|c ds IH]; intros rest a Hd Hr.
  - simpl. now apply parse_digits_stop.
  - simpl in Hd. apply andb_true_iff in Hd. destruct Hd as [Hc Hds].
    cbn [String.append JS.parse_digits decimal_from].
    rewrite (digit_val_decimal c Hc), (IH rest _ Hds Hr).
    f_equal. f_equal. lia.
Qed.

Lemma strip_hex_prefix_decimal c ds rest :
  is_decimal c = true -> all_decimal ds = true ->
  ~ (String c ds = "0" /\ starts_with_x rest = true) ->
  JS.strip_hex_prefix (String c (ds ++ rest)) = (10, String c (ds ++ rest)).
Proof.
  intros Hc Hds Hhex. unfold JS.strip_hex_prefix.
  destruct (ds ++ rest) as [|c1 r] eqn:E; [reflexivity|].
  destruct (Ascii.eqb_spec c "0") as [->|]; [|reflexivity].
  destruct ds as [|d ds'].
  - simpl in E. subst rest. simpl in Hhex.
    destruct (Ascii.eqb c1 "x" || Ascii.eqb c1 "X")%bool; [|reflexivity].
    exfalso. apply Hhex. split; reflexivity.
  - simpl in E. inversion E; subst. simpl in Hds.
    apply andb_true_iff in Hds. destruct Hds as [Hd _].
    rewrite (is_decimal_not c1 "x" Hd eq_refl),
            (is_decimal_not c1 "X" Hd eq_refl).
    reflexivity.
Qed.

(** [parseInt] on a run of decimal digits followed by something that does
    not continue it and is not the hexadecimal marker. *)
Lemma parseInt_decimal_prefix digits rest :
  digits <> "" -> all_decimal digits = true ->
  starts_with_decimal rest = false ->
  ~ (digits = "0" /\ starts_with_x rest = true) ->
  JS.parseInt (digits ++ rest) = JS.to_double (decimal_value digits).
Proof.
  intros Hne Hd Hr Hhex. destruct digits as [|c ds]; [congruence|].
  simpl in Hd. apply andb_true_iff in Hd. destruct Hd as [Hc Hds].
  unfold JS.parseInt. change (String c ds ++ rest) with (String c (ds ++ rest)).
  rewrite (trim_start_decimal c (ds ++ rest) Hc).
  assert (Es : JS.strip_sign (String c (ds ++ rest))
               = (1, String c (ds ++ rest))).
  { unfold JS.strip_sign.
    now rewrite (is_decimal_not c "-" Hc eq_refl),
                (is_decimal_not c "+" Hc eq_refl). }
  rewrite Es, (strip_hex_prefix_decimal c ds rest Hc Hds Hhex).
  cbn [JS.parse_digits]. rewrite (digit_val_decimal c Hc).
  rewrite (parse_digits_decimal ds rest _ Hds Hr).
  unfold decimal_value. cbn [decimal_from].
  rewrite Z.mul_1_l. reflexivity.
Qed.

Lemma decimal_from_nonneg digits : forall a,
  0 <= a -> all_decimal digits = true -> 0 <= decimal_from a digits.
Proof.
  induction digits as [|c ds IH]; intros a Ha Hd; [exact Ha|].
  simpl in Hd. apply andb_true_iff in Hd. destruct Hd as [Hc Hds].
  apply is_decimal_bounds in Hc. cbn [decimal_from]. apply IH; [lia|exact Hds].
Qed.

End ParseIntFacts.

Section HealthcheckFacts.

(** A row of the tenancy query comes from a target with the requested id
    whose site is the reporting Newt's site. *)
Lemma selectTargetCheck_sound db n sid p :
  selectTargetCheck db n sid = Some p ->
  exists t, In t (targets db) /\ t_targetId t = n /\ t_siteId t = sid.
Proof.
  unfold selectTargetCheck. intros H.
  match type of H with hd_error ?l = _ => assert (Hin : In p l) end.
  { destruct (flat_map _ _) as [|q l]; simpl in H; [discriminate|].
    inversion H; subst. now left. }
  apply in_flat_map in Hin. destruct Hin as (t & Ht & Hin).
  apply filter_In in Ht. destruct Ht as (Ht & Etid). apply Z.eqb_eq in Etid.
  apply in_flat_map in Hin. destruct Hin as (r & _ & Hin).
  apply in_map_iff in Hin. destruct Hin as (s & _ & Hs).
  apply filter_In in Hs. destruct Hs as (_ & Es).
  apply andb_true_iff in Es. destruct Es as (E1 & E2).
  apply Z.eqb_eq in E1, E2.
  exists t. repeat split; auto. congruence.
Qed.

Context {SC : Type}.

Lemma processEntry_malformed sid tally key hs (w : World SC) :
  JS.parseInt key = JS.NaN ->
  processEntry SC sid tally (key, hs) w = (rejected tally, w).
Proof.
  intros H. unfold processEntry. now rewrite H.
Qed.

Lemma processEntry_infinite sid tally key hs b (w : World SC) :
  JS.parseInt key = JS.Infinity b ->
  processEntry SC sid tally (key, hs) w = (rejected tally, w).
Proof.
  intros H. unfold processEntry. now rewrite H.
Qed.

Lemma processEntry_no_row sid tally key hs n (w : World SC) :
  JS.parseInt key = JS.Num n ->
  selectTargetCheck (w_db w) n sid = None ->
  processEntry SC sid tally (key, hs) w = (rejected tally, w).
Proof.
  intros H1 H2. unfold processEntry. rewrite H1.
  unfold bind, getDb. now rewrite H2.
Qed.

Lemma processEntry_row sid tally key hs n (w : World SC) :
  JS.parseInt key = JS.Num n ->
  selectTargetCheck (w_db w) n sid <> None ->
  processEntry SC sid tally (key, hs) w
  = (accepted tally n,
     {| w_db := updateHcHealth (w_db w) n (hs_status hs);
        w_sent := w_sent w |}).
Proof.
  intros H1 H2. unfold processEntry. rewrite H1.
  unfold bind at 1. unfold getDb at 1.
  destruct (selectTargetCheck (w_db w) n sid); [|congruence].
  reflexivity.
Qed.

End HealthcheckFacts.

Section ZoneConfigFacts.

Lemma truthy_str_iff (o : option string) :
  JS.truthy_str o = true <-> exists v, o = Some v /\ v <> "".
Proof.
  destruct o as [v|]; simpl.
  - destruct (String.eqb_spec v ""); simpl; split.
    + discriminate.
    + intros (v' & E & Hv). inversion E; subst. congruence.
    + intros _. exists v. auto.
    + reflexivity.
  - split; [discriminate | intros (v & E & _); discriminate].
Qed.

Lemma leftJoinHealth_In db t h :
  In h (leftJoinHealth db t) <-> health_of db t h.
Proof.
  unfold leftJoinHealth, health_of.
  destruct (filter (fun hc => hc_targetId hc =? t_targetId t)
              (targetHealthCheck db)) as [|hc0 hs] eqn:E.
  - assert (Hnone : forall hc, In hc (targetHealthCheck db) ->
                               hc_targetId hc <> t_targetId t).
    { intros hc Hin Heq.
      assert (Hf : In hc (filter (fun hc => hc_targetId hc =? t_targetId t)
                            (targetHealthCheck db))).
      { apply filter_In. split; [exact Hin | now apply Z.eqb_eq]. }
      rewrite E in Hf. exact Hf. }
    destruct h as [hc|]; simpl.
    + split; [intros [H|[]]; discriminate H|].
      intros [Hin Heq]. exfalso. exact (Hnone hc Hin Heq).
    + split; auto.
  - rewrite <- E. destruct h as [hc|].
    + rewrite in_map_iff. split.
      * intros (x & Ex & Hx). inversion Ex; subst.
        apply filter_In in Hx. destruct Hx as [Hin Heq].
        apply Z.eqb_eq in Heq. auto.
      * intros [Hin Heq]. exists hc. split; [reflexivity|].
        apply filter_In. split; [exact Hin | now apply Z.eqb_eq].
    + split.
      * intros Hin. apply in_map_iff in Hin.
        destruct Hin as (x & Ex & _). discriminate Ex.
      * intros Hnone. exfalso.
        assert (Hf : In hc0 (filter (fun hc => hc_targetId hc =? t_targetId t)
                               (targetHealthCheck db))).
        { rewrite E. now left. }
        apply filter_In in Hf. destruct Hf as [Hin Heq].
        apply Z.eqb_eq in Heq. exact (Hnone hc0 Hin Heq).
Qed.

(** Every target has a joined health entry (possibly the null one). *)
Lemma health_of_exists db t : exists h, health_of db t h.
Proof.
  destruct (leftJoinHealth db t) as [|h l] eqn:E.
  - unfold leftJoinHealth in E.
    destruct (filter _ _); simpl in E; discriminate E.
  - exists h. apply leftJoinHealth_In. rewrite E. now left.
Qed.

(** The rows of the [resourceTargets] query, relationally. *)
Lemma selectResourceTargets_In db rid row :
  In row (selectResourceTargets db rid)
  <-> exists t s h, target_on db rid t s /\ health_of db t h
                    /\ row = mkTargetRow t s h.
Proof.
  unfold selectResourceTargets, target_on. split.
  - intros H. apply in_flat_map in H. destruct H as (t & Ht & H).
    apply filter_In in Ht. destruct Ht as [Ht Er]. apply Z.eqb_eq in Er.
    apply in_flat_map in H. destruct H as (s & Hs & H).
    apply filter_In in Hs. destruct Hs as [Hs Es]. apply Z.eqb_eq in Es.
    apply in_map_iff in H. destruct H as (h & Erow & Hh).
    apply leftJoinHealth_In in Hh.
    exists t, s, h. repeat split; auto.
  - intros (t & s & h & (Ht & Er & Hs & Es) & Hh & ->).
    apply in_flat_map. exists t. split.
    { apply filter_In. split; [exact Ht | now apply Z.eqb_eq]. }
    apply in_flat_map. exists s. split.
    { apply filter_In. split; [exact Hs | apply Z.eqb_eq; congruence]. }
    apply in_map. now apply leftJoinHealth_In.
Qed.

Lemma validTarget_mkTargetRow t s h :
  validTarget (mkTargetRow t s h) = true
  <-> exists ip, retained t s ip.
Proof.
  unfold validTarget, retained, has_public_ip. simpl.
  rewrite !andb_true_iff, truthy_str_iff. split.
  - intros [[He (ip & Hip & Hne)] Hd]. exists ip. auto.
  - intros (ip & He & Hd & Hip & Hne). repeat split; auto. exists ip. auto.
Qed.

Lemma dnsTarget_mkTargetRow db rid t s h ip :
  target_on db rid t s -> has_public_ip s ip ->
  dnsTarget (mkTargetRow t s h) = emitted t s h ip.
Proof.
  intros (_ & _ & _ & Es) [Hip _]. unfold dnsTarget, emitted, JS.or_Z. simpl.
  rewrite Hip, Es. f_equal.
  destruct h as [hc|]; simpl; [|reflexivity].
  destruct (hc_hcEnabled hc); reflexivity.
Qed.

(** The retained rows, relationally. *)
Lemma validTargets_In db rid dt :
  In dt (map dnsTarget (filter validTarget (selectResourceTargets db rid)))
  <-> exists t s h ip, target_on db rid t s /\ retained t s ip
                       /\ health_of db t h /\ dt = emitted t s h ip.
Proof.
  rewrite in_map_iff. split.
  - intros (row & <- & Hrow). apply filter_In in Hrow.
    destruct Hrow as [Hrow Hvalid].
    apply selectResourceTargets_In in Hrow.
    destruct Hrow as (t & s & h & Hon & Hh & ->).
    apply validTarget_mkTargetRow in Hvalid. destruct Hvalid as (ip & Hret).
    exists t, s, h, ip. repeat split; auto; try apply Hon; try apply Hret.
    apply (dnsTarget_mkTargetRow db rid); [exact Hon | apply Hret].
  - intros (t & s & h & ip & Hon & Hret & Hh & ->).
    exists (mkTargetRow t s h). split.
    + apply (dnsTarget_mkTargetRow db rid); [exact Hon | apply Hret].
    + apply filter_In. split.
      * apply selectResourceTargets_In. exists t, s, h. auto.
      * apply validTarget_mkTargetRow. exists ip. exact Hret.
Qed.

Lemma validTargets_empty_iff db rid :
  filter validTarget (selectResourceTargets db rid) = []
  <-> ~ exists t s ip, target_on db rid t s /\ retained t s ip.
Proof.
  split.
  - intros E (t & s & ip & Hon & Hret).
    destruct (health_of_exists db t) as (h & Hh).
    assert (Hin : In (mkTargetRow t s h)
                    (filter validTarget (selectResourceTargets db rid))).
    { apply filter_In. split.
      - apply selectResourceTargets_In. exists t, s, h. auto.
      - apply validTarget_mkTargetRow. exists ip. exact Hret. }
    rewrite E in Hin. exact Hin.
  - intros Hnone.
    destruct (filter validTarget (selectResourceTargets db rid))
      as [|row l] eqn:E; [reflexivity|].
    exfalso. apply Hnone.
    assert (Hin : In row (filter validTarget (selectResourceTargets db rid))).
    { rewrite E. now left. }
    apply filter_In in Hin. destruct Hin as [Hrow Hvalid].
    apply selectResourceTargets_In in Hrow.
    destruct Hrow as (t & s & h & Hon & Hh & ->).
    apply validTarget_mkTargetRow in Hvalid. destruct Hvalid as (ip & Hret).
    exists t, s, ip. auto.
Qed.

End ZoneConfigFacts.

Section FindFacts.

Context {A : Type} (f : A -> bool).

Lemma find_none_of_all_false (l : list A) :
  (forall x, In x l -> f x = false) -> find f l = None.
Proof.
  induction l as [|y l IH]; simpl; intros H; [reflexivity|].
  rewrite (H y (or_introl eq_refl)). apply IH. intros x Hx. apply H. now right.
Qed.

(** [find] returns the first row that satisfies the condition. *)
Lemma find_first (pre post : list A) (x : A) :
  (forall y, In y pre -> f y = false) -> f x = true ->
  find f (pre ++ x :: post) = Some x.
Proof.
  induction pre as [|y pre IH]; simpl; intros Hpre Hx.
  - now rewrite Hx.
  - rewrite (Hpre y (or_introl eq_refl)). apply IH; auto.
Qed.

End FindFacts.

Section SessionFacts.
Import ValidateSession.

(** The condition of the session query on one row. *)
Lemma session_match_iff token now s :
  (String.eqb (sessionToken s) token && (now <? expiresAt s)) = true
  <-> sessionToken s = token /\ now < expiresAt s.
Proof.
  rewrite andb_true_iff, String.eqb_eq, Z.ltb_lt. tauto.
Qed.

Lemma session_match_false token now s :
  ~ (sessionToken s = token /\ now < expiresAt s) ->
  (String.eqb (sessionToken s) token && (now <? expiresAt s)) = false.
Proof.
  intros H. apply not_true_is_false. intros E. apply H.
  now apply session_match_iff.
Qed.

Lemma truthy_some token : token <> "" -> JS.truthy_str (Some token) = true.
Proof.
  intros H. simpl. now destruct (String.eqb_spec token "").
Qed.

(** The handler reads the token that the request presents. *)
Lemma extractToken_presents req tok :
  presents req tok -> extractToken req = tok.
Proof.
  intros H. destruct H as [c h Hc | c h Hc | c Hc]; unfold extractToken;
    cbn [cookies_p_session headers_authorization].
  - now rewrite (truthy_some c Hc).
  - now rewrite Hc.
  - now rewrite Hc.
Qed.

(** Every request presents a token or none. *)
Lemma presents_total req : exists tok, presents req tok.
Proof.
  destruct req as [c h].
  destruct (JS.truthy_str c) eqn:Ec.
  - apply truthy_str_iff in Ec. destruct Ec as (v & -> & Hv).
    exists (Some v). now constructor.
  - destruct h as [h|].
    + exists (Some (JS.replace "Bearer " "" h)). now constructor.
    + exists None. now constructor.
Qed.

Lemma toISOString_in_range t :
  Z.abs t <= JS.max_time -> JS.toISOString t = Some (JS.iso_string t).
Proof.
  intros H. unfold JS.toISOString.
  destruct (Z.leb_spec (Z.abs t) JS.max_time); [reflexivity|lia].
Qed.

Lemma toISOString_out_of_range t :
  JS.max_time < Z.abs t <-> JS.toISOString t = None.
Proof.
  unfold JS.toISOString.
  destruct (Z.leb_spec (Z.abs t) JS.max_time); split;
    intros; try reflexivity; try discriminate; lia.
Qed.

End SessionFacts.

Section SplitFacts.

Lemma split_nonempty sep s : JS.split sep s <> [].
Proof.
  destruct s as [|c r]; simpl; [discriminate|].
  destruct (Ascii.eqb c sep); [discriminate|].
  destruct (JS.split sep r); discriminate.
Qed.

(** Splitting distributes over a separator. *)
Lemma split_app sep x y :
  JS.split sep (x ++ String sep y) = (JS.split sep x ++ JS.split sep y)%list.
Proof.
  induction x as [|c x IH]; simpl.
  - now rewrite Ascii.eqb_refl.
  - destruct (Ascii.eqb c sep); [now rewrite IH|].
    rewrite IH. pose proof (split_nonempty sep x) as Hne.
    destruct (JS.split sep x) as [|h t]; [congruence|]. reflexivity.
Qed.

Lemma split_label s : is_label s = true -> JS.split "." s = [s].
Proof.
  induction s as [|c r IH]; simpl; intros H; [reflexivity|].
  apply andb_true_iff in H. destruct H as [Hc Hr].
  apply negb_true_iff in Hc. rewrite Hc, (IH Hr). reflexivity.
Qed.

Lemma slice_last_two_app {A} (l : list A) a b :
  JS.slice_last 2 (l ++ [a; b]) = [a; b].
Proof.
  unfold JS.slice_last. rewrite length_app. simpl.
  replace (List.length l + 2 - 2)%nat with (List.length l + 0)%nat by lia.
  rewrite skipn_app, Nat.add_0_r, skipn_all, Nat.sub_diag. reflexivity.
Qed.

Lemma join_two a b : JS.join "." [a; b] = a ++ "." ++ b.
Proof. reflexivity. Qed.

(** [extractBaseDomain] on the host name the URL parser returns. *)
Lemma extractBaseDomain_labels (URL_hostname : string -> option string)
    url host :
  URL_hostname url = Some host ->
  (forall pre a b, is_label a = true -> is_label b = true ->
     host = pre ++ "." ++ a ++ "." ++ b ->
     extractBaseDomain URL_hostname url = "." ++ a ++ "." ++ b)
  /\ (forall a b, is_label a = true -> is_label b = true ->
        host = a ++ "." ++ b ->
        extractBaseDomain URL_hostname url = "." ++ a ++ "." ++ b)
  /\ (is_label host = true -> extractBaseDomain URL_hostname url = host).
Proof.
  intros Hurl. unfold extractBaseDomain. rewrite Hurl.
  split; [|split].
  - intros pre a b Ha Hb ->.
    change (pre ++ "." ++ a ++ "." ++ b)
      with (pre ++ String "." (a ++ String "." b)).
    rewrite !split_app, (split_label a Ha), (split_label b Hb).
    cbn [app]. rewrite length_app. cbn [List.length].
    replace (2 <=? List.length (JS.split "." pre) + 2)%nat with true
      by (symmetry; apply Nat.leb_le; lia).
    now rewrite slice_last_two_app.
  - intros a b Ha Hb ->.
    change (a ++ "." ++ b) with (a ++ String "." b).
    rewrite split_app, (split_label a Ha), (split_label b Hb).
    reflexivity.
  - intros Hh. rewrite (split_label host Hh). reflexivity.
Qed.

End SplitFacts.

Section AuthProxyFacts.

Lemma selectSiteTargets_In db siteId row :
  In row (selectSiteTargets db siteId)
  <-> exists t r, enabled_target_on_site db siteId t r
                  /\ row = mkSiteTargetRow t r.
Proof.
  unfold selectSiteTargets, enabled_target_on_site. split.
  - intros H. apply in_flat_map in H. destruct H as (t & Ht & H).
    apply filter_In in Ht. destruct Ht as [Ht Ec].
    apply andb_true_iff in Ec. destruct Ec as [Es Ee]. apply Z.eqb_eq in Es.
    apply in_map_iff in H. destruct H as (r & Erow & Hr).
    apply filter_In in Hr. destruct Hr as [Hr Er]. apply Z.eqb_eq in Er.
    exists t, r. repeat split; auto.
  - intros (t & r & (Ht & Es & Ee & Hr & Er) & ->).
    apply in_flat_map. exists t. split.
    + apply filter_In. split; [exact Ht|].
      apply andb_true_iff. split; [now apply Z.eqb_eq | exact Ee].
    + apply in_map. apply filter_In. split; [exact Hr|].
      apply Z.eqb_eq. congruence.
Qed.

Lemma isProtected_mkSiteTargetRow t r :
  isProtected (mkSiteTargetRow t r) = true <-> protected_resource r.
Proof.
  unfold isProtected, protected_resource. simpl.
  rewrite andb_true_iff, !orb_true_iff. tauto.
Qed.

(** There are protected rows exactly when the site hosts an enabled target
    of a protected resource. *)
Lemma protectedResources_empty_iff db siteId :
  (List.length (filter isProtected (selectSiteTargets db siteId)) =? 0)%nat = true
  <-> ~ hosts_protected_target db siteId.
Proof.
  rewrite Nat.eqb_eq, length_zero_iff_nil. unfold hosts_protected_target. split.
  - intros E (t & r & Hon & Hp).
    assert (Hin : In (mkSiteTargetRow t r)
                    (filter isProtected (selectSiteTargets db siteId))).
    { apply filter_In. split.
      - apply selectSiteTargets_In. exists t, r. auto.
      - now apply isProtected_mkSiteTargetRow. }
    rewrite E in Hin. exact Hin.
  - intros Hnone.
    destruct (filter isProtected (selectSiteTargets db siteId))
      as [|row l] eqn:E; [reflexivity|].
    exfalso. apply Hnone.
    assert (Hin : In row (filter isProtected (selectSiteTargets db siteId))).
    { rewrite E. now left. }
    apply filter_In in Hin. destruct Hin as [Hrow Hp].
    apply selectSiteTargets_In in Hrow. destruct Hrow as (t & r & Hon & ->).
    exists t, r. split; [exact Hon|].
    exact (proj1 (isProtected_mkSiteTargetRow t r) Hp).
Qed.

(** [buildAuthProxyConfig] returns a message exactly under its four guards. *)
Lemma buildAuthProxyConfig_some_iff URL_hostname config keys db siteId :
  (exists cfg, buildAuthProxyConfig URL_hostname config keys db siteId = Some cfg)
  <-> (exists site org, select_site db siteId = Some site
                        /\ select_org db (s_orgId site) = Some org)
      /\ hosts_protected_target db siteId
      /\ JS.truthy_str (app_dashboard_url config) = true.
Proof.
  unfold buildAuthProxyConfig.
  destruct (select_site db siteId) as [site|].
  2:{ split; [intros (cfg & H); discriminate H|].
      intros ((site & org & H & _) & _). discriminate H. }
  destruct (select_org db (s_orgId site)) as [org|] eqn:Eorg.
  2:{ split; [intros (cfg & H); discriminate H|].
      intros ((site' & org & H1 & H2) & _). inversion H1; subst.
      rewrite Eorg in H2. discriminate H2. }
  destruct (List.length (filter isProtected (selectSiteTargets db siteId)) =? 0)%nat
    eqn:Elen.
  { apply protectedResources_empty_iff in Elen.
    split; [intros (cfg & H); discriminate H|]. intros (_ & H & _). tauto. }
  assert (Hhosts : hosts_protected_target db siteId).
  { destruct (protectedResources_empty_iff db siteId) as [_ H].
    unfold hosts_protected_target in *.
    destruct (filter isProtected (selectSiteTargets db siteId))
      as [|row l] eqn:E; [discriminate Elen|].
    assert (Hin : In row (filter isProtected (selectSiteTargets db siteId))).
    { rewrite E. now left. }
    apply filter_In in Hin. destruct Hin as [Hrow Hp].
    apply selectSiteTargets_In in Hrow. destruct Hrow as (t & r & Hon & ->).
    exists t, r. split; [exact Hon|].
    exact (proj1 (isProtected_mkSiteTargetRow t r) Hp). }
  destruct (app_dashboard_url config) as [url|].
  2:{ split; [intros (cfg & H); discriminate H|].
      intros (_ & _ & H). discriminate H. }
  destruct (JS.truthy_str (Some url)); cbn [negb].
  - split; [|intros _; eexists; reflexivity].
    intros _. split; [exists site, org; auto|]. auto.
  - split; [intros (cfg & H); discriminate H|].
    intros (_ & _ & H). discriminate H.
Qed.

Lemma flat_map_nil {A B} (f : A -> list B) (l : list A) :
  (forall x, In x l -> f x = []) -> flat_map f l = [].
Proof.
  induction l as [|x l IH]; simpl; intros H; [reflexivity|].
  rewrite (H x (or_introl eq_refl)). apply IH. intros y Hy. apply H. now right.
Qed.

(** A row without a domain is skipped by the loop. *)
Lemma resourceConfig_no_domain db row :
  JS.truthy_str (st_fullDomain row) = false -> resourceConfig db row = [].
Proof.
  unfold resourceConfig. destruct (st_fullDomain row) as [d|]; [|reflexivity].
  intros H. now rewrite H.
Qed.

Context {SC : Type}.

(** [updateAuthProxyForSite] reads the database and hands [siteMessages] to
    the bus. *)
Lemma updateAuthProxyForSite_run URL_hostname config keys siteId (w : World SC) :
  updateAuthProxyForSite URL_hostname config keys SC siteId w
  = (tt, emit w (siteMessages URL_hostname config keys (w_db w) siteId)).
Proof.
  unfold updateAuthProxyForSite, siteMessages.
  unfold bind at 1. unfold getDb at 1.
  destruct (selectSiteNewt (w_db w) siteId) as [newtId|];
    [|unfold ret; now rewrite emit_nil].
  destruct (String.eqb newtId ""); [unfold ret; now rewrite emit_nil|].
  unfold bind, getDb.
  destruct (buildAuthProxyConfig URL_hostname config keys (w_db w) siteId);
    [reflexivity | unfold ret; now rewrite emit_nil].
Qed.

End AuthProxyFacts.

Section OlmSyncFacts.

Context {SC : Type}.

(** The zones message of a sync does not depend on which sites the client is
    associated with, only on whether it has an association at all. *)
Lemma sendDNSAuthorityZonesToOlm_any_client olm (c1 c2 : Client) (w : World SC) :
  filter (fun a => a_clientId a =? c_clientId c1)
    (clientSitesAssociationsCache (w_db w)) <> [] ->
  filter (fun a => a_clientId a =? c_clientId c2)
    (clientSitesAssociationsCache (w_db w)) <> [] ->
  sendDNSAuthorityZonesToOlm SC olm c1 w = sendDNSAuthorityZonesToOlm SC olm c2 w.
Proof.
  intros H1 H2. unfold sendDNSAuthorityZonesToOlm, bind, getDb.
  cbv beta iota zeta.
  destruct (filter (fun a => a_clientId a =? c_clientId c1)
              (clientSitesAssociationsCache (w_db w))); [congruence|].
  destruct (filter (fun a => a_clientId a =? c_clientId c2)
              (clientSitesAssociationsCache (w_db w))); [congruence|].
  reflexivity.
Qed.

End OlmSyncFacts.

(* ===================================================================== *)
(** ** The primitives on concrete inputs *)
(* ===================================================================== *)

Example parseInt_12abc : JS.parseInt "12abc" = JS.Num 12.
Proof. reflexivity. Qed.
Example parseInt_ws : JS.parseInt "  -7px" = JS.Num (-7).
Proof. reflexivity. Qed.
Example parseInt_hex : JS.parseInt "0x1f" = JS.Num 31.
Proof. reflexivity. Qed.
Example parseInt_abc : JS.parseInt "abc" = JS.NaN.
Proof. reflexivity. Qed.
Example parseInt_exponent : JS.parseInt "1e3" = JS.Num 1.
Proof. reflexivity. Qed.
Example parseInt_minus_zero : JS.parseInt "-0" = JS.Num 0.
Proof. reflexivity. Qed.

(** A no-break space (U+00A0) and a line separator (U+2028) before the
    digits are skipped. *)
Example parseInt_nbsp :
  JS.parseInt (String "194" (String "160" "1")) = JS.Num 1.
Proof. reflexivity. Qed.
Example parseInt_nbsp_code_unit : JS.parseInt (String "160" "1") = JS.Num 1.
Proof. reflexivity. Qed.
Example parseInt_line_separator :
  JS.parseInt (String "226" (String "128" (String "168" " 42"))) = JS.Num 42.
Proof. reflexivity. Qed.

(** Above 2^53 the digits are rounded to the nearest double, ties to even. *)
Example parseInt_2p53_plus_1 :
  JS.parseInt "9007199254740993" = JS.Num 9007199254740992.
Proof. vm_compute. reflexivity. Qed.
Example parseInt_2p53_plus_3 :
  JS.parseInt "9007199254740995" = JS.Num 9007199254740996.
Proof. vm_compute. reflexivity. Qed.
Example parseInt_2p54_plus_3 :
  JS.parseInt "18014398509481987" = JS.Num 18014398509481988.
Proof. vm_compute. reflexivity. Qed.
Example parseInt_1e21 :
  JS.parseInt "1000000000000000000000" = JS.Num 1000000000000000000000.
Proof. vm_compute. reflexivity. Qed.
Example parseInt_huge :
  JS.parseInt ("-1" ++ JS.zeros 400) = JS.Infinity true.
Proof. vm_compute. reflexivity. Qed.
Example to_double_max :
  JS.to_double (2 ^ 1024 - 2 ^ 970 - 1) = JS.Num (2 ^ 1024 - 2 ^ 971)
  /\ JS.to_double (2 ^ 1024 - 2 ^ 970) = JS.Infinity false.
Proof. vm_compute. split; reflexivity. Qed.

Example toISOString_epoch :
  JS.toISOString 0 = Some "1970-01-01T00:00:00.000Z".
Proof. reflexivity. Qed.
Example toISOString_2024 :
  JS.toISOString 1709210096789 = Some "2024-02-29T12:34:56.789Z".
Proof. reflexivity. Qed.
Example toISOString_before_epoch :
  JS.toISOString (-1) = Some "1969-12-31T23:59:59.999Z".
Proof. reflexivity. Qed.
Example toISOString_year_0 :
  JS.toISOString (-62167219200000) = Some "0000-01-01T00:00:00.000Z"
  /\ JS.toISOString (-62167219200001) = Some "-000001-12-31T23:59:59.999Z".
Proof. split; reflexivity. Qed.
Example toISOString_year_10000 :
  JS.toISOString 253402300800000 = Some "+010000-01-01T00:00:00.000Z".
Proof. reflexivity. Qed.
Example toISOString_limits :
  JS.toISOString JS.max_time = Some "+275760-09-13T00:00:00.000Z"
  /\ JS.toISOString (- JS.max_time) = Some "-271821-04-20T00:00:00.000Z"
  /\ JS.toISOString (JS.max_time + 1) = None
  /\ JS.toISOString (- JS.max_time - 1) = None.
Proof. repeat split; reflexivity. Qed.
Example split_host : JS.split "." "app.example.com" = ["app"; "example"; "com"].
Proof. reflexivity. Qed.
Example replace_bearer : JS.replace "Bearer " "" "Bearer abc" = "abc".
Proof. reflexivity. Qed.

(** Scenarios S2 and S3: the Newt of site 1 reports target 1 unhealthy,
    target 2 (on site 2) and a key that is not a number. Target 1 is
    updated and stays in the zone with [healthy: false]; the two other
    entries are counted as errors. *)
Example handleHealthcheckStatusMessage_S2_S3 :
  handleHealthcheckStatusMessage unit
    (Some {| n_newtId := "newt1"; n_siteId := Some 1 |})
    {| hm_targets := Some [("1", Fixtures.report_unhealthy);
                           ("2", Fixtures.report_unhealthy);
                           ("abc", Fixtures.report_unhealthy)] |}
    Fixtures.world0
  = let zone :=
      {| z_enabled := true; z_domain := "svc.example.com"; z_ttl := 60;
         z_routingPolicy := "failover";
         z_targets := [{| dt_ip := "203.0.113.10"; dt_priority := 100;
                          dt_healthy := false; dt_siteId := 1;
                          dt_siteName := "Site A" |}] |} in
    let update :=
      DnsAuthorityData {| dm_action := Update; dm_zones := [ZoneConfig zone] |} in
    (Some {| successCount := 1; errorCount := 2; updatedTargetIds := [1] |},
     {| w_db := updateHcHealth Fixtures.db0 1 "unhealthy";
        w_sent :=
          [{| env_to := "newt1"; env_type := "newt/dns/authority/config";
              env_data := update |};
           {| env_to := "olm1"; env_type := "olm/dns/authority/config";
              env_data := update |}] |}).
Proof. vm_compute. reflexivity. Qed.

(* ===================================================================== *)
(** ** Properties *)
(* ===================================================================== *)

(** C7. Two back-to-back invocations of [updateDNSAuthorityForResource] with
    no intervening state change hand the bus the same sequence of messages
    (same recipients, same types, same action and zone payload): the first
    call leaves the database as it found it and appends some messages
    [msgs]; the second call appends exactly [msgs] again. *)
Theorem updateDNSAuthorityForResource_idempotent :
  forall (SC : Type) (resourceId : Z) (w : World SC),
    let w1 := snd (DnsAuthority.updateDNSAuthorityForResource SC resourceId w) in
    let w2 := snd (DnsAuthority.updateDNSAuthorityForResource SC resourceId w1) in
    w_db w1 = w_db w /\ w_db w2 = w_db w
    /\ exists msgs,
         w_sent w1 = (w_sent w ++ msgs)%list
         /\ w_sent w2 = (w_sent w1 ++ msgs)%list.
Proof.
  intros SC rid w. cbv zeta.
  rewrite !updateDNSAuthorityForResource_run. simpl.
  repeat split.
  exists (updateMessages (w_db w) rid). split; reflexivity.
Qed.

(** C8. For every list of target ids, [onHealthCheckUpdate] runs
    [updateDNSAuthorityForResource] over a duplicate-free list of resource
    ids, and a resource is in that list exactly when one of the given
    targets belongs to it and the resource has [dnsAuthorityEnabled]: one
    call per such resource and no call for any other. Target and resource
    ids are primary keys. *)
Theorem onHealthCheckUpdate_once_per_resource :
  forall (SC : Type) (targetIds : list Z) (w : World SC),
    NoDup (map t_targetId (targets (w_db w))) ->
    NoDup (map r_resourceId (resources (w_db w))) ->
    exists resourceIds : list Z,
      NoDup resourceIds
      /\ (forall r, In r resourceIds <->
            exists tid t res,
              In tid targetIds
              /\ In t (targets (w_db w)) /\ t_targetId t = tid
              /\ In res (resources (w_db w))
              /\ r_resourceId res = t_resourceId t
              /\ r_resourceId res = r
              /\ r_dnsAuthorityEnabled res = true)
      /\ onHealthCheckUpdate SC targetIds w
         = forEach resourceIds (updateDNSAuthorityForResource SC) w.
Proof.
  intros SC targetIds w Ht Hr.
  destruct (collectResourceIds_run targetIds w) as (ids & Hrun & Hnd & Hin).
  exists ids. split; [exact Hnd|]. split.
  - intros r. rewrite Hin. split.
    + intros (tid & Htid & Hsel).
      apply selectTargetInfo_sound in Hsel.
      destruct Hsel as (t & res & H1 & H2 & H3 & H4 & H5 & H6).
      exists tid, t, res. repeat split; auto; congruence.
    + intros (tid & t & res & Htid & H1 & H2 & H3 & H4 & H5 & H6).
      exists tid. split; [exact Htid|].
      rewrite <- H2, <- H5, H4, <- H6.
      now apply selectTargetInfo_complete.
  - unfold onHealthCheckUpdate, bind. now rewrite Hrun.
Qed.

(** C1. The zones pushed on an Olm connect are not restricted to the sites of
    the Olm's client. In [db0] the client of [olm1] is associated with site 1
    only and every target of resource 2 is on site 2, yet the follow-up
    [olm/dns/authority/config] message carries the zone of resource 2 next to
    the zone of resource 1. *)
Theorem sendOlmSyncMessage_pushes_unassociated_zone :
  (forall a, In a (clientSitesAssociationsCache Fixtures.db0) ->
             a_clientId a = c_clientId Fixtures.client10 -> a_siteId a = 1)
  /\ (forall t, In t (targets Fixtures.db0) -> t_resourceId t = 2 -> t_siteId t = 2)
  /\ w_sent (snd (sendOlmSyncMessage unit (fun _ _ _ _ => []) 51820
                    Fixtures.olm1 Fixtures.client10 Fixtures.world0))
     = [ {| env_to := "olm1"; env_type := "olm/sync";
            env_data :=
              OlmSyncData []
                [{| xd_publicKey := "ek7"; xd_relayPort := 51820;
                    xd_endpoint := "exit.example.com"; xd_siteIds := [1] |}] |};
         {| env_to := "olm1"; env_type := "olm/dns/authority/config";
            env_data :=
              DnsAuthorityData
                {| dm_action := Update;
                   dm_zones := [ZoneConfig Fixtures.zone1;
                                ZoneConfig Fixtures.zone2] |} |} ].
Proof.
  split; [|split].
  - intros a [<-|[]] _. reflexivity.
  - intros t [<-|[<-|[]]] H; [discriminate H | reflexivity].
  - vm_compute. reflexivity.
Qed.

(** Witness of C8 on the fixture database. *)
Lemma onHealthCheckUpdate_once_per_resource_witness :
  NoDup (map t_targetId (targets (w_db Fixtures.world0)))
  /\ NoDup (map r_resourceId (resources (w_db Fixtures.world0)))
  /\ exists resourceIds : list Z,
       NoDup resourceIds
       /\ (forall r, In r resourceIds <->
             exists tid t res,
               In tid [1; 1; 2]
               /\ In t (targets (w_db Fixtures.world0)) /\ t_targetId t = tid
               /\ In res (resources (w_db Fixtures.world0))
               /\ r_resourceId res = t_resourceId t
               /\ r_resourceId res = r
               /\ r_dnsAuthorityEnabled res = true)
       /\ onHealthCheckUpdate unit [1; 1; 2] Fixtures.world0
          = forEach resourceIds (updateDNSAuthorityForResource unit)
              Fixtures.world0.
Proof.
  assert (H1 : NoDup (map t_targetId (targets (w_db Fixtures.world0)))).
  { simpl. repeat constructor; simpl; intuition discriminate. }
  assert (H2 : NoDup (map r_resourceId (resources (w_db Fixtures.world0)))).
  { simpl. repeat constructor; simpl; intuition discriminate. }
  split; [exact H1|]. split; [exact H2|].
  exact (onHealthCheckUpdate_once_per_resource unit [1; 1; 2]
           Fixtures.world0 H1 H2).
Defined.

(** C3. When the target named by an entry of a [healthcheck/status] message
    does not exist, or its [siteId] differs from the site the reporting Newt
    is bound to, the entry changes nothing in the database (no
    [targetHealthCheck] row is written, nothing is sent), the error counter
    goes up by one, the other counters are kept, and the loop goes on with
    the remaining entries. *)
Theorem foreign_or_missing_target_rejected :
  forall (SC : Type) (newtSiteId : Z) (targetId : string)
         (healthStatus : TargetHealthStatus)
         (rest : list (string * TargetHealthStatus))
         (tally : Tally) (w : World SC),
    (forall n t, JS.parseInt targetId = JS.Num n ->
                 In t (targets (w_db w)) -> t_targetId t = n ->
                 t_siteId t <> newtSiteId) ->
    processEntry SC newtSiteId tally (targetId, healthStatus) w
    = (rejected tally, w)
    /\ errorCount (rejected tally) = errorCount tally + 1
    /\ processEntries SC newtSiteId ((targetId, healthStatus) :: rest) tally w
       = processEntries SC newtSiteId rest (rejected tally) w.
Proof.
  intros SC sid key hs rest tally w Hforeign.
  assert (Hstep : processEntry SC sid tally (key, hs) w = (rejected tally, w)).
  { destruct (JS.parseInt key) as [|n|b] eqn:Ep.
    - now apply processEntry_malformed.
    - apply (processEntry_no_row sid tally key hs n w Ep).
      destruct (selectTargetCheck (w_db w) n sid) as [p|] eqn:Es; [|reflexivity].
      apply selectTargetCheck_sound in Es. destruct Es as (t & Ht & Hn & Hs).
      exfalso. exact (Hforeign n t eq_refl Ht Hn Hs).
    - now apply (processEntry_infinite sid tally key hs b). }
  split; [exact Hstep|]. split; [reflexivity|].
  unfold processEntries. cbn [forFold]. unfold bind at 1. now rewrite Hstep.
Qed.

(** Witness of C3 (scenario S3): the Newt bound to site 1 reports target 2,
    which is on site 2. *)
Lemma foreign_or_missing_target_rejected_witness :
  (forall n t, JS.parseInt "2" = JS.Num n ->
               In t (targets (w_db Fixtures.world0)) -> t_targetId t = n ->
               t_siteId t <> 1)
  /\ processEntry unit 1 emptyTally ("2", Fixtures.report_unhealthy)
       Fixtures.world0
     = (rejected emptyTally, Fixtures.world0)
  /\ errorCount (rejected emptyTally) = errorCount emptyTally + 1
  /\ processEntries unit 1
       [("2", Fixtures.report_unhealthy); ("1", Fixtures.report_unhealthy)]
       emptyTally Fixtures.world0
     = processEntries unit 1 [("1", Fixtures.report_unhealthy)]
         (rejected emptyTally) Fixtures.world0.
Proof.
  assert (H : forall n t, JS.parseInt "2" = JS.Num n ->
                In t (targets (w_db Fixtures.world0)) -> t_targetId t = n ->
                t_siteId t <> 1).
  { intros n t Hn Ht Hid.
    subst n. simpl in Ht. destruct Ht as [<-|[<-|[]]].
    - vm_compute in Hn. discriminate Hn.
    - vm_compute. discriminate. }
  split; [exact H|].
  exact (foreign_or_missing_target_rejected unit 1 "2"
           Fixtures.report_unhealthy [("1", Fixtures.report_unhealthy)]
           emptyTally Fixtures.world0 H).
Defined.

(** C9, as amended. A key made of a non-empty run of decimal digits followed
    by characters that do not continue the run, and that is not ["0"]
    followed by ["x"] or ["X"], is not rejected as malformed: [parseInt]
    yields the double nearest to the value of the digits, which is that
    value itself up to 2^53 and is never NaN. The entry goes to the tenancy
    check with that number: when the check finds the target on the
    reporting Newt's site, the health of the target whose id is that number
    is set to the reported status; otherwise (no such target on the site,
    or the number is an infinity) the entry is counted as an error by the
    tenancy check. A key from which [parseInt] reads no integer is counted
    as an error. *)
Theorem integer_prefixed_key_accepted :
  forall (SC : Type) (newtSiteId : Z) (digits rest : string)
         (healthStatus : TargetHealthStatus) (tally : Tally) (w : World SC),
    digits <> "" -> all_decimal digits = true ->
    starts_with_decimal rest = false ->
    ~ (digits = "0" /\ starts_with_x rest = true) ->
    JS.parseInt (digits ++ rest) = JS.to_double (decimal_value digits)
    /\ JS.isNaN (JS.parseInt (digits ++ rest)) = false
    /\ (decimal_value digits <= max_exact ->
        JS.parseInt (digits ++ rest) = JS.Num (decimal_value digits))
    /\ (forall n, JS.to_double (decimal_value digits) = JS.Num n ->
          (selectTargetCheck (w_db w) n newtSiteId <> None ->
           processEntry SC newtSiteId tally (digits ++ rest, healthStatus) w
           = (accepted tally n,
              {| w_db := updateHcHealth (w_db w) n (hs_status healthStatus);
                 w_sent := w_sent w |}))
          /\ (selectTargetCheck (w_db w) n newtSiteId = None ->
              processEntry SC newtSiteId tally (digits ++ rest, healthStatus) w
              = (rejected tally, w)))
    /\ (forall b, JS.to_double (decimal_value digits) = JS.Infinity b ->
          processEntry SC newtSiteId tally (digits ++ rest, healthStatus) w
          = (rejected tally, w))
    /\ (forall key, JS.parseInt key = JS.NaN ->
          processEntry SC newtSiteId tally (key, healthStatus) w
          = (rejected tally, w)).
Proof.
  intros SC sid digits rest hs tally w Hne Hd Hr Hhex.
  pose proof (parseInt_decimal_prefix digits rest Hne Hd Hr Hhex) as Hp.
  split; [exact Hp|]. split; [|split; [|split; [|split]]].
  - rewrite Hp. pose proof (to_double_not_NaN (decimal_value digits)) as Hnan.
    destruct (JS.to_double (decimal_value digits)); [congruence | | ];
      reflexivity.
  - intros Hle. rewrite Hp. apply to_double_exact.
    pose proof (decimal_from_nonneg digits 0 (Z.le_refl 0) Hd) as Hpos.
    unfold decimal_value in *. lia.
  - intros n Hn. rewrite Hn in Hp. split.
    + intros Hsel. now apply processEntry_row.
    + intros Hsel. now apply (processEntry_no_row sid tally _ hs n).
  - intros b Hb. rewrite Hb in Hp.
    now apply (processEntry_infinite sid tally _ hs b).
  - intros key Hkey. now apply processEntry_malformed.
Qed.

(** Witness of C9: the key ["1abc"] reported by the Newt of site 1 sets the
    health of target 1. *)
Lemma integer_prefixed_key_accepted_witness :
  "1" <> "" /\ all_decimal "1" = true /\ starts_with_decimal "abc" = false
  /\ ~ ("1" = "0" /\ starts_with_x "abc" = true)
  /\ decimal_value "1" <= max_exact
  /\ JS.to_double (decimal_value "1") = JS.Num 1
  /\ selectTargetCheck (w_db Fixtures.world0) 1 1 <> None
  /\ JS.parseInt "1abc" = JS.Num 1
  /\ processEntry unit 1 emptyTally ("1abc", Fixtures.report_unhealthy)
       Fixtures.world0
     = (accepted emptyTally 1,
        {| w_db := updateHcHealth (w_db Fixtures.world0) 1 "unhealthy";
           w_sent := [] |}).
Proof.
  assert (H1 : "1" <> "") by discriminate.
  assert (H2 : ~ ("1" = "0" /\ starts_with_x "abc" = true)).
  { intros [H _]. discriminate H. }
  assert (H3 : decimal_value "1" <= max_exact) by (vm_compute; discriminate).
  assert (H4 : selectTargetCheck (w_db Fixtures.world0) 1 1 <> None)
    by discriminate.
  split; [exact H1|]. split; [reflexivity|]. split; [reflexivity|].
  split; [exact H2|]. split; [exact H3|]. split; [reflexivity|].
  split; [exact H4|].
  destruct (integer_prefixed_key_accepted unit 1 "1" "abc"
              Fixtures.report_unhealthy emptyTally Fixtures.world0
              H1 eq_refl eq_refl H2) as (_ & _ & Hexact & Hnum & _).
  split; [exact (Hexact H3)|].
  exact (proj1 (Hnum 1 eq_refl) H4).
Defined.

(** C9, counterexample to the claim as stated. The key ["0xyz"] begins with
    the integer ["0"] followed by non-numeric characters, and yet it is
    rejected as malformed: [parseInt] takes ["0x"] as the hexadecimal marker,
    finds no hexadecimal digit after it and returns NaN, so the entry is
    counted as an error before any tenancy check. The key ["0x1f"] is read
    as 31, not as its decimal prefix 0. *)
Lemma hex_marker_key_rejected :
  "0" <> "" /\ all_decimal "0" = true /\ starts_with_decimal "xyz" = false
  /\ JS.parseInt ("0" ++ "xyz") = JS.NaN
  /\ processEntry unit 1 emptyTally ("0" ++ "xyz", Fixtures.report_healthy)
       Fixtures.world0
     = (rejected emptyTally, Fixtures.world0)
  /\ JS.parseInt ("0" ++ "x1f") = JS.Num 31
  /\ decimal_value "0" = 0.
Proof.
  split; [discriminate|]. repeat split.
Qed.

(** C2, as amended. [buildDNSAuthorityConfig] returns null exactly when the
    resource is missing, or its [dnsAuthorityEnabled] is false, or its
    [fullDomain] is absent (null or empty), or no target of the resource is
    retained, where a target is retained when it is enabled and its site has
    [dnsAuthorityEnabled] and a public IP that is neither null nor empty.
    Otherwise it returns [{enabled: true, domain, ttl or 60, routingPolicy
    or "failover", targets}], and the targets are exactly the entries
    [emitted] by the retained targets: the IP of an entry is the public IP
    of the target's site. *)
Theorem buildDNSAuthorityConfig_spec :
  forall (db : Db) (resourceId : Z),
    (buildDNSAuthorityConfig db resourceId = None
     <-> (select_resource db resourceId = None
          \/ exists R, select_resource db resourceId = Some R
               /\ (r_dnsAuthorityEnabled R = false
                   \/ JS.truthy_str (r_fullDomain R) = false
                   \/ ~ exists t s ip, target_on db resourceId t s
                                       /\ retained t s ip)))
    /\ (forall cfg, buildDNSAuthorityConfig db resourceId = Some cfg ->
          exists R domain,
            select_resource db resourceId = Some R
            /\ r_fullDomain R = Some domain
            /\ z_enabled cfg = true
            /\ z_domain cfg = domain
            /\ z_ttl cfg = JS.or_num (r_dnsAuthorityTtl R) 60
            /\ z_routingPolicy cfg
               = JS.or_str (r_dnsAuthorityRoutingPolicy R) "failover"
            /\ forall dt, In dt (z_targets cfg)
                 <-> exists t s h ip,
                       target_on db resourceId t s /\ retained t s ip
                       /\ health_of db t h /\ dt = emitted t s h ip).
Proof.
  intros db rid. unfold buildDNSAuthorityConfig.
  destruct (select_resource db rid) as [R|] eqn:ER.
  2:{ split; [split; auto | discriminate]. }
  destruct (r_dnsAuthorityEnabled R) eqn:Ed; simpl.
  2:{ split; [|discriminate]. split; [|reflexivity].
      intros _. right. exists R. auto. }
  destruct (r_fullDomain R) as [domain|] eqn:Edom.
  2:{ simpl. split; [|discriminate]. split; [|reflexivity].
      intros _. right. exists R. rewrite Edom. auto. }
  destruct (JS.truthy_str (Some domain)) eqn:Etruthy; cbn [negb].
  2:{ split; [|discriminate]. split; [|reflexivity].
      intros _. right. exists R. rewrite Edom. auto. }
  destruct (filter validTarget (selectResourceTargets db rid))
    as [|row rows] eqn:Ef.
  - simpl. split; [|discriminate]. split; [|reflexivity].
    intros _. right. exists R. split; [reflexivity|]. right. right.
    now apply validTargets_empty_iff.
  - cbn [List.length Nat.eqb]. split.
    + split; [discriminate|].
      intros [H|(R' & E' & [H|[H|H]])]; try discriminate.
      * inversion E'; subst. congruence.
      * inversion E'; subst. rewrite Edom in H. congruence.
      * apply validTargets_empty_iff in H. rewrite Ef in H. discriminate H.
    + intros cfg Hcfg. inversion Hcfg; subst cfg; clear Hcfg.
      cbn [z_enabled z_domain z_ttl z_routingPolicy z_targets].
      exists R, domain. repeat split; auto.
      * intros Hin. change (In dt (map dnsTarget (row :: rows))) in Hin.
        rewrite <- Ef in Hin.
        now apply (proj1 (validTargets_In db rid dt)).
      * intros Hex. change (In dt (map dnsTarget (row :: rows))).
        rewrite <- Ef.
        now apply (proj2 (validTargets_In db rid dt)).
Qed.

(** C2, counterexample to the claim as stated. In [db_empty_ip] resource 1
    exists, has [dnsAuthorityEnabled] and a [fullDomain], and its target is
    enabled on a site with [dnsAuthorityEnabled] whose [publicIp] is not
    null (it is the empty string); the builder still returns null. *)
Lemma buildDNSAuthorityConfig_empty_public_ip :
  select_resource Fixtures.db_empty_ip 1 = Some Fixtures.resource1
  /\ r_dnsAuthorityEnabled Fixtures.resource1 = true
  /\ r_fullDomain Fixtures.resource1 = Some "svc.example.com"
  /\ target_on Fixtures.db_empty_ip 1 Fixtures.target3 Fixtures.site3
  /\ t_enabled Fixtures.target3 = true
  /\ s_dnsAuthorityEnabled Fixtures.site3 = true
  /\ s_publicIp Fixtures.site3 <> None
  /\ buildDNSAuthorityConfig Fixtures.db_empty_ip 1 = None.
Proof.
  unfold target_on. simpl. repeat split; auto; discriminate.
Qed.

(** Scenario S1: the zone of resource 1 in the fixture database. *)
Example buildDNSAuthorityConfig_S1 :
  buildDNSAuthorityConfig Fixtures.db0 1 = Some Fixtures.zone1.
Proof. reflexivity. Qed.

(** C4, as amended. The responses of [GET /api/v1/auth/session/validate],
    for the token that the request presents (the [p_session] cookie when it
    is not empty, otherwise the [Authorization] header without its
    ["Bearer "]).
    (1) No token, or an empty one: 200 with [{valid: false}].
    (2) No session row has the token with [expiresAt > now]: 200 with
        [{valid: false}].
    (3) The first such session row names a user that has no row: 200 with
        [{valid: false}].
    (4) All three lookups succeed and the expiry of the session is a valid
        date: 200 with [{valid: true, userId, email, expiresAt}], the
        expiry in ISO 8601 form. When the expiry is no valid date the
        response is a 500 with [{valid: false}].
    (5) The status is 200 or 500; a 500 carries [{valid: false}] and is
        produced only when a query has thrown or when the session found has
        an expiry that is no valid date. *)
Theorem validateSession_responses :
  forall (st : ValidateSession.Store) (now : Z) (req : ValidateSession.Request)
         (tok : option string),
    presents req tok ->
    let r := ValidateSession.validateSession st now req in
    ((tok = None \/ tok = Some "") ->
     ValidateSession.status r = 200
     /\ ValidateSession.data r = ValidateSession.invalid)
    /\ (forall token,
          tok = Some token -> token <> "" ->
          (forall rows,
             ValidateSession.sessions st = ValidateSession.Rows rows ->
             (forall s, In s rows ->
                ~ (ValidateSession.sessionToken s = token
                   /\ now < ValidateSession.expiresAt s)) ->
             ValidateSession.status r = 200
             /\ ValidateSession.data r = ValidateSession.invalid)
          /\ (forall pre s post,
                ValidateSession.sessions st
                = ValidateSession.Rows (pre ++ s :: post)%list ->
                (forall s', In s' pre ->
                   ~ (ValidateSession.sessionToken s' = token
                      /\ now < ValidateSession.expiresAt s')) ->
                ValidateSession.sessionToken s = token ->
                now < ValidateSession.expiresAt s ->
                (forall urows,
                   ValidateSession.users st = ValidateSession.Rows urows ->
                   (forall u, In u urows ->
                      ValidateSession.userId u
                      <> ValidateSession.sess_userId s) ->
                   ValidateSession.status r = 200
                   /\ ValidateSession.data r = ValidateSession.invalid)
                /\ (forall upre u upost,
                      ValidateSession.users st
                      = ValidateSession.Rows (upre ++ u :: upost)%list ->
                      (forall u', In u' upre ->
                         ValidateSession.userId u'
                         <> ValidateSession.sess_userId s) ->
                      ValidateSession.userId u
                      = ValidateSession.sess_userId s ->
                      (Z.abs (ValidateSession.expiresAt s) <= JS.max_time ->
                       ValidateSession.status r = 200
                       /\ ValidateSession.data r
                          = {| ValidateSession.valid := true;
                               ValidateSession.resp_userId :=
                                 Some (ValidateSession.userId u);
                               ValidateSession.resp_email :=
                                 ValidateSession.email u;
                               ValidateSession.resp_orgId := None;
                               ValidateSession.resp_expiresAt :=
                                 Some (JS.iso_string
                                         (ValidateSession.expiresAt s)) |})
                      /\ (JS.max_time < Z.abs (ValidateSession.expiresAt s) ->
                          ValidateSession.status r = 500
                          /\ ValidateSession.data r
                             = ValidateSession.invalid))))
    /\ (ValidateSession.status r = 200 \/ ValidateSession.status r = 500)
    /\ (ValidateSession.status r = 500 ->
        ValidateSession.data r = ValidateSession.invalid
        /\ (ValidateSession.sessions st = ValidateSession.Throws
            \/ ValidateSession.users st = ValidateSession.Throws
            \/ exists rows s,
                 ValidateSession.sessions st = ValidateSession.Rows rows
                 /\ In s rows
                 /\ tok = Some (ValidateSession.sessionToken s)
                 /\ now < ValidateSession.expiresAt s
                 /\ JS.max_time < Z.abs (ValidateSession.expiresAt s))).
Proof.
  intros st now req tok Hpres r. subst r.
  apply extractToken_presents in Hpres.
  unfold ValidateSession.validateSession. rewrite Hpres.
  split; [|split; [|split]].
  - intros [-> | ->]; simpl; auto.
  - intros token -> Hne. rewrite (truthy_some token Hne). cbn [negb]. split.
    + intros rows Hrows Hnone. rewrite Hrows.
      rewrite find_none_of_all_false; [auto|].
      intros s Hs. apply session_match_false. now apply Hnone.
    + intros pre s post Hrows Hpre Hs Hexp. rewrite Hrows.
      rewrite (find_first _ pre post s).
      2:{ intros s' Hs'. apply session_match_false. now apply Hpre. }
      2:{ now apply session_match_iff. }
      split.
      * intros urows Hu Hnone. rewrite Hu.
        rewrite find_none_of_all_false; [auto|].
        intros u Hin. apply String.eqb_neq. now apply Hnone.
      * intros upre u upost Hu Hupre Hmatch. rewrite Hu.
        rewrite (find_first _ upre upost u).
        2:{ intros u' Hin. apply String.eqb_neq. now apply Hupre. }
        2:{ now apply String.eqb_eq. }
        split.
        -- intros Hrange. rewrite (toISOString_in_range _ Hrange). auto.
        -- intros Hrange. apply toISOString_out_of_range in Hrange.
           rewrite Hrange. auto.
  - destruct tok as [token|]; [|simpl; auto].
    destruct (JS.truthy_str (Some token)); cbn [negb]; [|simpl; auto].
    destruct (ValidateSession.sessions st) as [rows|]; [|simpl; auto].
    destruct (find _ rows) as [s|]; [|simpl; auto].
    destruct (ValidateSession.users st) as [urows|]; [|simpl; auto].
    destruct (find _ urows) as [u|]; [|simpl; auto].
    destruct (JS.toISOString (ValidateSession.expiresAt s)); simpl; auto.
  - destruct tok as [token|]; [|simpl; discriminate].
    destruct (JS.truthy_str (Some token)); cbn [negb]; [|simpl; discriminate].
    destruct (ValidateSession.sessions st) as [rows|]; [|simpl; auto].
    destruct (find _ rows) as [s|] eqn:Efind; [|simpl; discriminate].
    destruct (ValidateSession.users st) as [urows|]; [|simpl; auto].
    destruct (find _ urows) as [u|]; [|simpl; discriminate].
    destruct (JS.toISOString (ValidateSession.expiresAt s)) as [iso|] eqn:Eiso;
      [simpl; discriminate|].
    intros _. split; [reflexivity|]. right. right.
    apply find_some in Efind. destruct Efind as [Hin Hmatch].
    apply session_match_iff in Hmatch. destruct Hmatch as [Htok Hexp].
    exists rows, s. split; [reflexivity|]. split; [exact Hin|].
    split; [now rewrite Htok|]. split; [exact Hexp|].
    now apply toISOString_out_of_range.
Qed.

(** Witness of C4 (scenario S6): the session [abc] presented in the
    [Authorization] header, one hour before it expires. *)
Lemma validateSession_responses_witness :
  presents Fixtures.request_bearer_abc (Some "abc")
  /\ ValidateSession.status
       (ValidateSession.validateSession Fixtures.store_S6 1709210096789
          Fixtures.request_bearer_abc) = 200
  /\ ValidateSession.data
       (ValidateSession.validateSession Fixtures.store_S6 1709210096789
          Fixtures.request_bearer_abc)
     = {| ValidateSession.valid := true;
          ValidateSession.resp_userId := Some "u1";
          ValidateSession.resp_email := Some "a@x";
          ValidateSession.resp_orgId := None;
          ValidateSession.resp_expiresAt := Some "2024-02-29T13:34:56.789Z" |}.
Proof.
  assert (Hp : presents Fixtures.request_bearer_abc (Some "abc")).
  { exact (presents_header None "Bearer abc" eq_refl). }
  split; [exact Hp|].
  pose proof (validateSession_responses Fixtures.store_S6 1709210096789
                Fixtures.request_bearer_abc (Some "abc") Hp) as H.
  cbv zeta in H. destruct H as (_ & H & _).
  assert (Hne : "abc" <> "") by discriminate.
  destruct (H "abc" eq_refl Hne) as (_ & Hfound).
  assert (Hpre : forall s' : ValidateSession.Session, In s' [] ->
            ~ (ValidateSession.sessionToken s' = "abc"
               /\ 1709210096789 < ValidateSession.expiresAt s')).
  { intros s' []. }
  assert (Hexp : 1709210096789 < 1709210096789 + 3600000) by lia.
  destruct (Hfound []
              {| ValidateSession.sessionId := "s1";
                 ValidateSession.sessionToken := "abc";
                 ValidateSession.sess_userId := "u1";
                 ValidateSession.expiresAt := 1709210096789 + 3600000 |}
              [] eq_refl Hpre eq_refl Hexp) as (_ & Huser).
  assert (Hupre : forall u' : ValidateSession.User, In u' [] ->
            ValidateSession.userId u' <> "u1").
  { intros u' []. }
  assert (Hrange : Z.abs (1709210096789 + 3600000) <= JS.max_time)
    by (vm_compute; discriminate).
  exact (proj1 (Huser []
                  {| ValidateSession.userId := "u1";
                     ValidateSession.email := Some "a@x" |}
                  [] eq_refl Hupre eq_refl) Hrange).
Defined.

(** C4, counterexample to the claim as stated. The session [abc] has an
    [expiresAt] beyond the last valid date. All three lookups succeed: the
    token is presented, the session row has it with [expiresAt > now], and
    the user of the session has a row. Yet the response is not a 200 with
    [{valid: true}]: [toISOString] throws and the handler answers 500 with
    [{valid: false}], although no query has thrown. *)
Lemma validateSession_invalid_expiry_500 :
  presents Fixtures.request_abc (Some "abc")
  /\ (exists rows s u urows,
        ValidateSession.sessions Fixtures.store_bad_expiry
        = ValidateSession.Rows rows
        /\ In s rows /\ ValidateSession.sessionToken s = "abc"
        /\ 1709210096789 < ValidateSession.expiresAt s
        /\ ValidateSession.users Fixtures.store_bad_expiry
           = ValidateSession.Rows urows
        /\ In u urows
        /\ ValidateSession.userId u = ValidateSession.sess_userId s)
  /\ ValidateSession.status
       (ValidateSession.validateSession Fixtures.store_bad_expiry
          1709210096789 Fixtures.request_abc) = 500
  /\ ValidateSession.data
       (ValidateSession.validateSession Fixtures.store_bad_expiry
          1709210096789 Fixtures.request_abc)
     = ValidateSession.invalid.
Proof.
  split.
  { exact (presents_cookie "abc" None ltac:(discriminate)). }
  split.
  { eexists _, _, _, _. split; [reflexivity|]. split; [now left|].
    split; [reflexivity|]. split; [reflexivity|]. split; [reflexivity|].
    split; [now left | reflexivity]. }
  split; reflexivity.
Qed.

(** Scenario S6: a session [abc] of user [u1], valid for one more hour. *)
Example validateSession_S6 :
  let st :=
    {| ValidateSession.sessions :=
         ValidateSession.Rows
           [{| ValidateSession.sessionId := "s1";
               ValidateSession.sessionToken := "abc";
               ValidateSession.sess_userId := "u1";
               ValidateSession.expiresAt := 1709210096789 + 3600000 |}];
       ValidateSession.users :=
         ValidateSession.Rows
           [{| ValidateSession.userId := "u1";
               ValidateSession.email := Some "a@x" |}] |} in
  ValidateSession.data
    (ValidateSession.validateSession st 1709210096789
       {| ValidateSession.cookies_p_session := Some "abc";
          ValidateSession.headers_authorization := None |})
  = {| ValidateSession.valid := true;
       ValidateSession.resp_userId := Some "u1";
       ValidateSession.resp_email := Some "a@x";
       ValidateSession.resp_orgId := None;
       ValidateSession.resp_expiresAt := Some "2024-02-29T13:34:56.789Z" |}
  /\ ValidateSession.data
       (ValidateSession.validateSession st 1709210096789
          {| ValidateSession.cookies_p_session := Some "wrong";
             ValidateSession.headers_authorization := None |})
     = ValidateSession.invalid.
Proof. split; reflexivity. Qed.

(** C5, as amended. [updateAuthProxyForSite] hands the bus at most one
    message. It hands one over exactly when the site hosts at least one
    enabled target of a resource with [dnsAuthorityEnabled] and at least one
    of [sso], [blockAccess], [emailWhitelistEnabled], and moreover the site
    and its org exist, the dashboard URL is configured, and the site has a
    Newt; the message is the config built by [buildAuthProxyConfig],
    addressed to that Newt. When the site hosts no such target,
    [buildAuthProxyConfig] returns null and nothing is sent. *)
Theorem auth_proxy_emitted_iff :
  forall (URL_hostname : string -> option string) (config : RawConfig)
         (keys : JwtKeypair.KeyStore) (SC : Type) (siteId : Z) (w : World SC),
    exists msgs : list (Envelope SC),
      snd (updateAuthProxyForSite URL_hostname config keys SC siteId w)
      = emit w msgs
      /\ (msgs <> [] <->
            hosts_protected_target (w_db w) siteId
            /\ (exists site org, select_site (w_db w) siteId = Some site
                                 /\ select_org (w_db w) (s_orgId site) = Some org)
            /\ JS.truthy_str (app_dashboard_url config) = true
            /\ (exists newtId, selectSiteNewt (w_db w) siteId = Some newtId
                               /\ newtId <> ""))
      /\ (forall env, In env msgs ->
            msgs = [env]
            /\ env_type env = "newt/auth/proxy/config"
            /\ selectSiteNewt (w_db w) siteId = Some (env_to env)
            /\ exists cfg,
                 buildAuthProxyConfig URL_hostname config keys (w_db w) siteId
                 = Some cfg
                 /\ env_data env = AuthProxyData cfg)
      /\ (~ hosts_protected_target (w_db w) siteId ->
            buildAuthProxyConfig URL_hostname config keys (w_db w) siteId = None
            /\ msgs = []).
Proof.
  intros URL_hostname config keys SC siteId w.
  exists (siteMessages URL_hostname config keys (w_db w) siteId).
  split; [now rewrite updateAuthProxyForSite_run|].
  pose proof (buildAuthProxyConfig_some_iff URL_hostname config keys
                (w_db w) siteId) as Hbuild.
  unfold siteMessages.
  destruct (selectSiteNewt (w_db w) siteId) as [newtId|] eqn:En.
  2:{ split; [|split].
      - split; [congruence|]. intros (_ & _ & _ & (n & H & _)). discriminate H.
      - intros env [].
      - intros Hno. split; [|reflexivity].
        destruct (buildAuthProxyConfig _ _ _ _ _) as [cfg|]; [|reflexivity].
        exfalso. apply Hno. apply Hbuild. now exists cfg. }
  destruct (String.eqb_spec newtId "") as [Eid|Eid].
  { split; [|split].
    - split; [congruence|].
      intros (_ & _ & _ & (n & H & Hn)). inversion H; subst. congruence.
    - intros env [].
    - intros Hno. split; [|reflexivity].
      destruct (buildAuthProxyConfig _ _ _ _ _) as [cfg|]; [|reflexivity].
      exfalso. apply Hno. apply Hbuild. now exists cfg. }
  destruct (buildAuthProxyConfig URL_hostname config keys (w_db w) siteId)
    as [cfg|] eqn:Eb.
  - destruct (proj1 Hbuild (ex_intro _ cfg eq_refl)) as (Hso & Hhosts & Hurl).
    split; [|split].
    + split; [|discriminate]. intros _. repeat split; auto.
      exists newtId. auto.
    + intros env [<-|[]]. repeat split. exists cfg. auto.
    + intros Hno. contradiction.
  - split; [|split].
    + split; [congruence|]. intros (Hhosts & Hso & Hurl & _).
      destruct (proj2 Hbuild (conj Hso (conj Hhosts Hurl))) as (cfg & H).
      discriminate H.
    + intros env [].
    + auto.
Qed.

(** C5, counterexample to the claim as stated. Site 2 of [db0] hosts an
    enabled target of resource 2, which has [dnsAuthorityEnabled] and [sso];
    the site, its org and its Newt exist. With no dashboard URL configured
    [buildAuthProxyConfig] returns null and no message is sent. *)
Lemma auth_proxy_not_emitted_without_dashboard_url :
  hosts_protected_target Fixtures.db0 2
  /\ selectSiteNewt Fixtures.db0 2 = Some "newt2"
  /\ buildAuthProxyConfig simple_hostname Fixtures.config_no_url Fixtures.keys0
       Fixtures.db0 2 = None
  /\ snd (updateAuthProxyForSite simple_hostname Fixtures.config_no_url
            Fixtures.keys0 unit 2 Fixtures.world0)
     = Fixtures.world0.
Proof.
  split; [|repeat split].
  exists Fixtures.target2, Fixtures.resource2.
  unfold enabled_target_on_site, protected_resource. simpl.
  repeat split; auto.
Qed.

(** Scenario S5: the message for site 2 under the dashboard
    [https://app.example.com]. *)
Example buildAuthProxyConfig_S5 :
  buildAuthProxyConfig simple_hostname Fixtures.config_app Fixtures.keys0
    Fixtures.db0 2
  = Some {| am_action := Update;
            am_auth := Fixtures.auth_app;
            am_resources :=
              [{| ra_resourceId := 2; ra_domain := "secure.example.com";
                  ra_sso := true; ra_blockAccess := false;
                  ra_emailWhitelistEnabled := false; ra_allowedEmails := [];
                  ra_targetUrl := "http://10.0.0.5:8080"; ra_ssl := false |}] |}.
Proof. reflexivity. Qed.

(** C6. In every emitted [AuthConfig], when the URL parser gives the host of
    the dashboard URL: if the host has two or more dot-separated labels,
    [cookieDomain] is ["."] followed by the last two of them joined by a
    dot; if it has exactly one label, [cookieDomain] is the host itself. *)
Theorem cookieDomain_last_two_labels :
  forall (URL_hostname : string -> option string) (config : RawConfig)
         (keys : JwtKeypair.KeyStore) (db : Db) (siteId : Z)
         (msg : AuthProxyConfigMessage) (url host : string),
    buildAuthProxyConfig URL_hostname config keys db siteId = Some msg ->
    app_dashboard_url config = Some url ->
    URL_hostname url = Some host ->
    (forall pre a b, is_label a = true -> is_label b = true ->
       host = pre ++ "." ++ a ++ "." ++ b ->
       ac_cookieDomain (am_auth msg) = "." ++ a ++ "." ++ b)
    /\ (forall a b, is_label a = true -> is_label b = true ->
          host = a ++ "." ++ b ->
          ac_cookieDomain (am_auth msg) = "." ++ a ++ "." ++ b)
    /\ (is_label host = true -> ac_cookieDomain (am_auth msg) = host).
Proof.
  intros URL_hostname config keys db siteId msg url host Hbuild Hcfg Hurl.
  assert (Hcd : ac_cookieDomain (am_auth msg)
                = extractBaseDomain URL_hostname url).
  { unfold buildAuthProxyConfig in Hbuild. rewrite Hcfg in Hbuild.
    destruct (select_site db siteId) as [site|]; [|discriminate].
    destruct (select_org db (s_orgId site)) as [org|]; [|discriminate].
    destruct (List.length _ =? 0)%nat; [discriminate|].
    destruct (negb (JS.truthy_str (Some url))); [discriminate|].
    inversion Hbuild. reflexivity. }
  rewrite Hcd. now apply extractBaseDomain_labels.
Qed.

(** Witness of C6 (scenario S5): [https://app.example.com] gives
    [.example.com]. *)
Lemma cookieDomain_last_two_labels_witness :
  buildAuthProxyConfig simple_hostname Fixtures.config_app Fixtures.keys0
    Fixtures.db0 2
  = Some {| am_action := Update;
            am_auth := Fixtures.auth_app;
            am_resources :=
              [{| ra_resourceId := 2; ra_domain := "secure.example.com";
                  ra_sso := true; ra_blockAccess := false;
                  ra_emailWhitelistEnabled := false; ra_allowedEmails := [];
                  ra_targetUrl := "http://10.0.0.5:8080"; ra_ssl := false |}] |}
  /\ app_dashboard_url Fixtures.config_app = Some "https://app.example.com"
  /\ simple_hostname "https://app.example.com" = Some "app.example.com"
  /\ ((forall pre a b, is_label a = true -> is_label b = true ->
         "app.example.com" = pre ++ "." ++ a ++ "." ++ b ->
         ac_cookieDomain Fixtures.auth_app = "." ++ a ++ "." ++ b)
      /\ (forall a b, is_label a = true -> is_label b = true ->
            "app.example.com" = a ++ "." ++ b ->
            ac_cookieDomain Fixtures.auth_app = "." ++ a ++ "." ++ b)
      /\ (is_label "app.example.com" = true ->
          ac_cookieDomain Fixtures.auth_app = "app.example.com")).
Proof.
  split; [reflexivity|]. split; [reflexivity|]. split; [reflexivity|].
  exact (cookieDomain_last_two_labels simple_hostname Fixtures.config_app
           Fixtures.keys0 Fixtures.db0 2 _ "https://app.example.com"
           "app.example.com" eq_refl eq_refl eq_refl).
Defined.

(** C10, as amended. When the site and its org exist, the dashboard URL is
    configured, the site hosts at least one protected resource, every
    protected resource it hosts lacks a [fullDomain], and the site has a
    Newt, [buildAuthProxyConfig] returns a non-null update message whose
    [resources] array is empty, and [updateAuthProxyForSite] sends that
    message to the site's Newt. *)
Theorem authProxy_empty_resources_sent :
  forall (URL_hostname : string -> option string) (config : RawConfig)
         (keys : JwtKeypair.KeyStore) (SC : Type) (siteId : Z) (w : World SC)
         (site : Site) (org : Org) (newtId : string),
    select_site (w_db w) siteId = Some site ->
    select_org (w_db w) (s_orgId site) = Some org ->
    JS.truthy_str (app_dashboard_url config) = true ->
    hosts_protected_target (w_db w) siteId ->
    (forall t r, enabled_target_on_site (w_db w) siteId t r ->
                 protected_resource r ->
                 JS.truthy_str (r_fullDomain r) = false) ->
    selectSiteNewt (w_db w) siteId = Some newtId -> newtId <> "" ->
    exists auth,
      buildAuthProxyConfig URL_hostname config keys (w_db w) siteId
      = Some {| am_action := Update; am_auth := auth; am_resources := [] |}
      /\ snd (updateAuthProxyForSite URL_hostname config keys SC siteId w)
         = emit w [{| env_to := newtId;
                      env_type := "newt/auth/proxy/config";
                      env_data :=
                        AuthProxyData
                          {| am_action := Update; am_auth := auth;
                             am_resources := [] |} |}].
Proof.
  intros URL_hostname config keys SC siteId w site org newtId
         Hsite Horg Hurl Hhosts Hnodomain Hnewt Hne.
  assert (Hbuild : exists auth,
    buildAuthProxyConfig URL_hostname config keys (w_db w) siteId
    = Some {| am_action := Update; am_auth := auth; am_resources := [] |}).
  { unfold buildAuthProxyConfig. rewrite Hsite, Horg.
    destruct (List.length (filter isProtected (selectSiteTargets (w_db w) siteId))
              =? 0)%nat eqn:Elen.
    { apply protectedResources_empty_iff in Elen. contradiction. }
    destruct (app_dashboard_url config) as [url|]; [|discriminate Hurl].
    rewrite Hurl. cbn [negb].
    rewrite flat_map_nil.
    - eexists. reflexivity.
    - intros row Hrow. apply resourceConfig_no_domain.
      apply filter_In in Hrow. destruct Hrow as [Hrow Hp].
      apply selectSiteTargets_In in Hrow. destruct Hrow as (t & r & Hon & ->).
      apply (Hnodomain t r Hon).
      exact (proj1 (isProtected_mkSiteTargetRow t r) Hp). }
  destruct Hbuild as (auth & Hbuild). exists auth. split; [exact Hbuild|].
  rewrite updateAuthProxyForSite_run. unfold siteMessages.
  rewrite Hnewt, Hbuild.
  destruct (String.eqb_spec newtId ""); [contradiction|]. reflexivity.
Qed.

(** Witness of C10: site 1 of [db_no_domain] hosts the protected resource 4,
    which has no domain; its Newt still receives a message with no
    resources. *)
Lemma authProxy_empty_resources_sent_witness :
  select_site Fixtures.db_no_domain 1 = Some Fixtures.site1
  /\ select_org Fixtures.db_no_domain (s_orgId Fixtures.site1)
     = Some Fixtures.org1
  /\ JS.truthy_str (app_dashboard_url Fixtures.config_app) = true
  /\ hosts_protected_target Fixtures.db_no_domain 1
  /\ selectSiteNewt Fixtures.db_no_domain 1 = Some "newt1"
  /\ exists auth,
       buildAuthProxyConfig simple_hostname Fixtures.config_app Fixtures.keys0
         Fixtures.db_no_domain 1
       = Some {| am_action := Update; am_auth := auth; am_resources := [] |}
       /\ snd (updateAuthProxyForSite simple_hostname Fixtures.config_app
                 Fixtures.keys0 unit 1
                 {| w_db := Fixtures.db_no_domain; w_sent := [] |})
          = emit {| w_db := Fixtures.db_no_domain; w_sent := [] |}
              [{| env_to := "newt1";
                  env_type := "newt/auth/proxy/config";
                  env_data :=
                    AuthProxyData
                      {| am_action := Update; am_auth := auth;
                         am_resources := [] |} |}].
Proof.
  assert (Hhosts : hosts_protected_target Fixtures.db_no_domain 1).
  { exists Fixtures.target4, Fixtures.resource4.
    unfold enabled_target_on_site, protected_resource. simpl.
    repeat split; auto. }
  split; [reflexivity|]. split; [reflexivity|]. split; [reflexivity|].
  split; [exact Hhosts|]. split; [reflexivity|].
  apply (authProxy_empty_resources_sent simple_hostname Fixtures.config_app
           Fixtures.keys0 unit 1
           {| w_db := Fixtures.db_no_domain; w_sent := [] |}
           Fixtures.site1 Fixtures.org1 "newt1").
  - reflexivity.
  - reflexivity.
  - reflexivity.
  - exact Hhosts.
  - intros t r (Ht & Hs & He & Hr & Er) (Hd & Hp).
    simpl in Ht, Hr.
    destruct Hr as [<-|[<-|[]]].
    + simpl in Hp. destruct Hp as [Hp|[Hp|Hp]]; discriminate Hp.
    + reflexivity.
  - reflexivity.
  - discriminate.
Defined.

(** C10, counterexample to the claim as stated. Site 1 of [db_no_domain]
    hosts the protected resource 4, which has no domain, and no other
    protected resource: every protected resource the site retains lacks a
    [fullDomain]. The site, its org and its Newt exist. With no dashboard
    URL configured [buildAuthProxyConfig] returns null, not a message with
    an empty [resources] array, and nothing is sent to the Newt. *)
Lemma authProxy_empty_resources_suppressed_without_dashboard_url :
  select_site Fixtures.db_no_domain 1 = Some Fixtures.site1
  /\ select_org Fixtures.db_no_domain (s_orgId Fixtures.site1)
     = Some Fixtures.org1
  /\ hosts_protected_target Fixtures.db_no_domain 1
  /\ (forall t r, enabled_target_on_site Fixtures.db_no_domain 1 t r ->
                  protected_resource r ->
                  JS.truthy_str (r_fullDomain r) = false)
  /\ selectSiteNewt Fixtures.db_no_domain 1 = Some "newt1"
  /\ buildAuthProxyConfig simple_hostname Fixtures.config_no_url Fixtures.keys0
       Fixtures.db_no_domain 1 = None
  /\ snd (updateAuthProxyForSite simple_hostname Fixtures.config_no_url
            Fixtures.keys0 unit 1
            {| w_db := Fixtures.db_no_domain; w_sent := [] |})
     = {| w_db := Fixtures.db_no_domain; w_sent := [] |}.
Proof.
  split; [reflexivity|]. split; [reflexivity|]. split.
  { exists Fixtures.target4, Fixtures.resource4.
    unfold enabled_target_on_site, protected_resource. simpl.
    repeat split; auto. }
  split.
  { intros t r (Ht & Hs & He & Hr & Er) (Hd & Hp).
    simpl in Ht, Hr.
    destruct Hr as [<-|[<-|[]]].
    - simpl in Hp. destruct Hp as [Hp|[Hp|Hp]]; discriminate Hp.
    - reflexivity. }
  split; [reflexivity|]. split; reflexivity.
Qed.

(* ===================================================================== *)
(** ** Further properties: recipients and fan-out of the DNS authority *)
(* ===================================================================== *)

Section RecipientFacts.

(** The rows of the enabled targets of a resource joined with their sites. *)
Lemma enabled_site_rows_In db rid (p : Z * Site) :
  In p (flat_map (fun t =>
          map (fun s => (t_siteId t, s))
            (filter (fun s => t_siteId t =? s_siteId s) (sites db)))
          (filter (fun t => (t_resourceId t =? rid) && t_enabled t) (targets db)))
  <-> exists t, target_on db rid t (snd p) /\ t_enabled t = true
                /\ fst p = t_siteId t.
Proof.
  unfold target_on. split.
  - intros H. apply in_flat_map in H. destruct H as (t & Ht & H).
    apply filter_In in Ht. destruct Ht as [Ht Ec].
    apply andb_true_iff in Ec. destruct Ec as [Er Ee]. apply Z.eqb_eq in Er.
    apply in_map_iff in H. destruct H as (s & <- & Hs).
    apply filter_In in Hs. destruct Hs as [Hs Es]. apply Z.eqb_eq in Es.
    exists t. simpl. repeat split; auto.
  - intros (t & (Ht & Er & Hs & Es) & Ee & Ef). destruct p as [sid s].
    simpl in *. subst sid.
    apply in_flat_map. exists t. split.
    + apply filter_In. split; [exact Ht|].
      apply andb_true_iff. split; [now apply Z.eqb_eq | exact Ee].
    + apply in_map_iff. exists s. split; [reflexivity|].
      apply filter_In. split; [exact Hs | apply Z.eqb_eq; congruence].
Qed.

Lemma dnsAuthoritySiteIds_In db rid sid :
  In sid (dnsAuthoritySiteIds db rid)
  <-> exists t s ip, target_on db rid t s /\ retained t s ip
                     /\ sid = t_siteId t.
Proof.
  unfold dnsAuthoritySiteIds. rewrite in_map_iff. split.
  - intros (p & <- & Hp). apply filter_In in Hp. destruct Hp as [Hp Hc].
    apply enabled_site_rows_In in Hp. destruct Hp as (t & Hon & Ee & Ef).
    apply andb_true_iff in Hc. destruct Hc as [Hd Hip].
    apply truthy_str_iff in Hip. destruct Hip as (ip & Hip & Hne).
    exists t, (snd p), ip. split; [exact Hon|]. split; [|exact Ef].
    unfold retained, has_public_ip. auto.
  - intros (t & s & ip & Hon & (Ee & Hd & Hip & Hne) & ->).
    exists (t_siteId t, s). split; [reflexivity|].
    apply filter_In. split.
    + apply enabled_site_rows_In. exists t. auto.
    + simpl. apply andb_true_iff. split; [exact Hd|].
      apply truthy_str_iff. exists ip. auto.
Qed.

Lemma getDNSAuthoritySiteNewtIds_In db rid ns :
  In ns (getDNSAuthoritySiteNewtIds db rid)
  <-> newt_recipient db rid (ns_newtId ns) (ns_siteId ns).
Proof.
  unfold getDNSAuthoritySiteNewtIds, newt_recipient, target_on, retained,
    has_public_ip.
  rewrite filter_In, in_map_iff. split.
  - intros [(p & Ens & Hp) Hne]. destruct p as [[t s] n].
    apply filter_In in Hp. destruct Hp as [Hp Hc].
    apply andb_true_iff in Hc. destruct Hc as [Hip Hd].
    apply truthy_str_iff in Hip. destruct Hip as (ip & Hip & Hipne).
    apply in_flat_map in Hp. destruct Hp as (t' & Ht & Hp).
    apply filter_In in Ht. destruct Ht as [Ht Ec].
    apply andb_true_iff in Ec. destruct Ec as [Er Ee]. apply Z.eqb_eq in Er.
    apply in_flat_map in Hp. destruct Hp as (s' & Hs & Hp).
    apply filter_In in Hs. destruct Hs as [Hs Es]. apply Z.eqb_eq in Es.
    apply in_map_iff in Hp. destruct Hp as (n' & Ep & Hn).
    inversion Ep; subst t' s' n'; clear Ep.
    apply filter_In in Hn. destruct Hn as [Hn En].
    unfold eq_nullable in En.
    destruct (n_siteId n) as [nsid|] eqn:Ensid; [|discriminate En].
    apply Z.eqb_eq in En. subst nsid.
    subst ns. simpl in *.
    apply negb_true_iff in Hne. apply String.eqb_neq in Hne.
    exists t, s, ip, n. repeat split; auto.
  - intros (t & s & ip & n & (Ht & Er & Hs & Es) & (Ee & Hd & Hip & Hipne)
            & Hn & Ensid & Eid & Hne & Esid).
    split.
    + exists (t, s, n). split.
      * destruct ns as [nid sid]. simpl in *. congruence.
      * apply filter_In. split.
        -- apply in_flat_map. exists t. split.
           { apply filter_In. split; [exact Ht|].
             apply andb_true_iff. split; [now apply Z.eqb_eq | exact Ee]. }
           apply in_flat_map. exists s. split.
           { apply filter_In. split; [exact Hs | apply Z.eqb_eq; congruence]. }
           apply in_map. apply filter_In. split; [exact Hn|].
           unfold eq_nullable. rewrite Ensid. apply Z.eqb_refl.
        -- apply andb_true_iff. split; [|exact Hd].
           apply truthy_str_iff. exists ip. auto.
    + apply negb_true_iff. now apply String.eqb_neq.
Qed.

Lemma selectOlmClients_In db sid o :
  In o (selectOlmClients db sid)
  <-> exists a c, In a (clientSitesAssociationsCache db) /\ a_siteId a = sid
                  /\ In c (clients db) /\ c_clientId c = a_clientId a
                  /\ c_olmId c = o /\ o <> None.
Proof.
  unfold selectOlmClients. split.
  - intros H. apply in_flat_map in H. destruct H as (a & Ha & H).
    apply filter_In in Ha. destruct Ha as [Ha Es]. apply Z.eqb_eq in Es.
    apply in_map_iff in H. destruct H as (c & Eo & Hc).
    apply filter_In in Hc. destruct Hc as [Hc Ec].
    apply andb_true_iff in Ec. destruct Ec as [Eid Enn]. apply Z.eqb_eq in Eid.
    exists a, c. repeat split; auto.
    subst o. destruct (c_olmId c); [discriminate | discriminate Enn].
  - intros (a & c & Ha & Es & Hc & Eid & Eo & Hnn).
    apply in_flat_map. exists a. split.
    + apply filter_In. split; [exact Ha | now apply Z.eqb_eq].
    + apply in_map_iff. exists c. split; [exact Eo|].
      apply filter_In. split; [exact Hc|].
      apply andb_true_iff. split; [apply Z.eqb_eq; congruence|].
      subst o. destruct (c_olmId c); [reflexivity | congruence].
Qed.

(** The result of [getDNSAuthoritySiteOlmIds] without the case split on the
    first site id. *)
Lemma getDNSAuthoritySiteOlmIds_unfold db rid :
  getDNSAuthoritySiteOlmIds db rid
  = JS.set_of_list String.eqb
      (flat_map (fun id : option string =>
                   match id with
                   | Some i => if JS.truthy_str id then [i] else []
                   | None => []
                   end)
         (flat_map (selectOlmClients db) (dnsAuthoritySiteIds db rid))).
Proof.
  unfold getDNSAuthoritySiteOlmIds.
  destruct (dnsAuthoritySiteIds db rid) as [|first others]; reflexivity.
Qed.

Lemma getDNSAuthoritySiteOlmIds_In db rid o :
  In o (getDNSAuthoritySiteOlmIds db rid) <-> olm_recipient db rid o.
Proof.
  rewrite getDNSAuthoritySiteOlmIds_unfold.
  rewrite (set_of_list_In String.eqb String.eqb_eq).
  unfold olm_recipient. rewrite in_flat_map. split.
  - intros (id & Hid & Ho). destruct id as [i|]; [|destruct Ho].
    destruct (JS.truthy_str (Some i)) eqn:Et; [|destruct Ho].
    destruct Ho as [<-|[]].
    apply truthy_str_iff in Et. destruct Et as (v & Ev & Hv).
    inversion Ev; subst v.
    apply in_flat_map in Hid. destruct Hid as (sid & Hsid & Hsel).
    apply dnsAuthoritySiteIds_In in Hsid.
    destruct Hsid as (t & s & ip & Hon & Hret & ->).
    apply selectOlmClients_In in Hsel.
    destruct Hsel as (a & c & Ha & Es & Hc & Eid & Eo & _).
    exists t, s, ip, a, c. split; [exact Hon|]. split; [exact Hret|].
    repeat split; auto.
  - intros (t & s & ip & a & c & Hon & Hret & Ha & Es & Hc & Eid & Eo & Hne).
    exists (Some o). split.
    + apply in_flat_map. exists (t_siteId t). split.
      * apply dnsAuthoritySiteIds_In. exists t, s, ip. auto.
      * apply selectOlmClients_In. exists a, c. repeat split; auto.
        discriminate.
    + rewrite (truthy_some o Hne). now left.
Qed.

End RecipientFacts.

(** X1. The Newt recipients of a resource are exactly the Newts with a
    non-empty id bound to a site that has DNS authority enabled and a
    non-empty public IP and that hosts an enabled target of the resource;
    each entry carries the id of that site. *)
Theorem getDNSAuthoritySiteNewtIds_recipients :
  forall (db : Db) (resourceId : Z) (newtId : string) (siteId : Z),
    In {| ns_newtId := newtId; ns_siteId := siteId |}
       (getDNSAuthoritySiteNewtIds db resourceId)
    <-> exists t s ip n,
          In t (targets db) /\ t_resourceId t = resourceId
          /\ t_enabled t = true /\ t_siteId t = siteId
          /\ In s (sites db) /\ s_siteId s = siteId
          /\ s_dnsAuthorityEnabled s = true
          /\ s_publicIp s = Some ip /\ ip <> ""
          /\ In n (newts db) /\ n_siteId n = Some siteId
          /\ n_newtId n = newtId /\ newtId <> "".
Proof.
  intros db rid newtId siteId. rewrite getDNSAuthoritySiteNewtIds_In.
  unfold newt_recipient, target_on, retained, has_public_ip. simpl. split.
  - intros (t & s & ip & n & (Ht & Er & Hs & Es) & (Ee & Hd & Hip & Hne)
            & Hn & En & Eid & Hid & Esid).
    exists t, s, ip, n. repeat split; auto; congruence.
  - intros (t & s & ip & n & Ht & Er & Ee & Et & Hs & Es & Hd & Hip & Hne
            & Hn & En & Eid & Hid).
    exists t, s, ip, n. repeat split; auto; congruence.
Qed.

(** X2. The Olm recipients of a resource contain no Olm twice, and they are
    exactly the non-empty [olmId]s of the clients associated (through
    [clientSitesAssociationsCache]) with a site that has DNS authority
    enabled and a non-empty public IP and hosts an enabled target of the
    resource. *)
Theorem getDNSAuthoritySiteOlmIds_recipients :
  forall (db : Db) (resourceId : Z),
    NoDup (getDNSAuthoritySiteOlmIds db resourceId)
    /\ forall olmId,
         In olmId (getDNSAuthoritySiteOlmIds db resourceId)
         <-> exists t s ip a c,
               In t (targets db) /\ t_resourceId t = resourceId
               /\ t_enabled t = true
               /\ In s (sites db) /\ s_siteId s = t_siteId t
               /\ s_dnsAuthorityEnabled s = true
               /\ s_publicIp s = Some ip /\ ip <> ""
               /\ In a (clientSitesAssociationsCache db)
               /\ a_siteId a = t_siteId t
               /\ In c (clients db) /\ c_clientId c = a_clientId a
               /\ c_olmId c = Some olmId /\ olmId <> "".
Proof.
  intros db rid. split.
  - rewrite getDNSAuthoritySiteOlmIds_unfold.
    apply (set_of_list_NoDup String.eqb String.eqb_eq).
  - intros o. rewrite getDNSAuthoritySiteOlmIds_In.
    unfold olm_recipient, target_on, retained, has_public_ip. split.
    + intros (t & s & ip & a & c & (Ht & Er & Hs & Es) & (Ee & Hd & Hip & Hne)
              & Ha & Ea & Hc & Ec & Eo & Ho).
      exists t, s, ip, a, c. repeat split; auto.
    + intros (t & s & ip & a & c & Ht & Er & Ee & Hs & Es & Hd & Hip & Hne
              & Ha & Ea & Hc & Ec & Eo & Ho).
      exists t, s, ip, a, c. repeat split; auto.
Qed.

Section ZoneFanoutFacts.

(** What a non-null result of [buildDNSAuthorityConfig] is made of. *)
Lemma buildDNSAuthorityConfig_some_inv db rid cfg :
  buildDNSAuthorityConfig db rid = Some cfg ->
  exists R domain,
    select_resource db rid = Some R
    /\ r_dnsAuthorityEnabled R = true
    /\ r_fullDomain R = Some domain /\ domain <> ""
    /\ filter validTarget (selectResourceTargets db rid) <> []
    /\ cfg = {| z_enabled := true;
                z_domain := domain;
                z_ttl := JS.or_num (r_dnsAuthorityTtl R) 60;
                z_routingPolicy :=
                  JS.or_str (r_dnsAuthorityRoutingPolicy R) "failover";
                z_targets :=
                  map dnsTarget
                    (filter validTarget (selectResourceTargets db rid)) |}.
Proof.
  unfold buildDNSAuthorityConfig. intros H.
  destruct (select_resource db rid) as [R|]; [|discriminate H].
  destruct (r_dnsAuthorityEnabled R) eqn:Ed; [|discriminate H].
  cbn [negb] in H.
  destruct (r_fullDomain R) as [domain|] eqn:Edom; [|discriminate H].
  destruct (JS.truthy_str (Some domain)) eqn:Et; [|discriminate H].
  cbn [negb] in H.
  destruct (filter validTarget (selectResourceTargets db rid))
    as [|row rows] eqn:Ef; [discriminate H|].
  cbn [List.length Nat.eqb] in H. inversion H; subst cfg; clear H.
  apply truthy_str_iff in Et. destruct Et as (v & Ev & Hv).
  inversion Ev; subst v.
  exists R, domain. repeat split; auto. discriminate.
Qed.

(** A null result for a resource that exists, has DNS authority enabled and
    a domain means that no target is retained. *)
Lemma buildDNSAuthorityConfig_none_enabled db rid R :
  buildDNSAuthorityConfig db rid = None ->
  select_resource db rid = Some R ->
  r_dnsAuthorityEnabled R = true ->
  JS.truthy_str (r_fullDomain R) = true ->
  ~ exists t s ip, target_on db rid t s /\ retained t s ip.
Proof.
  unfold buildDNSAuthorityConfig. intros H ER Ed Et.
  rewrite ER, Ed in H. cbn [negb] in H.
  destruct (r_fullDomain R) as [domain|]; [|discriminate Et].
  rewrite Et in H. cbn [negb] in H.
  destruct (filter validTarget (selectResourceTargets db rid))
    as [|row rows] eqn:Ef; [|discriminate H].
  now apply validTargets_empty_iff.
Qed.

Context {SC : Type}.

(** The message of one loop iteration names its agent and its type. *)
Lemma zoneMessage_In type config db rid agent (env : Envelope SC) :
  In env (zoneMessage type config db rid agent) ->
  env_to env = agent /\ env_type env = type
  /\ ((exists cfg, config = Some cfg /\ env = zoneUpdate type agent cfg)
      \/ (config = None
          /\ exists R d, select_resource db rid = Some R
                         /\ r_fullDomain R = Some d /\ d <> ""
                         /\ env = zoneRemove type agent d)).
Proof.
  unfold zoneMessage. destruct config as [cfg|].
  - intros [<-|[]]. repeat split. left. exists cfg. auto.
  - destruct (select_resource db rid) as [R|]; [|intros []].
    destruct (r_fullDomain R) as [d|] eqn:Ed; [|intros []].
    destruct (JS.truthy_str (Some d)) eqn:Et; [|intros []].
    intros [<-|[]]. repeat split. right. split; [reflexivity|].
    apply truthy_str_iff in Et. destruct Et as (v & Ev & Hv).
    inversion Ev; subst v. exists R, d. auto.
Qed.

(** Every message of an update has a recipient of the resource. *)
Lemma updateMessages_recipient db rid (env : Envelope SC) :
  In env (updateMessages db rid) ->
  (exists sid, newt_recipient db rid (env_to env) sid
               /\ In env (zoneMessage "newt/dns/authority/config"
                            (buildDNSAuthorityConfig db rid) db rid (env_to env)))
  \/ (olm_recipient db rid (env_to env)
      /\ In env (zoneMessage "olm/dns/authority/config"
                   (buildDNSAuthorityConfig db rid) db rid (env_to env))).
Proof.
  unfold updateMessages. rewrite in_app_iff, !in_flat_map.
  intros [(ns & Hns & Henv)|(o & Ho & Henv)].
  - left. pose proof (zoneMessage_In _ _ _ _ _ _ Henv) as (Eto & _).
    exists (ns_siteId ns). rewrite Eto. split; [|exact Henv].
    now apply getDNSAuthoritySiteNewtIds_In.
  - right. pose proof (zoneMessage_In _ _ _ _ _ _ Henv) as (Eto & _).
    rewrite Eto. split; [|exact Henv].
    now apply getDNSAuthoritySiteOlmIds_In.
Qed.

End ZoneFanoutFacts.

(** X3. When the zone config of a resource is non-null,
    [updateDNSAuthorityForResource] leaves the database as it is and sends
    the [update] of that zone to exactly its recipients: as
    [newt/dns/authority/config] to every Newt recipient and as
    [olm/dns/authority/config] to every Olm recipient, and to nobody else. *)
Theorem updateDNSAuthorityForResource_fanout :
  forall (SC : Type) (resourceId : Z) (w : World SC) (cfg : DNSAuthorityConfig),
    buildDNSAuthorityConfig (w_db w) resourceId = Some cfg ->
    let w' := snd (updateDNSAuthorityForResource SC resourceId w) in
    w_db w' = w_db w
    /\ exists msgs,
         w_sent w' = (w_sent w ++ msgs)%list
         /\ forall env,
              In env msgs
              <-> ((exists siteId,
                      newt_recipient (w_db w) resourceId (env_to env) siteId)
                   /\ env = zoneUpdate "newt/dns/authority/config"
                              (env_to env) cfg)
                  \/ (olm_recipient (w_db w) resourceId (env_to env)
                      /\ env = zoneUpdate "olm/dns/authority/config"
                                 (env_to env) cfg).
Proof.
  intros SC rid w cfg Hcfg w'. subst w'.
  rewrite updateDNSAuthorityForResource_run. simpl.
  split; [reflexivity|]. exists (updateMessages (w_db w) rid).
  split; [reflexivity|]. intros env. split.
  - intros Hin. apply updateMessages_recipient in Hin.
    rewrite Hcfg in Hin.
    destruct Hin as [(sid & Hrec & Hmsg)|(Hrec & Hmsg)].
    + left. split; [now exists sid|]. destruct Hmsg as [<-|[]]. reflexivity.
    + right. split; [exact Hrec|]. destruct Hmsg as [<-|[]]. reflexivity.
  - unfold updateMessages. rewrite Hcfg, in_app_iff, !in_flat_map.
    intros [((sid & Hrec) & Eenv)|(Hrec & Eenv)].
    + left. exists {| ns_newtId := env_to env; ns_siteId := sid |}. split.
      * now apply getDNSAuthoritySiteNewtIds_In.
      * simpl. left. symmetry. exact Eenv.
    + right. exists (env_to env). split.
      * now apply getDNSAuthoritySiteOlmIds_In.
      * simpl. left. symmetry. exact Eenv.
Qed.

(** Witness of X3 (scenario S1): resource 1 of [db0], whose zone is [zone1]. *)
Lemma updateDNSAuthorityForResource_fanout_witness :
  buildDNSAuthorityConfig (w_db Fixtures.world0) 1 = Some Fixtures.zone1
  /\ w_db (snd (updateDNSAuthorityForResource unit 1 Fixtures.world0))
     = w_db Fixtures.world0
  /\ exists msgs,
       w_sent (snd (updateDNSAuthorityForResource unit 1 Fixtures.world0))
       = (w_sent Fixtures.world0 ++ msgs)%list
       /\ forall env,
            In env msgs
            <-> ((exists siteId,
                    newt_recipient (w_db Fixtures.world0) 1 (env_to env) siteId)
                 /\ env = zoneUpdate "newt/dns/authority/config"
                            (env_to env) Fixtures.zone1)
                \/ (olm_recipient (w_db Fixtures.world0) 1 (env_to env)
                    /\ env = zoneUpdate "olm/dns/authority/config"
                               (env_to env) Fixtures.zone1).
Proof.
  split; [reflexivity|].
  exact (updateDNSAuthorityForResource_fanout unit 1 Fixtures.world0
           Fixtures.zone1 eq_refl).
Defined.

(** X4. Every message of [updateDNSAuthorityForResource] is either the
    [update] of the resource's non-null zone config, or a [remove] of the
    resource's domain; a [remove] is sent only for a resource that exists,
    has a non-empty domain and has [dnsAuthorityEnabled] switched off. When
    the config is null although DNS authority is still enabled on the
    resource (no target is retained any more), nothing is sent at all. *)
Theorem updateDNSAuthorityForResource_remove_only_when_disabled :
  forall (SC : Type) (resourceId : Z) (w : World SC),
    exists msgs,
      snd (updateDNSAuthorityForResource SC resourceId w) = emit w msgs
      /\ (forall env, In env msgs ->
            (exists cfg,
               buildDNSAuthorityConfig (w_db w) resourceId = Some cfg
               /\ env = zoneUpdate (env_type env) (env_to env) cfg)
            \/ (buildDNSAuthorityConfig (w_db w) resourceId = None
                /\ exists R d,
                     select_resource (w_db w) resourceId = Some R
                     /\ r_dnsAuthorityEnabled R = false
                     /\ r_fullDomain R = Some d /\ d <> ""
                     /\ env = zoneRemove (env_type env) (env_to env) d))
      /\ (buildDNSAuthorityConfig (w_db w) resourceId = None ->
          (forall R, select_resource (w_db w) resourceId = Some R ->
                     r_dnsAuthorityEnabled R = true) ->
          msgs = []).
Proof.
  intros SC rid w. exists (updateMessages (w_db w) rid).
  split; [now rewrite updateDNSAuthorityForResource_run|].
  assert (Hshape : forall env : Envelope SC, In env (updateMessages (w_db w) rid) ->
    (exists cfg,
       buildDNSAuthorityConfig (w_db w) rid = Some cfg
       /\ env = zoneUpdate (env_type env) (env_to env) cfg)
    \/ (buildDNSAuthorityConfig (w_db w) rid = None
        /\ exists R d,
             select_resource (w_db w) rid = Some R
             /\ r_dnsAuthorityEnabled R = false
             /\ r_fullDomain R = Some d /\ d <> ""
             /\ env = zoneRemove (env_type env) (env_to env) d)).
  { intros env Hin.
    assert (Hret : exists t s ip, target_on (w_db w) rid t s /\ retained t s ip).
    { apply updateMessages_recipient in Hin.
      destruct Hin as [(sid & (t & s & ip & n & Hon & Hr & _) & _)
                      |((t & s & ip & a & c & Hon & Hr & _) & _)];
        exists t, s, ip; auto. }
    apply updateMessages_recipient in Hin.
    assert (Hmsg : exists type,
      In env (zoneMessage type (buildDNSAuthorityConfig (w_db w) rid)
                (w_db w) rid (env_to env))).
    { destruct Hin as [(sid & _ & H)|(_ & H)]; eexists; exact H. }
    destruct Hmsg as (type & Hmsg).
    apply zoneMessage_In in Hmsg. destruct Hmsg as (_ & Ety & Hcases).
    rewrite Ety.
    destruct Hcases as [(cfg & Ecfg & Eenv)|(Enone & R & d & ER & Ed & Hd & Eenv)].
    - left. exists cfg. auto.
    - right. split; [exact Enone|]. exists R, d. repeat split; auto.
      destruct (r_dnsAuthorityEnabled R) eqn:Edns; [|reflexivity].
      exfalso.
      apply (buildDNSAuthorityConfig_none_enabled (w_db w) rid R Enone ER Edns);
        [|exact Hret].
      rewrite Ed. now apply truthy_some. }
  split; [exact Hshape|].
  intros Enone Henabled.
  destruct (updateMessages (w_db w) rid) as [|env l] eqn:E; [reflexivity|].
  exfalso. destruct (Hshape env (or_introl eq_refl))
    as [(cfg & Ecfg & _)|(_ & R & d & ER & Edis & _)].
  - congruence.
  - rewrite (Henabled R ER) in Edis. discriminate Edis.
Qed.

Lemma updateDNSAuthorityForResource_remove_only_when_disabled_witness :
  buildDNSAuthorityConfig Fixtures.db_empty_ip 1 = None
  /\ snd (updateDNSAuthorityForResource unit 1 Fixtures.world_empty_ip)
     = Fixtures.world_empty_ip.
Proof.
  split; [reflexivity|].
  destruct (updateDNSAuthorityForResource_remove_only_when_disabled
              unit 1 Fixtures.world_empty_ip) as (msgs & Hrun & _ & Hnil).
  assert (msgs = []) as ->.
  { apply Hnil; [reflexivity|]. intros R HR. cbv in HR.
    injection HR as <-. reflexivity. }
  rewrite Hrun. reflexivity.
Defined.

Section ZoneShapeFacts.

Lemma or_Z_nonzero n d : d <> 0 -> JS.or_Z n d <> 0.
Proof.
  intros Hd. unfold JS.or_Z. destruct (Z.eqb_spec n 0); auto.
Qed.

Lemma or_num_nonzero n d : d <> 0 -> JS.or_num n d <> 0.
Proof.
  intros Hd. destruct n as [n|]; simpl; [now apply or_Z_nonzero | exact Hd].
Qed.

Lemma or_str_nonempty o d : d <> "" -> JS.or_str o d <> "".
Proof.
  intros Hd. destruct o as [v|]; simpl; [|exact Hd].
  destruct (String.eqb_spec v ""); auto.
Qed.

(** The entry of a valid row: a non-empty IP, priority and site name. *)
Lemma dnsTarget_valid row :
  validTarget row = true ->
  dt_ip (dnsTarget row) <> "" /\ dt_priority (dnsTarget row) <> 0
  /\ dt_siteName (dnsTarget row) <> "".
Proof.
  unfold validTarget. intros H.
  apply andb_true_iff in H. destruct H as [H _].
  apply andb_true_iff in H. destruct H as [_ Hip].
  apply truthy_str_iff in Hip. destruct Hip as (ip & Hip & Hne).
  unfold dnsTarget. simpl. rewrite Hip. split; [exact Hne|]. split.
  - apply or_Z_nonzero. discriminate.
  - destruct (String.eqb_spec (row_siteName row) ""); [discriminate | assumption].
Qed.

End ZoneShapeFacts.

(** X5. A zone config that [buildDNSAuthorityConfig] returns is never
    degenerate: it is enabled, its domain and routing policy are non-empty,
    its TTL is not 0, it has at least one target, and every target has a
    non-empty IP, a priority other than 0 and a non-empty site name. *)
Theorem buildDNSAuthorityConfig_well_formed :
  forall (db : Db) (resourceId : Z) (cfg : DNSAuthorityConfig),
    buildDNSAuthorityConfig db resourceId = Some cfg ->
    z_enabled cfg = true
    /\ z_domain cfg <> "" /\ z_ttl cfg <> 0 /\ z_routingPolicy cfg <> ""
    /\ z_targets cfg <> []
    /\ forall dt, In dt (z_targets cfg) ->
         dt_ip dt <> "" /\ dt_priority dt <> 0 /\ dt_siteName dt <> "".
Proof.
  intros db rid cfg H. apply buildDNSAuthorityConfig_some_inv in H.
  destruct H as (R & domain & _ & _ & _ & Hne & Hvalid & ->). simpl.
  split; [reflexivity|]. split; [exact Hne|].
  split; [apply or_num_nonzero; discriminate|].
  split; [apply or_str_nonempty; discriminate|]. split.
  - destruct (filter validTarget (selectResourceTargets db rid));
      [congruence | discriminate].
  - intros dt Hdt. apply in_map_iff in Hdt. destruct Hdt as (row & <- & Hrow).
    apply filter_In in Hrow. destruct Hrow as [_ Hv].
    now apply dnsTarget_valid.
Qed.

(** Witness of X5: the zone of resource 1 in [db0]. *)
Lemma buildDNSAuthorityConfig_well_formed_witness :
  buildDNSAuthorityConfig Fixtures.db0 1 = Some Fixtures.zone1
  /\ z_enabled Fixtures.zone1 = true
  /\ z_domain Fixtures.zone1 <> "" /\ z_ttl Fixtures.zone1 <> 0
  /\ z_routingPolicy Fixtures.zone1 <> ""
  /\ z_targets Fixtures.zone1 <> []
  /\ forall dt, In dt (z_targets Fixtures.zone1) ->
       dt_ip dt <> "" /\ dt_priority dt <> 0 /\ dt_siteName dt <> "".
Proof.
  split; [reflexivity|].
  exact (buildDNSAuthorityConfig_well_formed Fixtures.db0 1 Fixtures.zone1
           eq_refl).
Defined.

(** X6. The Newt recipients and the zone agree on the sites: when the zone
    config is non-null, a site has a Newt recipient exactly when the site
    is listed among the zone's targets and a Newt with a non-empty id is
    bound to it. *)
Theorem newt_recipients_are_zone_sites :
  forall (db : Db) (resourceId : Z) (cfg : DNSAuthorityConfig) (siteId : Z),
    buildDNSAuthorityConfig db resourceId = Some cfg ->
    ((exists newtId,
        In {| ns_newtId := newtId; ns_siteId := siteId |}
           (getDNSAuthoritySiteNewtIds db resourceId))
     <-> (exists dt, In dt (z_targets cfg) /\ dt_siteId dt = siteId)
         /\ (exists n, In n (newts db) /\ n_siteId n = Some siteId
                       /\ n_newtId n <> "")).
Proof.
  intros db rid cfg sid H. apply buildDNSAuthorityConfig_some_inv in H.
  destruct H as (R & domain & _ & _ & _ & _ & _ & ->). simpl. split.
  - intros (newtId & Hin). apply getDNSAuthoritySiteNewtIds_In in Hin.
    simpl in Hin.
    destruct Hin as (t & s & ip & n & Hon & Hret & Hn & En & Eid & Hne & Es).
    destruct (health_of_exists db t) as (h & Hh). split.
    + exists (emitted t s h ip). split.
      * apply validTargets_In. exists t, s, h, ip. auto.
      * simpl. destruct Hon as (_ & _ & _ & E). congruence.
    + exists n. destruct Hon as (_ & _ & _ & E).
      split; [exact Hn|]. split; congruence.
  - intros ((dt & Hdt & Edt) & (n & Hn & En & Hne)).
    apply validTargets_In in Hdt.
    destruct Hdt as (t & s & h & ip & Hon & Hret & Hh & ->). simpl in Edt.
    exists (n_newtId n). apply getDNSAuthoritySiteNewtIds_In. simpl.
    exists t, s, ip, n. destruct Hon as (Ht & Er & Hs & Es).
    split; [unfold target_on; auto|]. split; [exact Hret|].
    repeat split; auto; congruence.
Qed.

(** Witness of X6: site 1 for resource 1 of [db0]. *)
Lemma newt_recipients_are_zone_sites_witness :
  buildDNSAuthorityConfig Fixtures.db0 1 = Some Fixtures.zone1
  /\ ((exists newtId,
         In {| ns_newtId := newtId; ns_siteId := 1 |}
            (getDNSAuthoritySiteNewtIds Fixtures.db0 1))
      <-> (exists dt, In dt (z_targets Fixtures.zone1) /\ dt_siteId dt = 1)
          /\ (exists n, In n (newts Fixtures.db0) /\ n_siteId n = Some 1
                        /\ n_newtId n <> "")).
Proof.
  split; [reflexivity|].
  exact (newt_recipients_are_zone_sites Fixtures.db0 1 Fixtures.zone1 1
           eq_refl).
Defined.

(* ===================================================================== *)
(** ** Further properties: the health-status ingestor *)
(* ===================================================================== *)

Section IngestFacts.

Lemma selectTargetCheck_complete db n sid :
  passes_tenancy db sid n -> selectTargetCheck db n sid <> None.
Proof.
  intros (t & r & s & Ht & En & Es & Hr & Er & Hs & Ess).
  unfold selectTargetCheck.
  match goal with |- hd_error ?l <> None =>
    assert (Hin : In (t_targetId t, t_siteId t) l) end.
  { apply in_flat_map. exists t. split.
    { apply filter_In. split; [exact Ht | now apply Z.eqb_eq]. }
    apply in_flat_map. exists r. split.
    { apply filter_In. split; [exact Hr | apply Z.eqb_eq; congruence]. }
    apply in_map_iff. exists s. split; [reflexivity|].
    apply filter_In. split; [exact Hs|].
    apply andb_true_iff. split; apply Z.eqb_eq; congruence. }
  destruct (flat_map _ _); [destruct Hin | discriminate].
Qed.

Lemma selectTargetCheck_passes db n sid p :
  selectTargetCheck db n sid = Some p -> passes_tenancy db sid n.
Proof.
  unfold selectTargetCheck. intros H.
  match type of H with hd_error ?l = _ => assert (Hin : In p l) end.
  { destruct (flat_map _ _) as [|q l]; simpl in H; [discriminate|].
    inversion H; subst. now left. }
  apply in_flat_map in Hin. destruct Hin as (t & Ht & Hin).
  apply filter_In in Ht. destruct Ht as (Ht & Etid). apply Z.eqb_eq in Etid.
  apply in_flat_map in Hin. destruct Hin as (r & Hr & Hin).
  apply filter_In in Hr. destruct Hr as (Hr & Er). apply Z.eqb_eq in Er.
  apply in_map_iff in Hin. destruct Hin as (s & _ & Hs).
  apply filter_In in Hs. destruct Hs as (Hs & Es).
  apply andb_true_iff in Es. destruct Es as (E1 & E2).
  apply Z.eqb_eq in E1, E2.
  exists t, r, s. repeat split; auto; congruence.
Qed.

(** The update touches only the rows of the target, and only their state. *)
Lemma updateHcHealth_rows db sid n status :
  (exists t, In t (targets db) /\ t_targetId t = n /\ t_siteId t = sid) ->
  same_except_health db (updateHcHealth db n status)
  /\ Forall2 (health_row_step db sid) (targetHealthCheck db)
       (targetHealthCheck (updateHcHealth db n status)).
Proof.
  intros Ht. split; [unfold same_except_health; simpl; repeat split|].
  simpl. induction (targetHealthCheck db) as [|h l IH]; simpl; constructor.
  - destruct (Z.eqb_spec (hc_targetId h) n) as [E|E]; [|now left].
    right. simpl. repeat split. destruct Ht as (t & H1 & H2 & H3).
    exists t. repeat split; auto. congruence.
  - exact IH.
Qed.

Lemma health_row_step_refl db sid l : Forall2 (health_row_step db sid) l l.
Proof.
  induction l; constructor; [now left | assumption].
Qed.

Lemma health_row_step_trans db db' sid l1 l2 l3 :
  targets db' = targets db ->
  Forall2 (health_row_step db sid) l1 l2 ->
  Forall2 (health_row_step db' sid) l2 l3 ->
  Forall2 (health_row_step db sid) l1 l3.
Proof.
  intros Et H12. revert l3.
  induction H12 as [|h1 h2 l1 l2 Hh H12 IH]; intros l3 H23;
    inversion H23; subst; constructor.
  - match goal with H : health_row_step db' sid h2 _ |- _ =>
      destruct H as [->|(Ek & Ee & t & Ht & Etid & Es)] end; [exact Hh|].
    destruct Hh as [->|(Ek1 & Ee1 & t1 & Ht1 & Etid1 & Es1)].
    + right. repeat split; auto. exists t. rewrite <- Et. auto.
    + right. repeat split; try congruence. exists t1. auto.
  - now apply IH.
Qed.

Lemma same_except_health_refl db : same_except_health db db.
Proof. unfold same_except_health. repeat split. Qed.

Lemma same_except_health_trans db1 db2 db3 :
  same_except_health db1 db2 -> same_except_health db2 db3 ->
  same_except_health db1 db3.
Proof.
  unfold same_except_health.
  intros (A1 & A2 & A3 & A4 & A5 & A6 & A7 & A8 & A9)
         (B1 & B2 & B3 & B4 & B5 & B6 & B7 & B8 & B9).
  repeat split; congruence.
Qed.

Context {SC : Type}.

(** An entry is either rejected, leaving the world as it is, or accepted for
    a target that passes the tenancy check. *)
Lemma processEntry_cases sid tally entry (w : World SC) :
  processEntry SC sid tally entry w = (rejected tally, w)
  \/ exists n,
       passes_tenancy (w_db w) sid n
       /\ processEntry SC sid tally entry w
          = (accepted tally n,
             {| w_db := updateHcHealth (w_db w) n (hs_status (snd entry));
                w_sent := w_sent w |}).
Proof.
  destruct entry as [key hs].
  destruct (JS.parseInt key) as [|n|b] eqn:Ep.
  - left. now apply processEntry_malformed.
  - destruct (selectTargetCheck (w_db w) n sid) as [p|] eqn:Es.
    + right. exists n. split; [now apply (selectTargetCheck_passes _ _ _ p)|].
      apply processEntry_row; [exact Ep | congruence].
    + left. now apply (processEntry_no_row sid tally key hs n).
  - left. now apply (processEntry_infinite sid tally key hs b).
Qed.

(** What the loop keeps, from any counters and any world. *)
Lemma processEntries_invariant sid entries : forall tally (w : World SC),
  let r := processEntries SC sid entries tally w in
  w_sent (snd r) = w_sent w
  /\ same_except_health (w_db w) (w_db (snd r))
  /\ Forall2 (health_row_step (w_db w) sid)
       (targetHealthCheck (w_db w)) (targetHealthCheck (w_db (snd r)))
  /\ successCount tally <= successCount (fst r)
  /\ successCount (fst r) + errorCount (fst r)
     = successCount tally + errorCount tally + Z.of_nat (List.length entries)
  /\ Z.of_nat (List.length (updatedTargetIds (fst r)))
     = Z.of_nat (List.length (updatedTargetIds tally))
       + (successCount (fst r) - successCount tally)
  /\ (successCount (fst r) = successCount tally -> snd r = w).
Proof.
  induction entries as [|entry entries IH]; intros tally w.
  - simpl. split; [reflexivity|]. split; [apply same_except_health_refl|].
    split; [apply health_row_step_refl|]. repeat split; lia.
  - destruct (processEntry_cases sid tally entry w) as [E|(n & Hpass & E)].
    + assert (Estep : processEntries SC sid (entry :: entries) tally w
                      = processEntries SC sid entries (rejected tally) w).
      { unfold processEntries. cbn [forFold]. unfold bind at 1.
        now rewrite E. }
      cbv zeta. rewrite Estep.
      specialize (IH (rejected tally) w). cbv zeta in IH.
      destruct IH as (I1 & I2 & I3 & I4 & I5 & I6 & I7).
      simpl in I4, I5, I6, I7.
      split; [exact I1|]. split; [exact I2|]. split; [exact I3|].
      split; [exact I4|]. split; [rewrite I5; cbn [List.length]; lia|].
      split; [exact I6 | exact I7].
    + set (w1 := {| w_db := updateHcHealth (w_db w) n (hs_status (snd entry));
                    w_sent := w_sent w |}) in *.
      assert (Estep : processEntries SC sid (entry :: entries) tally w
                      = processEntries SC sid entries (accepted tally n) w1).
      { unfold processEntries. cbn [forFold]. unfold bind at 1.
        now rewrite E. }
      cbv zeta. rewrite Estep.
      specialize (IH (accepted tally n) w1). cbv zeta in IH.
      destruct IH as (I1 & I2 & I3 & I4 & I5 & I6 & I7).
      simpl in I1, I2, I3, I4, I5, I6.
      assert (Ht : exists t, In t (targets (w_db w)) /\ t_targetId t = n
                             /\ t_siteId t = sid).
      { destruct Hpass as (t & _ & _ & H1 & H2 & H3 & _). exists t. auto. }
      destruct (updateHcHealth_rows (w_db w) sid n (hs_status (snd entry)) Ht)
        as (U1 & U2).
      split; [exact I1|]. split.
      { eapply same_except_health_trans; [exact U1 | exact I2]. }
      split.
      { eapply health_row_step_trans; [|exact U2 | exact I3]. reflexivity. }
      split; [lia|]. split; [rewrite I5; cbn [List.length]; lia|].
      split.
      { rewrite I6, length_app. cbn [List.length]. lia. }
      intros Heq. exfalso. lia.
Qed.

(** [onHealthCheckUpdate] only hands messages to the bus. *)
Lemma onHealthCheckUpdate_run targetIds (w : World SC) :
  exists msgs, onHealthCheckUpdate SC targetIds w = (tt, emit w msgs).
Proof.
  destruct (collectResourceIds_run targetIds w) as (ids & Hrun & _).
  unfold onHealthCheckUpdate, bind. rewrite Hrun.
  rewrite (forEach_emit (fun db r => updateMessages db r)).
  - eexists. reflexivity.
  - intros r w0. apply updateDNSAuthorityForResource_run.
Qed.

(** The handler past its guards: the loop, then the DNS-authority update
    when some target was updated. *)
Lemma handleHealthcheckStatusMessage_run nw sid data entries (w : World SC) :
  n_siteId nw = Some sid -> (sid =? 0) = false ->
  hm_targets data = Some entries ->
  exists msgs,
    handleHealthcheckStatusMessage SC (Some nw) data w
    = (Some (fst (processEntries SC sid entries emptyTally w)),
       emit (snd (processEntries SC sid entries emptyTally w)) msgs)
    /\ (updatedTargetIds (fst (processEntries SC sid entries emptyTally w)) = []
        -> msgs = []).
Proof.
  intros Esid Ez Ed. unfold handleHealthcheckStatusMessage.
  rewrite Esid, Ez, Ed. unfold bind.
  destruct (processEntries SC sid entries emptyTally w) as [tally w1].
  cbn [fst snd].
  destruct (updatedTargetIds tally) as [|i ids] eqn:Eu.
  - exists []. cbn [List.length Nat.ltb Nat.leb]. unfold ret.
    rewrite emit_nil. auto.
  - destruct (onHealthCheckUpdate_run (i :: ids) w1) as (msgs & Hrun).
    exists msgs. cbn [List.length Nat.ltb Nat.leb]. rewrite Hrun.
    split; [reflexivity | discriminate].
Qed.

(** The two ways the handler can run. *)
Lemma handleHealthcheckStatusMessage_cases newt data (w : World SC) :
  handleHealthcheckStatusMessage SC newt data w = (None, w)
  \/ exists nw sid entries msgs,
       newt = Some nw /\ n_siteId nw = Some sid /\ sid <> 0
       /\ hm_targets data = Some entries
       /\ handleHealthcheckStatusMessage SC newt data w
          = (Some (fst (processEntries SC sid entries emptyTally w)),
             emit (snd (processEntries SC sid entries emptyTally w)) msgs)
       /\ (updatedTargetIds (fst (processEntries SC sid entries emptyTally w))
           = [] -> msgs = []).
Proof.
  destruct newt as [nw|]; [|left; reflexivity].
  destruct (n_siteId nw) as [sid|] eqn:Esid;
    [|left; unfold handleHealthcheckStatusMessage; now rewrite Esid].
  destruct (sid =? 0) eqn:Ez;
    [left; unfold handleHealthcheckStatusMessage; now rewrite Esid, Ez|].
  destruct (hm_targets data) as [entries|] eqn:Ed;
    [|left; unfold handleHealthcheckStatusMessage; now rewrite Esid, Ez, Ed].
  right.
  destruct (handleHealthcheckStatusMessage_run nw sid data entries w Esid Ez Ed)
    as (msgs & Hrun & Hmsgs).
  exists nw, sid, entries, msgs. apply Z.eqb_neq in Ez.
  repeat split; auto.
Qed.

End IngestFacts.

(** X7. An entry whose key parses to [n] is accepted exactly when target [n]
    passes the tenancy check: the target exists together with its resource
    row, on the site the reporting Newt is bound to. Then the state of the
    [targetHealthCheck] rows of target [n] is set to the reported status,
    the success counter goes up and [n] joins the updated ids; otherwise
    the entry is rejected and nothing changes. *)
Theorem processEntry_accepts_iff_tenancy :
  forall (SC : Type) (newtSiteId : Z) (targetId : string) (n : Z)
         (healthStatus : TargetHealthStatus) (tally : Tally) (w : World SC),
    JS.parseInt targetId = JS.Num n ->
    (passes_tenancy (w_db w) newtSiteId n ->
     processEntry SC newtSiteId tally (targetId, healthStatus) w
     = (accepted tally n,
        {| w_db := updateHcHealth (w_db w) n (hs_status healthStatus);
           w_sent := w_sent w |}))
    /\ (~ passes_tenancy (w_db w) newtSiteId n ->
        processEntry SC newtSiteId tally (targetId, healthStatus) w
        = (rejected tally, w)).
Proof.
  intros SC sid key n hs tally w Hp. split.
  - intros Hpass. apply processEntry_row; [exact Hp|].
    now apply selectTargetCheck_complete.
  - intros Hno. apply (processEntry_no_row sid tally key hs n w Hp).
    destruct (selectTargetCheck (w_db w) n sid) as [p|] eqn:Es; [|reflexivity].
    exfalso. apply Hno. now apply (selectTargetCheck_passes _ _ _ p).
Qed.

(** Witness of X7: key ["1"] reported by the Newt of site 1 in [db0]. *)
Lemma processEntry_accepts_iff_tenancy_witness :
  JS.parseInt "1" = JS.Num 1
  /\ (passes_tenancy (w_db Fixtures.world0) 1 1 ->
      processEntry unit 1 emptyTally ("1", Fixtures.report_unhealthy)
        Fixtures.world0
      = (accepted emptyTally 1,
         {| w_db := updateHcHealth (w_db Fixtures.world0) 1
                      (hs_status Fixtures.report_unhealthy);
            w_sent := w_sent Fixtures.world0 |}))
  /\ (~ passes_tenancy (w_db Fixtures.world0) 1 1 ->
      processEntry unit 1 emptyTally ("1", Fixtures.report_unhealthy)
        Fixtures.world0
      = (rejected emptyTally, Fixtures.world0)).
Proof.
  split; [reflexivity|].
  exact (processEntry_accepts_iff_tenancy unit 1 "1" 1
           Fixtures.report_unhealthy emptyTally Fixtures.world0 eq_refl).
Defined.

(** X8. Tenancy of a whole report. Whatever a [healthcheck/status] message
    contains, the handler changes no table other than [targetHealthCheck];
    there it adds and removes no row, and a row that differs afterwards
    keeps its target id and [hcEnabled] and belongs to a target of the site
    the reporting Newt is bound to. *)
Theorem handleHealthcheckStatusMessage_tenancy :
  forall (SC : Type) (newt : option Newt) (data : HealthcheckStatusMessage)
         (w : World SC),
    let w' := snd (handleHealthcheckStatusMessage SC newt data w) in
    same_except_health (w_db w) (w_db w')
    /\ Forall2
         (fun h h' =>
            h' = h
            \/ exists nw siteId,
                 newt = Some nw /\ n_siteId nw = Some siteId
                 /\ hc_targetId h' = hc_targetId h
                 /\ hc_hcEnabled h' = hc_hcEnabled h
                 /\ exists t, In t (targets (w_db w))
                              /\ t_targetId t = hc_targetId h
                              /\ t_siteId t = siteId)
         (targetHealthCheck (w_db w)) (targetHealthCheck (w_db w')).
Proof.
  intros SC newt data w w'. subst w'.
  destruct (handleHealthcheckStatusMessage_cases newt data w)
    as [E|(nw & sid & entries & msgs & En & Esid & _ & _ & E & _)];
    rewrite E; cbn [snd].
  - split; [apply same_except_health_refl|].
    induction (targetHealthCheck (w_db w)); constructor;
      [now left | assumption].
  - rewrite emit_db.
    pose proof (processEntries_invariant sid entries emptyTally w) as Hinv.
    cbv zeta in Hinv. destruct Hinv as (_ & Hsame & Hrows & _).
    split; [exact Hsame|].
    induction Hrows as [|h h' l l' Hh Hrows IH]; constructor.
    + destruct Hh as [->|(E1 & E2 & Ht)]; [now left|].
      right. exists nw, sid. auto.
    + exact IH.
Qed.

Section IngestCountFacts.

Context {SC : Type}.

Lemma processEntries_error_mono sid entries : forall tally (w : World SC),
  errorCount tally
  <= errorCount (fst (processEntries SC sid entries tally w)).
Proof.
  induction entries as [|entry entries IH]; intros tally w.
  - simpl. lia.
  - destruct (processEntry_cases sid tally entry w) as [E|(n & _ & E)].
    + assert (Estep : processEntries SC sid (entry :: entries) tally w
                      = processEntries SC sid entries (rejected tally) w).
      { unfold processEntries. cbn [forFold]. unfold bind at 1.
        now rewrite E. }
      rewrite Estep. specialize (IH (rejected tally) w). simpl in IH. lia.
    + assert (Estep : processEntries SC sid (entry :: entries) tally w
                      = processEntries SC sid entries (accepted tally n)
                          {| w_db := updateHcHealth (w_db w) n
                                       (hs_status (snd entry));
                             w_sent := w_sent w |}).
      { unfold processEntries. cbn [forFold]. unfold bind at 1.
        now rewrite E. }
      rewrite Estep. apply (IH (accepted tally n)).
Qed.

End IngestCountFacts.

(** X9. The counters the handler reports add up: when the handler gets past
    its guards, every entry of the message is counted exactly once, as a
    success or as an error, and the list of updated target ids has one
    element per success. *)
Theorem handleHealthcheckStatusMessage_counts :
  forall (SC : Type) (newt : option Newt) (data : HealthcheckStatusMessage)
         (w : World SC) (tally : Tally),
    fst (handleHealthcheckStatusMessage SC newt data w) = Some tally ->
    exists entries,
      hm_targets data = Some entries
      /\ successCount tally + errorCount tally = Z.of_nat (List.length entries)
      /\ Z.of_nat (List.length (updatedTargetIds tally)) = successCount tally
      /\ 0 <= successCount tally /\ 0 <= errorCount tally.
Proof.
  intros SC newt data w tally H.
  destruct (handleHealthcheckStatusMessage_cases newt data w)
    as [E|(nw & sid & entries & msgs & _ & _ & _ & Ed & E & _)];
    rewrite E in H; cbn [fst] in H; [discriminate H|].
  inversion H; subst tally; clear H.
  pose proof (processEntries_invariant sid entries emptyTally w) as Hinv.
  cbv zeta in Hinv. destruct Hinv as (_ & _ & _ & I4 & I5 & I6 & _).
  pose proof (processEntries_error_mono sid entries emptyTally w) as I8.
  simpl in I4, I5, I6, I8.
  exists entries. repeat split; auto; lia.
Qed.

(** Witness of X9: the report of scenarios S2 and S3. *)
Lemma handleHealthcheckStatusMessage_counts_witness :
  fst (handleHealthcheckStatusMessage unit
         (Some {| n_newtId := "newt1"; n_siteId := Some 1 |})
         {| hm_targets := Some [("1", Fixtures.report_unhealthy);
                                ("2", Fixtures.report_unhealthy);
                                ("abc", Fixtures.report_unhealthy)] |}
         Fixtures.world0)
  = Some {| successCount := 1; errorCount := 2; updatedTargetIds := [1] |}
  /\ exists entries,
       Some [("1", Fixtures.report_unhealthy);
             ("2", Fixtures.report_unhealthy);
             ("abc", Fixtures.report_unhealthy)] = Some entries
       /\ 1 + 2 = Z.of_nat (List.length entries)
       /\ Z.of_nat (List.length [1]) = 1
       /\ 0 <= 1 /\ 0 <= 2.
Proof.
  split; [vm_compute; reflexivity|].
  exact (handleHealthcheckStatusMessage_counts unit
           (Some {| n_newtId := "newt1"; n_siteId := Some 1 |})
           {| hm_targets := Some [("1", Fixtures.report_unhealthy);
                                  ("2", Fixtures.report_unhealthy);
                                  ("abc", Fixtures.report_unhealthy)] |}
           Fixtures.world0
           {| successCount := 1; errorCount := 2; updatedTargetIds := [1] |}
           eq_refl).
Defined.

(** X10. A report in which no entry is accepted has no effect: when the
    handler stops at a guard (no Newt, no site, no [targets] field) or
    counts no success, the database is untouched and nothing is sent. *)
Theorem handleHealthcheckStatusMessage_no_success_no_effect :
  forall (SC : Type) (newt : option Newt) (data : HealthcheckStatusMessage)
         (w : World SC),
    (fst (handleHealthcheckStatusMessage SC newt data w) = None
     \/ exists tally,
          fst (handleHealthcheckStatusMessage SC newt data w) = Some tally
          /\ successCount tally = 0) ->
    snd (handleHealthcheckStatusMessage SC newt data w) = w.
Proof.
  intros SC newt data w H.
  destruct (handleHealthcheckStatusMessage_cases newt data w)
    as [E|(nw & sid & entries & msgs & _ & _ & _ & Ed & E & Hmsgs)];
    rewrite E in *; cbn [fst snd] in *; [reflexivity|].
  destruct H as [H|(tally & H & Hz)]; [discriminate H|].
  inversion H as [Ht]; clear H.
  pose proof (processEntries_invariant sid entries emptyTally w) as Hinv.
  cbv zeta in Hinv. destruct Hinv as (_ & _ & _ & _ & _ & I6 & I7).
  rewrite Ht in I6, I7, Hmsgs. simpl in I6, I7.
  rewrite (I7 Hz). rewrite Hmsgs; [apply emit_nil|].
  destruct (updatedTargetIds tally); [reflexivity|].
  cbn [List.length] in I6. lia.
Qed.

(** Witness of X10 (scenario S3): the Newt of site 1 reports target 2 only. *)
Lemma handleHealthcheckStatusMessage_no_success_no_effect_witness :
  (fst (handleHealthcheckStatusMessage unit
          (Some {| n_newtId := "newt1"; n_siteId := Some 1 |})
          {| hm_targets := Some [("2", Fixtures.report_unhealthy)] |}
          Fixtures.world0) = None
   \/ exists tally,
        fst (handleHealthcheckStatusMessage unit
               (Some {| n_newtId := "newt1"; n_siteId := Some 1 |})
               {| hm_targets := Some [("2", Fixtures.report_unhealthy)] |}
               Fixtures.world0) = Some tally
        /\ successCount tally = 0)
  /\ snd (handleHealthcheckStatusMessage unit
            (Some {| n_newtId := "newt1"; n_siteId := Some 1 |})
            {| hm_targets := Some [("2", Fixtures.report_unhealthy)] |}
            Fixtures.world0)
     = Fixtures.world0.
Proof.
  assert (H : fst (handleHealthcheckStatusMessage unit
          (Some {| n_newtId := "newt1"; n_siteId := Some 1 |})
          {| hm_targets := Some [("2", Fixtures.report_unhealthy)] |}
          Fixtures.world0) = None
   \/ exists tally,
        fst (handleHealthcheckStatusMessage unit
               (Some {| n_newtId := "newt1"; n_siteId := Some 1 |})
               {| hm_targets := Some [("2", Fixtures.report_unhealthy)] |}
               Fixtures.world0) = Some tally
        /\ successCount tally = 0).
  { right. exists {| successCount := 0; errorCount := 1;
                     updatedTargetIds := [] |}.
    split; [vm_compute; reflexivity | reflexivity]. }
  split; [exact H|].
  exact (handleHealthcheckStatusMessage_no_success_no_effect unit _ _ _ H).
Defined.

(** X11. The single-target entry point is the batch entry point on a
    one-element list: [updateDNSAuthorityHealthForTarget(id, status)] does
    what [onHealthCheckUpdate([id])] does, whatever the status. *)
Theorem updateDNSAuthorityHealthForTarget_is_singleton_batch :
  forall (SC : Type) (targetId : Z) (newHealthStatus : string) (w : World SC),
    updateDNSAuthorityHealthForTarget SC targetId newHealthStatus w
    = onHealthCheckUpdate SC [targetId] w.
Proof.
  intros SC tid status w.
  unfold updateDNSAuthorityHealthForTarget, onHealthCheckUpdate,
    collectResourceIds.
  cbn [forFold]. unfold bind, getDb, ret.
  destruct (selectTargetInfo (w_db w) tid) as [[r [|]]|]; try reflexivity.
  unfold JS.set_add. cbn [JS.mem app forEach]. unfold bind, ret.
  now destruct (updateDNSAuthorityForResource SC r w) as [[] w'].
Qed.

(* ===================================================================== *)
(** ** Further properties: the Olm sync *)
(* ===================================================================== *)

Section SyncFacts.

(** A non-empty list of valid rows exhibits a retained target. *)
Lemma validTargets_nonempty db rid :
  filter validTarget (selectResourceTargets db rid) <> [] ->
  exists t s ip, target_on db rid t s /\ retained t s ip.
Proof.
  destruct (filter validTarget (selectResourceTargets db rid))
    as [|row l] eqn:E; [congruence|]. intros _.
  assert (Hin : In row (filter validTarget (selectResourceTargets db rid))).
  { rewrite E. now left. }
  apply filter_In in Hin. destruct Hin as [Hrow Hvalid].
  apply selectResourceTargets_In in Hrow.
  destruct Hrow as (t & s & h & Hon & Hh & ->).
  apply validTarget_mkTargetRow in Hvalid. destruct Hvalid as (ip & Hret).
  exists t, s, ip. auto.
Qed.

(** Every resource with a non-null zone config is among the resources whose
    zones a sync builds. *)
Lemma relevantResourceIds_complete db rid cfg :
  buildDNSAuthorityConfig db rid = Some cfg ->
  In rid (relevantResourceIds db).
Proof.
  intros H. apply buildDNSAuthorityConfig_some_inv in H.
  destruct H as (R & domain & ER & Ed & _ & _ & Hne & _).
  apply validTargets_nonempty in Hne.
  destruct Hne as (t & s & ip & (Ht & Er & Hs & Es) & (Ee & Hd & Hip & Hipne)).
  unfold select_resource in ER. apply find_some in ER.
  destruct ER as [HR EidR]. apply Z.eqb_eq in EidR.
  unfold relevantResourceIds.
  apply (set_of_list_In Z.eqb Z.eqb_eq). apply in_map_iff.
  exists {| dr_resourceId := r_resourceId R;
            dr_dnsAuthorityEnabled := r_dnsAuthorityEnabled R;
            dr_siteDnsAuthorityEnabled := s_dnsAuthorityEnabled s;
            dr_sitePublicIp := s_publicIp s |}.
  split; [exact EidR|]. apply filter_In. split.
  - unfold selectDnsResources. apply in_flat_map. exists t. split.
    { apply filter_In. auto. }
    apply in_flat_map. exists R. split.
    { apply filter_In. split; [exact HR|].
      apply andb_true_iff. split; [apply Z.eqb_eq; congruence | exact Ed]. }
    apply in_map_iff. exists s. split; [reflexivity|].
    apply filter_In. split; [exact Hs|].
    apply andb_true_iff. split; [apply Z.eqb_eq; congruence | exact Hd].
  - simpl. apply andb_true_iff. split; [|exact Hd].
    apply truthy_str_iff. exists ip. auto.
Qed.

(** The zones of a sync are the non-null zone configs of the database. *)
Lemma buildZones_relevant_In db z :
  In z (buildZones db (relevantResourceIds db))
  <-> exists rid, buildDNSAuthorityConfig db rid = Some z.
Proof.
  unfold buildZones. rewrite in_flat_map. split.
  - intros (rid & _ & H).
    destruct (buildDNSAuthorityConfig db rid) as [cfg|] eqn:E; [|destruct H].
    destruct H as [<-|[]]. now exists rid.
  - intros (rid & H). exists rid. split.
    + now apply (relevantResourceIds_complete db rid z).
    + rewrite H. now left.
Qed.

Context {SC : Type}.

Lemma sendDNSAuthorityZonesToOlm_run olm client (w : World SC) :
  sendDNSAuthorityZonesToOlm SC olm client w
  = (tt, emit w (zonesMessages (w_db w) olm client)).
Proof.
  unfold sendDNSAuthorityZonesToOlm, zonesMessages, bind, getDb.
  cbv beta iota zeta.
  destruct (filter (fun a => a_clientId a =? c_clientId client)
              (clientSitesAssociationsCache (w_db w))) as [|a l].
  { cbn [List.length Nat.eqb]. unfold ret. now rewrite emit_nil. }
  cbn [List.length Nat.eqb].
  destruct (relevantResourceIds (w_db w)) as [|r rs] eqn:Er.
  { cbn [List.length Nat.eqb].
    change (buildZones (w_db w) []) with (@nil DNSAuthorityConfig).
    unfold ret. now rewrite emit_nil. }
  cbn [List.length Nat.eqb]. cbv beta iota zeta.
  destruct (buildZones (w_db w) (r :: rs)) as [|z zs].
  { cbn [List.length Nat.ltb Nat.leb]. unfold ret. now rewrite emit_nil. }
  reflexivity.
Qed.

Lemma sendOlmSyncMessage_run build port olm client (w : World SC) :
  sendOlmSyncMessage SC build port olm client w
  = (tt, emit w
           ({| env_to := o_olmId olm; env_type := "olm/sync";
               env_data :=
                 OlmSyncData
                   (build (w_db w) client (c_pubKey client) false)
                   (exitNodesData port (w_db w)
                      (selectClientSites (w_db w) (c_clientId client))) |}
            :: zonesMessages (w_db w) olm client)).
Proof.
  unfold sendOlmSyncMessage, bind, getDb. cbv beta iota zeta.
  rewrite sendToClient_emit, sendDNSAuthorityZonesToOlm_run.
  rewrite emit_emit, emit_db. reflexivity.
Qed.

End SyncFacts.

(** X12. On an Olm connect, [sendOlmSyncMessage] leaves the database as it
    is and sends the [olm/sync] message to the Olm first; it sends at most
    one more message, a [olm/dns/authority/config] update to the same Olm
    with at least one zone. A client with no site association gets the
    sync message only. *)
Theorem sendOlmSyncMessage_shape :
  forall (SC : Type)
         (buildSiteConfigurationForOlmClient :
            Db -> Client -> option string -> bool -> list SC)
         (clients_start_port : Z) (olm : Olm) (client : Client)
         (w : World SC),
    let w' := snd (sendOlmSyncMessage SC buildSiteConfigurationForOlmClient
                     clients_start_port olm client w) in
    w_db w' = w_db w
    /\ exists sync rest,
         w_sent w' = (w_sent w ++ sync :: rest)%list
         /\ env_to sync = o_olmId olm /\ env_type sync = "olm/sync"
         /\ (rest = []
             \/ exists z zones, rest = [zonesUpdate (o_olmId olm) (z :: zones)])
         /\ ((forall a, In a (clientSitesAssociationsCache (w_db w)) ->
                        a_clientId a <> c_clientId client) ->
             rest = []).
Proof.
  intros SC build port olm client w w'. subst w'.
  rewrite sendOlmSyncMessage_run. simpl. split; [reflexivity|].
  eexists. exists (zonesMessages (w_db w) olm client).
  split; [reflexivity|]. split; [reflexivity|]. split; [reflexivity|].
  unfold zonesMessages. split.
  - destruct (filter _ _); [now left|].
    destruct (buildZones (w_db w) (relevantResourceIds (w_db w))) as [|z zs];
      [now left|].
    right. exists z, zs. reflexivity.
  - intros Hnone.
    destruct (filter (fun a => a_clientId a =? c_clientId client)
                (clientSitesAssociationsCache (w_db w))) as [|a l] eqn:E;
      [reflexivity|].
    exfalso.
    assert (Hin : In a (filter (fun a => a_clientId a =? c_clientId client)
                          (clientSitesAssociationsCache (w_db w)))).
    { rewrite E. now left. }
    apply filter_In in Hin. destruct Hin as [Hin Eid].
    apply Z.eqb_eq in Eid. exact (Hnone a Hin Eid).
Qed.

Lemma sendOlmSyncMessage_shape_witness :
  exists sync,
    w_sent (snd (sendOlmSyncMessage unit (fun _ _ _ _ => []) 51820
                   Fixtures.olm1 Fixtures.client99 Fixtures.world0))
    = [sync]
    /\ env_to sync = "olm1" /\ env_type sync = "olm/sync".
Proof.
  pose proof (sendOlmSyncMessage_shape unit (fun _ _ _ _ => []) 51820
                Fixtures.olm1 Fixtures.client99 Fixtures.world0) as H.
  cbv zeta in H.
  destruct H as (_ & sync & rest & Hs & Hto & Hty & _ & Hnone).
  exists sync. split; [|split; [exact Hto | exact Hty]].
  rewrite Hs, Hnone; [reflexivity|].
  intros a Ha. cbn in Ha. destruct Ha as [<-|[]]. cbn. lia.
Defined.

(** X13. For a client with at least one site association, the zones pushed
    after the sync message are the non-null zone configs of all resources of
    the database: a zone is pushed exactly when it is the config of some
    resource, whichever sites the client is associated with; when there is
    no such zone, no zones message is sent. *)
Theorem sendOlmSyncMessage_zones :
  forall (SC : Type)
         (buildSiteConfigurationForOlmClient :
            Db -> Client -> option string -> bool -> list SC)
         (clients_start_port : Z) (olm : Olm) (client : Client)
         (w : World SC) (a : ClientSiteAssociation),
    In a (clientSitesAssociationsCache (w_db w)) ->
    a_clientId a = c_clientId client ->
    exists sync zones,
      w_sent (snd (sendOlmSyncMessage SC buildSiteConfigurationForOlmClient
                     clients_start_port olm client w))
      = (w_sent w ++ sync
           :: match zones with
              | [] => []
              | _ :: _ => [zonesUpdate (o_olmId olm) zones]
              end)%list
      /\ env_type sync = "olm/sync"
      /\ forall z, In z zones
                   <-> exists resourceId,
                         buildDNSAuthorityConfig (w_db w) resourceId = Some z.
Proof.
  intros SC build port olm client w a Ha Eid.
  rewrite sendOlmSyncMessage_run. simpl.
  exists {| env_to := o_olmId olm; env_type := "olm/sync";
            env_data :=
              OlmSyncData (build (w_db w) client (c_pubKey client) false)
                (exitNodesData port (w_db w)
                   (selectClientSites (w_db w) (c_clientId client))) |}.
  exists (buildZones (w_db w) (relevantResourceIds (w_db w))).
  split; [|split; [reflexivity | apply buildZones_relevant_In]].
  f_equal. f_equal. unfold zonesMessages.
  destruct (filter (fun a => a_clientId a =? c_clientId client)
              (clientSitesAssociationsCache (w_db w))) as [|a' l] eqn:E.
  - exfalso.
    assert (Hin : In a (filter (fun a => a_clientId a =? c_clientId client)
                          (clientSitesAssociationsCache (w_db w)))).
    { apply filter_In. split; [exact Ha | now apply Z.eqb_eq]. }
    rewrite E in Hin. exact Hin.
  - destruct (buildZones (w_db w) (relevantResourceIds (w_db w))); reflexivity.
Qed.

(** Witness of X13: the client of [olm1] in [db0]. *)
Lemma sendOlmSyncMessage_zones_witness :
  In {| a_clientId := 10; a_siteId := 1 |}
     (clientSitesAssociationsCache (w_db Fixtures.world0))
  /\ a_clientId {| a_clientId := 10; a_siteId := 1 |}
     = c_clientId Fixtures.client10
  /\ exists sync zones,
       w_sent (snd (sendOlmSyncMessage unit (fun _ _ _ _ => []) 51820
                      Fixtures.olm1 Fixtures.client10 Fixtures.world0))
       = (w_sent Fixtures.world0 ++ sync
            :: match zones with
               | [] => []
               | _ :: _ => [zonesUpdate (o_olmId Fixtures.olm1) zones]
               end)%list
       /\ env_type sync = "olm/sync"
       /\ forall z, In z zones
                    <-> exists resourceId,
                          buildDNSAuthorityConfig (w_db Fixtures.world0)
                            resourceId = Some z.
Proof.
  assert (H : In {| a_clientId := 10; a_siteId := 1 |}
                (clientSitesAssociationsCache (w_db Fixtures.world0))).
  { simpl. now left. }
  split; [exact H|]. split; [reflexivity|].
  exact (sendOlmSyncMessage_zones unit (fun _ _ _ _ => []) 51820
           Fixtures.olm1 Fixtures.client10 Fixtures.world0
           {| a_clientId := 10; a_siteId := 1 |} H eq_refl).
Defined.



(* ===================================================================== *)
(** ** Further properties: the auth-proxy reconciler *)
(* ===================================================================== *)

Section ProxyFacts.

Lemma resourceConfig_mkSiteTargetRow db t r :
  r_resourceId r = t_resourceId t ->
  resourceConfig db (mkSiteTargetRow t r)
  = match r_fullDomain r with
    | Some d => if String.eqb d "" then [] else [resource_entry db t r d]
    | None => []
    end.
Proof.
  intros E. unfold resourceConfig, resource_entry. simpl.
  destruct (r_fullDomain r) as [d|]; [|reflexivity].
  destruct (String.eqb d ""); simpl; [reflexivity|].
  rewrite !orb_false_r, E. reflexivity.
Qed.

(** The resource entries of a site, relationally. *)
Lemma resourceConfigs_In db siteId rc :
  In rc (flat_map (resourceConfig db)
           (filter isProtected (selectSiteTargets db siteId)))
  <-> exists t r d,
        enabled_target_on_site db siteId t r /\ protected_resource r
        /\ r_fullDomain r = Some d /\ d <> ""
        /\ rc = resource_entry db t r d.
Proof.
  rewrite in_flat_map. split.
  - intros (row & Hrow & Hrc). apply filter_In in Hrow.
    destruct Hrow as [Hrow Hp].
    apply selectSiteTargets_In in Hrow. destruct Hrow as (t & r & Hon & ->).
    pose proof (proj1 (isProtected_mkSiteTargetRow t r) Hp) as Hprot.
    assert (Eid : r_resourceId r = t_resourceId t) by apply Hon.
    rewrite (resourceConfig_mkSiteTargetRow db t r Eid) in Hrc.
    destruct (r_fullDomain r) as [d|] eqn:Ed; [|destruct Hrc].
    destruct (String.eqb_spec d ""); [destruct Hrc|].
    destruct Hrc as [<-|[]]. exists t, r, d. auto.
  - intros (t & r & d & Hon & Hprot & Ed & Hd & ->).
    exists (mkSiteTargetRow t r). split.
    + apply filter_In. split.
      * apply selectSiteTargets_In. exists t, r. auto.
      * now apply isProtected_mkSiteTargetRow.
    + assert (Eid : r_resourceId r = t_resourceId t) by apply Hon.
      rewrite (resourceConfig_mkSiteTargetRow db t r Eid), Ed.
      destruct (String.eqb_spec d ""); [contradiction | now left].
Qed.

End ProxyFacts.

(** X15. The content of an auth-proxy message. A message that
    [buildAuthProxyConfig] returns is an [update] whose [auth] part is
    enabled, names the cookie [p_session], carries the configured dashboard
    URL, the session-validation URL under it and the controller's public
    key; its [resources] are exactly the entries of the enabled targets on
    the site whose resource is protected and has a non-empty domain. *)
Theorem buildAuthProxyConfig_content :
  forall (URL_hostname : string -> option string) (config : RawConfig)
         (keys : JwtKeypair.KeyStore) (db : Db) (siteId : Z)
         (msg : AuthProxyConfigMessage),
    buildAuthProxyConfig URL_hostname config keys db siteId = Some msg ->
    am_action msg = Update
    /\ ac_enabled (am_auth msg) = true
    /\ ac_cookieName (am_auth msg) = "p_session"
    /\ ac_jwtPublicKey (am_auth msg) = JwtKeypair.getJwtPublicKeyPem keys
    /\ (exists url,
          app_dashboard_url config = Some url /\ url <> ""
          /\ ac_pangolinUrl (am_auth msg) = url
          /\ ac_sessionValidationUrl (am_auth msg)
             = url ++ "/api/v1/auth/session/validate")
    /\ forall rc,
         In rc (am_resources msg)
         <-> exists t r d,
               enabled_target_on_site db siteId t r /\ protected_resource r
               /\ r_fullDomain r = Some d /\ d <> ""
               /\ rc = resource_entry db t r d.
Proof.
  intros URL_hostname config keys db siteId msg H.
  unfold buildAuthProxyConfig in H.
  destruct (select_site db siteId) as [site|]; [|discriminate H].
  destruct (select_org db (s_orgId site)) as [org|]; [|discriminate H].
  destruct (List.length _ =? 0)%nat; [discriminate H|].
  destruct (app_dashboard_url config) as [url|] eqn:Eurl; [|discriminate H].
  destruct (JS.truthy_str (Some url)) eqn:Et; [|discriminate H].
  cbn [negb] in H. inversion H; subst msg; clear H.
  cbn [am_action am_auth am_resources ac_enabled ac_cookieName
       ac_jwtPublicKey ac_pangolinUrl ac_sessionValidationUrl].
  split; [reflexivity|]. split; [reflexivity|]. split; [reflexivity|].
  split; [reflexivity|]. split.
  - exists url. apply truthy_str_iff in Et. destruct Et as (v & Ev & Hv).
    inversion Ev; subst v. auto.
  - intros rc. apply resourceConfigs_In.
Qed.

(** Witness of X15 (scenario S5): site 2 of [db0]. *)
Lemma buildAuthProxyConfig_content_witness :
  exists msg,
    buildAuthProxyConfig simple_hostname Fixtures.config_app Fixtures.keys0
      Fixtures.db0 2 = Some msg
    /\ am_action msg = Update
    /\ ac_enabled (am_auth msg) = true
    /\ ac_cookieName (am_auth msg) = "p_session"
    /\ ac_jwtPublicKey (am_auth msg)
       = JwtKeypair.getJwtPublicKeyPem Fixtures.keys0
    /\ (exists url,
          app_dashboard_url Fixtures.config_app = Some url /\ url <> ""
          /\ ac_pangolinUrl (am_auth msg) = url
          /\ ac_sessionValidationUrl (am_auth msg)
             = url ++ "/api/v1/auth/session/validate")
    /\ forall rc,
         In rc (am_resources msg)
         <-> exists t r d,
               enabled_target_on_site Fixtures.db0 2 t r
               /\ protected_resource r
               /\ r_fullDomain r = Some d /\ d <> ""
               /\ rc = resource_entry Fixtures.db0 t r d.
Proof.
  eexists. split; [reflexivity|].
  exact (buildAuthProxyConfig_content simple_hostname Fixtures.config_app
           Fixtures.keys0 Fixtures.db0 2 _ eq_refl).
Defined.

Section ProxyResourceFacts.

Lemma flat_map_ext_in {A B} (f g : A -> list B) (l : list A) :
  (forall x, In x l -> f x = g x) -> flat_map f l = flat_map g l.
Proof.
  induction l as [|x l IH]; simpl; intros H; [reflexivity|].
  rewrite (H x (or_introl eq_refl)), IH; [reflexivity|].
  intros y Hy. apply H. now right.
Qed.

Lemma hd_error_map {A B} (f : A -> B) (l : list A) :
  hd_error (map f l) = option_map f (hd_error l).
Proof. destruct l; reflexivity. Qed.

Lemma find_app_first {A} (p : A -> bool) (l1 l2 : list A) :
  find p (l1 ++ l2)
  = match find p l1 with Some x => Some x | None => find p l2 end.
Proof.
  induction l1 as [|x l1 IH]; simpl; [reflexivity|].
  destruct (p x); [reflexivity | exact IH].
Qed.

Lemma find_all_true {A} (p : A -> bool) (l : list A) :
  (forall x, In x l -> p x = true) -> find p l = hd_error l.
Proof.
  destruct l as [|x l]; simpl; intros H; [reflexivity|].
  now rewrite (H x (or_introl eq_refl)).
Qed.

Lemma selectSiteNewt_siteNewtIds db sid :
  selectSiteNewt db sid = hd_error (siteNewtIds db sid).
Proof.
  unfold selectSiteNewt, siteNewtIds. f_equal.
  apply flat_map_ext_in. intros s Hs. apply filter_In in Hs.
  destruct Hs as [_ E]. apply Z.eqb_eq in E. now rewrite E.
Qed.

Lemma map_flat_map_comm {A B C} (f : B -> C) (g : A -> list B) (l : list A) :
  map f (flat_map g l) = flat_map (fun x => map f (g x)) l.
Proof.
  induction l as [|x l IH]; simpl; [reflexivity|].
  now rewrite map_app, IH.
Qed.

Lemma selectResourceNewts_siteNewtIds db rid :
  selectResourceNewts db rid
  = flat_map (fun t => map (pair (t_siteId t)) (siteNewtIds db (t_siteId t)))
      (filter (fun t => (t_resourceId t =? rid) && t_enabled t) (targets db)).
Proof.
  unfold selectResourceNewts, siteNewtIds.
  apply flat_map_ext_in. intros t _.
  rewrite map_flat_map_comm.
  rewrite (filter_ext (fun s => s_siteId s =? t_siteId t)
                      (fun s => t_siteId t =? s_siteId s))
    by (intros s; apply Z.eqb_sym).
  apply flat_map_ext_in. intros s Hs. apply filter_In in Hs.
  destruct Hs as [_ E]. apply Z.eqb_eq in E.
  rewrite map_map, E. reflexivity.
Qed.

(** The first row of a site among the rows of the resource query. *)
Lemma find_resource_rows db sid (ts : list Target) :
  find (fun t : Z * string => fst t =? sid)
    (flat_map (fun t => map (pair (t_siteId t)) (siteNewtIds db (t_siteId t))) ts)
  = if existsb (fun t => t_siteId t =? sid) ts
    then option_map (pair sid) (hd_error (siteNewtIds db sid))
    else None.
Proof.
  induction ts as [|t ts IH]; [reflexivity|].
  cbn [flat_map existsb]. rewrite find_app_first, IH.
  destruct (Z.eqb_spec (t_siteId t) sid) as [E|E].
  - rewrite E. cbn [orb].
    rewrite find_all_true, hd_error_map.
    2:{ intros x Hx. apply in_map_iff in Hx. destruct Hx as (n & <- & _).
        apply Z.eqb_refl. }
    destruct (hd_error (siteNewtIds db sid)); cbn [option_map];
      [reflexivity|].
    destruct (existsb _ ts); reflexivity.
  - cbn [orb]. rewrite find_none_of_all_false; [reflexivity|].
    intros x Hx. apply in_map_iff in Hx. destruct Hx as (n & <- & _).
    simpl. now apply Z.eqb_neq.
Qed.

(** For a site the resource loop visits, the Newt it picks is the Newt
    [updateAuthProxyForSite] picks. *)
Lemma find_resource_newt db rid sid :
  In sid (resourceSiteIds db rid) ->
  exists newtId,
    find (fun t : Z * string => fst t =? sid) (selectResourceNewts db rid)
    = Some (sid, newtId)
    /\ selectSiteNewt db sid = Some newtId.
Proof.
  unfold resourceSiteIds. rewrite (set_of_list_In Z.eqb Z.eqb_eq).
  intros Hin. apply in_map_iff in Hin. destruct Hin as (row & Erow & Hrow).
  destruct (find (fun t : Z * string => fst t =? sid)
              (selectResourceNewts db rid)) as [y|] eqn:Ef.
  - rewrite selectResourceNewts_siteNewtIds, find_resource_rows in Ef.
    destruct (existsb _ _); [|discriminate Ef].
    rewrite selectSiteNewt_siteNewtIds.
    destruct (hd_error (siteNewtIds db sid)) as [nid|]; [|discriminate Ef].
    cbn [option_map] in Ef. inversion Ef. now exists nid.
  - exfalso. pose proof (find_none _ _ Ef row Hrow) as Hf.
    cbv beta in Hf. rewrite Erow, Z.eqb_refl in Hf. discriminate Hf.
Qed.

Context {SC : Type}.

Lemma updateAuthProxyForResource_run URL_hostname config keys rid (w : World SC) :
  updateAuthProxyForResource URL_hostname config keys SC rid w
  = (tt, emit w
           (flat_map (resourceSiteMessages URL_hostname config keys
                        (selectResourceNewts (w_db w) rid) (w_db w))
              (resourceSiteIds (w_db w) rid))).
Proof.
  unfold updateAuthProxyForResource. unfold bind at 1. unfold getDb at 1.
  cbv beta iota zeta.
  rewrite (forEach_emit (resourceSiteMessages URL_hostname config keys
                           (selectResourceNewts (w_db w) rid))).
  - reflexivity.
  - intros sid w0. unfold bind, getDb, resourceSiteMessages.
    destruct (buildAuthProxyConfig URL_hostname config keys (w_db w0) sid);
      [|unfold ret; now rewrite emit_nil].
    destruct (find _ _) as [target|]; [|unfold ret; now rewrite emit_nil].
    destruct (String.eqb (snd target) "");
      [unfold ret; now rewrite emit_nil | reflexivity].
Qed.

End ProxyResourceFacts.

(** X16. [updateAuthProxyForResource] is [updateAuthProxyForSite] run once
    for each site of the resource: it visits, without repetition, the sites
    that host an enabled target of the resource and have a Newt, and for
    each of them it sends what [updateAuthProxyForSite] sends. *)
Theorem updateAuthProxyForResource_per_site :
  forall (URL_hostname : string -> option string) (config : RawConfig)
         (keys : JwtKeypair.KeyStore) (SC : Type) (resourceId : Z)
         (w : World SC),
    NoDup (resourceSiteIds (w_db w) resourceId)
    /\ (forall siteId,
          In siteId (resourceSiteIds (w_db w) resourceId)
          <-> exists t s n,
                In t (targets (w_db w)) /\ t_resourceId t = resourceId
                /\ t_enabled t = true /\ t_siteId t = siteId
                /\ In s (sites (w_db w)) /\ s_siteId s = siteId
                /\ In n (newts (w_db w)) /\ n_siteId n = Some siteId)
    /\ updateAuthProxyForResource URL_hostname config keys SC resourceId w
       = forEach (resourceSiteIds (w_db w) resourceId)
           (updateAuthProxyForSite URL_hostname config keys SC) w.
Proof.
  intros URL_hostname config keys SC rid w. split; [|split].
  - apply (set_of_list_NoDup Z.eqb Z.eqb_eq).
  - intros sid. unfold resourceSiteIds.
    rewrite (set_of_list_In Z.eqb Z.eqb_eq), in_map_iff.
    unfold selectResourceNewts. split.
    + intros (row & Erow & Hrow).
      apply in_flat_map in Hrow. destruct Hrow as (t & Ht & Hrow).
      apply filter_In in Ht. destruct Ht as [Ht Ec].
      apply andb_true_iff in Ec. destruct Ec as [Er Ee]. apply Z.eqb_eq in Er.
      apply in_flat_map in Hrow. destruct Hrow as (s & Hs & Hrow).
      apply filter_In in Hs. destruct Hs as [Hs Es]. apply Z.eqb_eq in Es.
      apply in_map_iff in Hrow. destruct Hrow as (n & En & Hn).
      apply filter_In in Hn. destruct Hn as [Hn Ens].
      unfold eq_nullable in Ens.
      destruct (n_siteId n) as [nsid|] eqn:Ensid; [|discriminate Ens].
      apply Z.eqb_eq in Ens. subst row. simpl in Erow.
      exists t, s, n. repeat split; auto; congruence.
    + intros (t & s & n & Ht & Er & Ee & Et & Hs & Es & Hn & En).
      exists (t_siteId t, n_newtId n). split; [exact Et|].
      apply in_flat_map. exists t. split.
      { apply filter_In. split; [exact Ht|].
        apply andb_true_iff. split; [now apply Z.eqb_eq | exact Ee]. }
      apply in_flat_map. exists s. split.
      { apply filter_In. split; [exact Hs | apply Z.eqb_eq; congruence]. }
      apply in_map_iff. exists n. split; [reflexivity|].
      apply filter_In. split; [exact Hn|].
      unfold eq_nullable. rewrite En. apply Z.eqb_eq. congruence.
  - rewrite updateAuthProxyForResource_run.
    rewrite (forEach_emit (siteMessages URL_hostname config keys)).
    2:{ intros sid w0. apply updateAuthProxyForSite_run. }
    f_equal. f_equal. apply flat_map_ext_in. intros sid Hsid.
    destruct (find_resource_newt (w_db w) rid sid Hsid) as (nid & Ef & Es).
    unfold resourceSiteMessages, siteMessages. rewrite Ef, Es. cbn [snd].
    destruct (buildAuthProxyConfig URL_hostname config keys (w_db w) sid);
      destruct (String.eqb nid ""); reflexivity.
Qed.

(* ===================================================================== *)
(** ** Further properties: the session validator *)
(* ===================================================================== *)

Section TokenFacts.

Lemma replace_bearer_prefix t : JS.replace "Bearer " "" ("Bearer " ++ t) = t.
Proof. destruct t; reflexivity. Qed.

Lemma extractToken_cookie c h :
  c <> "" ->
  ValidateSession.extractToken
    {| ValidateSession.cookies_p_session := Some c;
       ValidateSession.headers_authorization := h |} = Some c.
Proof.
  intros Hc. unfold ValidateSession.extractToken.
  cbn [ValidateSession.cookies_p_session]. now rewrite (truthy_some c Hc).
Qed.

End TokenFacts.

(** X17. The validator never vouches for a session it did not find: a
    response with [valid: true] has status 200, and there is a session row
    with exactly the presented (non-empty) token whose [expiresAt] is
    strictly later than now and is a valid date, and a user row for that
    session's user; the response carries that user's id and e-mail and
    that session's expiry. *)
Theorem validateSession_valid_sound :
  forall (st : ValidateSession.Store) (now : Z) (req : ValidateSession.Request),
    ValidateSession.valid
      (ValidateSession.data (ValidateSession.validateSession st now req))
    = true ->
    ValidateSession.status (ValidateSession.validateSession st now req) = 200
    /\ exists token rows urows s u,
         ValidateSession.extractToken req = Some token /\ token <> ""
         /\ ValidateSession.sessions st = ValidateSession.Rows rows
         /\ In s rows
         /\ ValidateSession.sessionToken s = token
         /\ now < ValidateSession.expiresAt s
         /\ Z.abs (ValidateSession.expiresAt s) <= JS.max_time
         /\ ValidateSession.users st = ValidateSession.Rows urows
         /\ In u urows
         /\ ValidateSession.userId u = ValidateSession.sess_userId s
         /\ ValidateSession.data (ValidateSession.validateSession st now req)
            = {| ValidateSession.valid := true;
                 ValidateSession.resp_userId := Some (ValidateSession.userId u);
                 ValidateSession.resp_email := ValidateSession.email u;
                 ValidateSession.resp_orgId := None;
                 ValidateSession.resp_expiresAt :=
                   Some (JS.iso_string (ValidateSession.expiresAt s)) |}.
Proof.
  intros st now req. unfold ValidateSession.validateSession.
  destruct (ValidateSession.extractToken req) as [token|] eqn:Etok;
    [|simpl; discriminate].
  destruct (JS.truthy_str (Some token)) eqn:Et; cbn [negb];
    [|simpl; discriminate].
  destruct (ValidateSession.sessions st) as [rows|] eqn:Erows;
    [|simpl; discriminate].
  destruct (find _ rows) as [s|] eqn:Es; [|simpl; discriminate].
  destruct (ValidateSession.users st) as [urows|] eqn:Eurows;
    [|simpl; discriminate].
  destruct (find _ urows) as [u|] eqn:Eu; [|simpl; discriminate].
  destruct (Z.leb_spec (Z.abs (ValidateSession.expiresAt s)) JS.max_time)
    as [Hrange|Hrange].
  2:{ apply toISOString_out_of_range in Hrange. rewrite Hrange.
      simpl. discriminate. }
  rewrite (toISOString_in_range _ Hrange).
  intros _. simpl. split; [reflexivity|].
  apply find_some in Es. destruct Es as [Hs Hm].
  apply session_match_iff in Hm. destruct Hm as [Htok Hexp].
  apply find_some in Eu. destruct Eu as [Hu Hid]. apply String.eqb_eq in Hid.
  apply truthy_str_iff in Et. destruct Et as (v & Ev & Hv).
  inversion Ev; subst v.
  exists token, rows, urows, s, u. repeat split; auto.
Qed.

(** Witness of X17 (scenario S6). *)
Lemma validateSession_valid_sound_witness :
  ValidateSession.valid
    (ValidateSession.data
       (ValidateSession.validateSession Fixtures.store_S6 1709210096789
          Fixtures.request_abc))
  = true
  /\ ValidateSession.status
       (ValidateSession.validateSession Fixtures.store_S6 1709210096789
          Fixtures.request_abc) = 200
  /\ exists token rows urows s u,
       ValidateSession.extractToken Fixtures.request_abc = Some token
       /\ token <> ""
       /\ ValidateSession.sessions Fixtures.store_S6
          = ValidateSession.Rows rows
       /\ In s rows
       /\ ValidateSession.sessionToken s = token
       /\ 1709210096789 < ValidateSession.expiresAt s
       /\ Z.abs (ValidateSession.expiresAt s) <= JS.max_time
       /\ ValidateSession.users Fixtures.store_S6 = ValidateSession.Rows urows
       /\ In u urows
       /\ ValidateSession.userId u = ValidateSession.sess_userId s
       /\ ValidateSession.data
            (ValidateSession.validateSession Fixtures.store_S6 1709210096789
               Fixtures.request_abc)
          = {| ValidateSession.valid := true;
               ValidateSession.resp_userId := Some (ValidateSession.userId u);
               ValidateSession.resp_email := ValidateSession.email u;
               ValidateSession.resp_orgId := None;
               ValidateSession.resp_expiresAt :=
                 Some (JS.iso_string (ValidateSession.expiresAt s)) |}.
Proof.
  split; [reflexivity|].
  exact (validateSession_valid_sound Fixtures.store_S6 1709210096789
           Fixtures.request_abc eq_refl).
Defined.

(** X18. The cookie takes precedence: when the [p_session] cookie is
    non-empty, the [Authorization] header plays no role in the response. *)
Theorem validateSession_cookie_precedence :
  forall (st : ValidateSession.Store) (now : Z) (cookie : string)
         (header header' : option string),
    cookie <> "" ->
    ValidateSession.validateSession st now
      {| ValidateSession.cookies_p_session := Some cookie;
         ValidateSession.headers_authorization := header |}
    = ValidateSession.validateSession st now
        {| ValidateSession.cookies_p_session := Some cookie;
           ValidateSession.headers_authorization := header' |}.
Proof.
  intros st now cookie header header' Hc.
  unfold ValidateSession.validateSession.
  now rewrite !(extractToken_cookie cookie _ Hc).
Qed.

(** Witness of X18. *)
Lemma validateSession_cookie_precedence_witness :
  "abc" <> ""
  /\ ValidateSession.validateSession Fixtures.store_S6 1709210096789
       {| ValidateSession.cookies_p_session := Some "abc";
          ValidateSession.headers_authorization := Some "Bearer wrong" |}
     = ValidateSession.validateSession Fixtures.store_S6 1709210096789
         {| ValidateSession.cookies_p_session := Some "abc";
            ValidateSession.headers_authorization := None |}.
Proof.
  assert (H : "abc" <> "") by discriminate.
  split; [exact H|].
  exact (validateSession_cookie_precedence Fixtures.store_S6 1709210096789
           "abc" (Some "Bearer wrong") None H).
Defined.

(** X19. Without a usable cookie (absent or empty), a header
    [Authorization: Bearer <t>] is answered exactly as a cookie
    [p_session=<t>] would be. *)
Theorem validateSession_bearer_as_cookie :
  forall (st : ValidateSession.Store) (now : Z) (cookie : option string)
         (t : string),
    JS.truthy_str cookie = false ->
    ValidateSession.validateSession st now
      {| ValidateSession.cookies_p_session := cookie;
         ValidateSession.headers_authorization := Some ("Bearer " ++ t) |}
    = ValidateSession.validateSession st now
        {| ValidateSession.cookies_p_session := Some t;
           ValidateSession.headers_authorization := None |}.
Proof.
  intros st now cookie t Hc. unfold ValidateSession.validateSession.
  assert (E1 : ValidateSession.extractToken
                 {| ValidateSession.cookies_p_session := cookie;
                    ValidateSession.headers_authorization :=
                      Some ("Bearer " ++ t) |} = Some t).
  { unfold ValidateSession.extractToken.
    cbn [ValidateSession.cookies_p_session
         ValidateSession.headers_authorization].
    rewrite Hc. cbn [option_map]. now rewrite replace_bearer_prefix. }
  rewrite E1. destruct (String.eqb_spec t "") as [->|Ht].
  - reflexivity.
  - now rewrite (extractToken_cookie t None Ht).
Qed.

(** Witness of X19. *)
Lemma validateSession_bearer_as_cookie_witness :
  JS.truthy_str (Some "") = false
  /\ ValidateSession.validateSession Fixtures.store_S6 1709210096789
       {| ValidateSession.cookies_p_session := Some "";
          ValidateSession.headers_authorization := Some ("Bearer " ++ "abc") |}
     = ValidateSession.validateSession Fixtures.store_S6 1709210096789
         {| ValidateSession.cookies_p_session := Some "abc";
            ValidateSession.headers_authorization := None |}.
Proof.
  split; [reflexivity|].
  exact (validateSession_bearer_as_cookie Fixtures.store_S6 1709210096789
           (Some "") "abc" eq_refl).
Defined.

(* ===================================================================== *)
(** ** Further properties: the JWT keypair on disk and in the cache *)
(* ===================================================================== *)

Section KeypairFacts.
Import JwtKeypairFiles.

Context {KeyObject : Type} (createPrivateKey : string -> option KeyObject).

(** The three ways [loadJwtKeypair] can go. *)
Lemma loadJwtKeypair_cases (st : KeyState KeyObject) :
  (exists priv pub key,
     privateKeyFile st = Some priv /\ publicKeyFile st = Some pub
     /\ createPrivateKey priv = Some key
     /\ loadJwtKeypair createPrivateKey st
        = (Some (key, pub),
           {| authDir := authDir st;
              privateKeyFile := Some priv;
              publicKeyFile := Some pub;
              cachedPrivateKey := Some key;
              cachedPublicKeyPem := Some pub |}))
  \/ ((privateKeyFile st = None \/ publicKeyFile st = None
       \/ exists priv, privateKeyFile st = Some priv
                       /\ createPrivateKey priv = None)
      /\ loadJwtKeypair createPrivateKey st = (None, st)).
Proof.
  unfold loadJwtKeypair.
  destruct (privateKeyFile st) as [priv|] eqn:Epriv; [|right; auto].
  destruct (publicKeyFile st) as [pub|] eqn:Epub; [|right; auto].
  destruct (createPrivateKey priv) as [key|] eqn:Ekey.
  - left. exists priv, pub, key. auto.
  - right. split; [|reflexivity]. right. right. exists priv. auto.
Qed.

End KeypairFacts.

(** X20. After [ensureJwtKeypair] both key files exist, the public key file
    holds the PEM that was returned, both caches hold the returned pair, and
    [getJwtPublicKeyPem] and [getJwtPrivateKey] answer with that pair. *)
Theorem ensureJwtKeypair_establishes :
  forall (KeyObject : Type) (createPrivateKey : string -> option KeyObject)
         (g : JwtKeypairFiles.Generated KeyObject)
         (st : JwtKeypairFiles.KeyState KeyObject),
    let r := fst (JwtKeypairFiles.ensureJwtKeypair createPrivateKey g st) in
    let st' := snd (JwtKeypairFiles.ensureJwtKeypair createPrivateKey g st) in
    JwtKeypairFiles.privateKeyFile st' <> None
    /\ JwtKeypairFiles.publicKeyFile st' = Some (snd r)
    /\ JwtKeypairFiles.cachedPrivateKey st' = Some (fst r)
    /\ JwtKeypairFiles.cachedPublicKeyPem st' = Some (snd r)
    /\ fst (JwtKeypairFiles.getJwtPublicKeyPem createPrivateKey st') = snd r
    /\ fst (JwtKeypairFiles.getJwtPrivateKey createPrivateKey st')
       = Some (fst r).
Proof.
  intros KeyObject createPrivateKey g st r st'. subst r st'.
  unfold JwtKeypairFiles.ensureJwtKeypair.
  destruct (loadJwtKeypair_cases createPrivateKey st)
    as [(priv & pub & key & Epriv & Epub & Ekey & ->)|(_ & ->)].
  - cbn [fst snd JwtKeypairFiles.privateKeyFile JwtKeypairFiles.publicKeyFile
         JwtKeypairFiles.cachedPrivateKey JwtKeypairFiles.cachedPublicKeyPem].
    split; [discriminate|]. repeat split.
    unfold JwtKeypairFiles.getJwtPublicKeyPem, JwtKeypairFiles.loadJwtKeypair.
    cbn [JwtKeypairFiles.privateKeyFile JwtKeypairFiles.publicKeyFile
         JwtKeypairFiles.cachedPublicKeyPem].
    rewrite Ekey. destruct (JS.truthy_str (Some pub)); reflexivity.
  - unfold JwtKeypairFiles.generateJwtKeypair.
    cbn [fst snd JwtKeypairFiles.privateKeyFile JwtKeypairFiles.publicKeyFile
         JwtKeypairFiles.cachedPrivateKey JwtKeypairFiles.cachedPublicKeyPem].
    split; [discriminate|]. repeat split.
    unfold JwtKeypairFiles.getJwtPublicKeyPem, JwtKeypairFiles.loadJwtKeypair.
    cbn [JwtKeypairFiles.privateKeyFile JwtKeypairFiles.publicKeyFile
         JwtKeypairFiles.cachedPublicKeyPem].
    destruct (String.eqb_spec (JwtKeypairFiles.g_publicKeyPem g) "") as [E|E].
    + rewrite E. cbn [JS.truthy_str String.eqb negb].
      destruct (createPrivateKey (JwtKeypairFiles.g_privateKeyPem g));
        reflexivity.
    + now rewrite (truthy_some _ E).
Qed.

(** X21. [ensureJwtKeypair] keeps a pair it can load and otherwise replaces
    both files: when both files exist and the private key parses, the pair
    on disk is returned and the files are left as they are; when a file is
    missing or the private key does not parse, both files are overwritten
    with the freshly generated pair (and the directory exists), and that
    pair is returned. *)
Theorem ensureJwtKeypair_keeps_or_replaces :
  forall (KeyObject : Type) (createPrivateKey : string -> option KeyObject)
         (g : JwtKeypairFiles.Generated KeyObject)
         (st : JwtKeypairFiles.KeyState KeyObject),
    let r := fst (JwtKeypairFiles.ensureJwtKeypair createPrivateKey g st) in
    let st' := snd (JwtKeypairFiles.ensureJwtKeypair createPrivateKey g st) in
    (forall priv pub key,
       JwtKeypairFiles.privateKeyFile st = Some priv ->
       JwtKeypairFiles.publicKeyFile st = Some pub ->
       createPrivateKey priv = Some key ->
       r = (key, pub)
       /\ JwtKeypairFiles.authDir st' = JwtKeypairFiles.authDir st
       /\ JwtKeypairFiles.privateKeyFile st' = Some priv
       /\ JwtKeypairFiles.publicKeyFile st' = Some pub)
    /\ ((JwtKeypairFiles.privateKeyFile st = None
         \/ JwtKeypairFiles.publicKeyFile st = None
         \/ exists priv, JwtKeypairFiles.privateKeyFile st = Some priv
                         /\ createPrivateKey priv = None) ->
        r = (JwtKeypairFiles.g_privateKey g, JwtKeypairFiles.g_publicKeyPem g)
        /\ JwtKeypairFiles.authDir st' = true
        /\ JwtKeypairFiles.privateKeyFile st'
           = Some (JwtKeypairFiles.g_privateKeyPem g)
        /\ JwtKeypairFiles.publicKeyFile st'
           = Some (JwtKeypairFiles.g_publicKeyPem g)).
Proof.
  intros KeyObject createPrivateKey g st r st'. subst r st'.
  unfold JwtKeypairFiles.ensureJwtKeypair.
  destruct (loadJwtKeypair_cases createPrivateKey st)
    as [(priv & pub & key & Epriv & Epub & Ekey & ->)
       |([Hn|[Hn|(priv & Epriv & Ekey)]] & ->)]; split.
  - intros priv' pub' key' E1 E2 E3.
    rewrite Epriv in E1. rewrite Epub in E2.
    inversion E1; inversion E2; subst priv' pub'.
    rewrite Ekey in E3. inversion E3; subst key'. simpl. auto.
  - intros [H|[H|(priv' & E1 & E2)]]; congruence.
  - intros priv pub key E1 _ _. congruence.
  - intros _. simpl. auto.
  - intros priv pub key _ E2 _. congruence.
  - intros _. simpl. auto.
  - intros priv' pub key E1 _ E3. rewrite Epriv in E1.
    inversion E1; subst priv'. congruence.
  - intros _. simpl. auto.
Qed.

Lemma ensureJwtKeypair_keeps_or_replaces_witness :
  fst (JwtKeypairFiles.ensureJwtKeypair (@Some string) Fixtures.generated1
         Fixtures.keys_absent) = ("PRIV", "PUB")
  /\ fst (JwtKeypairFiles.ensureJwtKeypair (@Some string) Fixtures.generated2
            (snd (JwtKeypairFiles.ensureJwtKeypair (@Some string)
                    Fixtures.generated1 Fixtures.keys_absent)))
     = ("PRIV", "PUB").
Proof.
  split.
  - pose proof (ensureJwtKeypair_keeps_or_replaces string (@Some string)
                  Fixtures.generated1 Fixtures.keys_absent) as H.
    cbv zeta in H. destruct H as [_ H].
    exact (proj1 (H (or_introl eq_refl))).
  - pose proof (ensureJwtKeypair_keeps_or_replaces string (@Some string)
                  Fixtures.generated2
                  (snd (JwtKeypairFiles.ensureJwtKeypair (@Some string)
                          Fixtures.generated1 Fixtures.keys_absent))) as H.
    cbv zeta in H. destruct H as [H _].
    exact (proj1 (H "PRIV" "PUB" "PRIV" eq_refl eq_refl eq_refl)).
Defined.

(** X22. [ensureJwtKeypair] is idempotent when the generated private key
    can be read back from its PEM: a second call returns the pair of the
    first call and leaves the files and the caches as the first call left
    them, without using its own freshly generated pair. *)
Theorem ensureJwtKeypair_idempotent :
  forall (KeyObject : Type) (createPrivateKey : string -> option KeyObject)
         (g g' : JwtKeypairFiles.Generated KeyObject)
         (st : JwtKeypairFiles.KeyState KeyObject),
    createPrivateKey (JwtKeypairFiles.g_privateKeyPem g)
    = Some (JwtKeypairFiles.g_privateKey g) ->
    JwtKeypairFiles.ensureJwtKeypair createPrivateKey g'
      (snd (JwtKeypairFiles.ensureJwtKeypair createPrivateKey g st))
    = JwtKeypairFiles.ensureJwtKeypair createPrivateKey g st.
Proof.
  intros KeyObject createPrivateKey g g' st Hround.
  unfold JwtKeypairFiles.ensureJwtKeypair at 2 3.
  destruct (loadJwtKeypair_cases createPrivateKey st)
    as [(priv & pub & key & Epriv & Epub & Ekey & ->)|(_ & ->)].
  - cbn [snd]. unfold JwtKeypairFiles.ensureJwtKeypair,
      JwtKeypairFiles.loadJwtKeypair.
    cbn [JwtKeypairFiles.privateKeyFile JwtKeypairFiles.publicKeyFile
         JwtKeypairFiles.authDir].
    now rewrite Ekey.
  - unfold JwtKeypairFiles.generateJwtKeypair. cbn [snd].
    unfold JwtKeypairFiles.ensureJwtKeypair, JwtKeypairFiles.loadJwtKeypair.
    cbn [JwtKeypairFiles.privateKeyFile JwtKeypairFiles.publicKeyFile
         JwtKeypairFiles.authDir].
    now rewrite Hround.
Qed.

(** Witness of X22: keys are their own PEM, and an empty directory. *)
Lemma ensureJwtKeypair_idempotent_witness :
  Some (JwtKeypairFiles.g_privateKeyPem Fixtures.generated1)
  = Some (JwtKeypairFiles.g_privateKey Fixtures.generated1)
  /\ JwtKeypairFiles.ensureJwtKeypair (@Some string) Fixtures.generated2
       (snd (JwtKeypairFiles.ensureJwtKeypair (@Some string)
               Fixtures.generated1 Fixtures.keys_absent))
     = JwtKeypairFiles.ensureJwtKeypair (@Some string) Fixtures.generated1
         Fixtures.keys_absent.
Proof.
  split; [reflexivity|].
  exact (ensureJwtKeypair_idempotent string (@Some string)
           Fixtures.generated1 Fixtures.generated2 Fixtures.keys_absent
           eq_refl).
Defined.

(* ===================================================================== *)
(** ** Further properties: the site settings form *)
(* ===================================================================== *)

(** X23. What the site settings form can submit: form values that pass the
    schema's refinement are posted with a [publicIp] that is never the
    empty string, and when [dnsAuthorityEnabled] is set the posted
    [publicIp] is a non-empty string. *)
Theorem submitted_site_has_public_ip :
  forall (data : SiteSettingsForm.GeneralFormValues),
    SiteSettingsForm.refinement data = true ->
    SiteSettingsForm.u_publicIp (SiteSettingsForm.submitted data) <> Some ""
    /\ (SiteSettingsForm.u_dnsAuthorityEnabled (SiteSettingsForm.submitted data)
        = Some true ->
        exists ip,
          SiteSettingsForm.u_publicIp (SiteSettingsForm.submitted data)
          = Some ip /\ ip <> "").
Proof.
  intros data Href. unfold SiteSettingsForm.submitted. simpl. split.
  - destruct (JS.truthy_str (SiteSettingsForm.f_publicIp data)) eqn:Et;
      [|discriminate].
    apply truthy_str_iff in Et. destruct Et as (v & Ev & Hv).
    rewrite Ev. intros E. inversion E. contradiction.
  - intros Hdns. unfold SiteSettingsForm.refinement in Href.
    rewrite Hdns in Href. simpl in Href.
    apply andb_true_iff in Href. destruct Href as [Et _].
    rewrite Et. now apply truthy_str_iff.
Qed.

(** Witness of X23. *)
Lemma submitted_site_has_public_ip_witness :
  SiteSettingsForm.refinement Fixtures.form_site1 = true
  /\ SiteSettingsForm.u_publicIp (SiteSettingsForm.submitted Fixtures.form_site1)
     <> Some ""
  /\ (SiteSettingsForm.u_dnsAuthorityEnabled
        (SiteSettingsForm.submitted Fixtures.form_site1) = Some true ->
      exists ip,
        SiteSettingsForm.u_publicIp
          (SiteSettingsForm.submitted Fixtures.form_site1) = Some ip
        /\ ip <> "").
Proof.
  split; [reflexivity|].
  exact (submitted_site_has_public_ip Fixtures.form_site1 eq_refl).
Defined.

(** X24. Switching DNS authority on in the form: a non-empty IP field is
    never overwritten, and when the field is empty and the site has a
    public IP or a detected server IP, the field is filled with it (the
    public IP first), so that the form then passes the refinement. With no
    IP to fill in, the form fails the refinement. *)
Theorem onCheckedChange_enable :
  forall (site : option SiteSettingsForm.SiteInfo)
         (data : SiteSettingsForm.GeneralFormValues),
    let data' := SiteSettingsForm.onCheckedChange site true data in
    SiteSettingsForm.f_dnsAuthorityEnabled data' = Some true
    /\ (JS.truthy_str (SiteSettingsForm.f_publicIp data) = true ->
        SiteSettingsForm.f_publicIp data' = SiteSettingsForm.f_publicIp data
        /\ SiteSettingsForm.refinement data' = true)
    /\ (JS.truthy_str (SiteSettingsForm.f_publicIp data) = false ->
        forall i, site = Some i ->
          (forall ip, SiteSettingsForm.i_publicIp i = Some ip -> ip <> "" ->
             SiteSettingsForm.f_publicIp data' = Some ip
             /\ SiteSettingsForm.refinement data' = true)
          /\ (forall ip,
                JS.truthy_str (SiteSettingsForm.i_publicIp i) = false ->
                SiteSettingsForm.i_serverPublicIp i = Some ip -> ip <> "" ->
                SiteSettingsForm.f_publicIp data' = Some ip
                /\ SiteSettingsForm.refinement data' = true))
    /\ (JS.truthy_str (SiteSettingsForm.f_publicIp data) = false ->
        (forall i, site = Some i ->
           JS.truthy_str (SiteSettingsForm.i_publicIp i) = false
           /\ JS.truthy_str (SiteSettingsForm.i_serverPublicIp i) = false) ->
        SiteSettingsForm.refinement data' = false).
Proof.
  intros site data data'. subst data'.
  unfold SiteSettingsForm.onCheckedChange.
  cbn [SiteSettingsForm.setDnsAuthorityEnabled SiteSettingsForm.f_publicIp
       andb].
  destruct (JS.truthy_str (SiteSettingsForm.f_publicIp data)) eqn:Et;
    cbn [negb].
  - split; [reflexivity|]. split; [|split; intros H; discriminate H].
    intros _. split; [reflexivity|].
    unfold SiteSettingsForm.refinement.
    cbn [SiteSettingsForm.setDnsAuthorityEnabled SiteSettingsForm.f_publicIp
         SiteSettingsForm.f_dnsAuthorityEnabled].
    rewrite Et. apply truthy_str_iff in Et. destruct Et as (v & Ev & Hv).
    rewrite Ev. apply String.eqb_neq in Hv. now rewrite Hv.
  - assert (Hfill : forall ip, SiteSettingsForm.defaultIp site = ip ->
              ip <> "" ->
              SiteSettingsForm.f_publicIp
                (if negb (String.eqb (SiteSettingsForm.defaultIp site) "")
                 then SiteSettingsForm.setPublicIp
                        (SiteSettingsForm.defaultIp site)
                        (SiteSettingsForm.setDnsAuthorityEnabled true data)
                 else SiteSettingsForm.setDnsAuthorityEnabled true data)
              = Some ip
              /\ SiteSettingsForm.refinement
                   (if negb (String.eqb (SiteSettingsForm.defaultIp site) "")
                    then SiteSettingsForm.setPublicIp
                           (SiteSettingsForm.defaultIp site)
                           (SiteSettingsForm.setDnsAuthorityEnabled true data)
                    else SiteSettingsForm.setDnsAuthorityEnabled true data)
                 = true).
    { intros ip -> Hne. apply String.eqb_neq in Hne. rewrite Hne.
      cbn [negb]. split; [reflexivity|].
      unfold SiteSettingsForm.refinement. simpl. now rewrite Hne. }
    split.
    { destruct (negb (String.eqb _ "")); reflexivity. }
    split; [intros H; discriminate H|]. split.
    + intros _ i ->. split.
      * intros ip Eip Hne. apply Hfill; [|exact Hne].
        unfold SiteSettingsForm.defaultIp.
        rewrite Eip, (truthy_some ip Hne). cbn [JS.or_str].
        apply String.eqb_neq in Hne. now rewrite Hne.
      * intros ip Epub Eip Hne. apply Hfill; [|exact Hne].
        unfold SiteSettingsForm.defaultIp. rewrite Epub, Eip.
        cbn [JS.or_str]. apply String.eqb_neq in Hne. now rewrite Hne.
    + intros _ Hnone.
      assert (Edef : SiteSettingsForm.defaultIp site = "").
      { unfold SiteSettingsForm.defaultIp.
        destruct site as [i|]; [|reflexivity].
        destruct (Hnone i eq_refl) as [E1 E2]. rewrite E1.
        destruct (SiteSettingsForm.i_serverPublicIp i) as [v|]; [|reflexivity].
        simpl in E2 |- *. apply negb_false_iff in E2. now rewrite E2. }
      rewrite Edef. cbn [String.eqb negb].
      unfold SiteSettingsForm.refinement.
      cbn [SiteSettingsForm.setDnsAuthorityEnabled
           SiteSettingsForm.f_publicIp SiteSettingsForm.f_dnsAuthorityEnabled].
      rewrite Et. reflexivity.
Qed.

Lemma onCheckedChange_enable_witness :
  SiteSettingsForm.f_publicIp
    (SiteSettingsForm.onCheckedChange (Some Fixtures.site1_info) true
       Fixtures.form_empty_ip) = Some "203.0.113.10"
  /\ SiteSettingsForm.refinement
       (SiteSettingsForm.onCheckedChange (Some Fixtures.site1_info) true
          Fixtures.form_empty_ip) = true.
Proof.
  pose proof (onCheckedChange_enable (Some Fixtures.site1_info)
                Fixtures.form_empty_ip) as H.
  cbv zeta in H. destruct H as (_ & _ & H & _).
  apply (proj1 (H eq_refl Fixtures.site1_info eq_refl) "203.0.113.10");
    [reflexivity | discriminate].
Defined.

(* ===================================================================== *)
(** ** Further properties: health reports and the zone *)
(* ===================================================================== *)

Section HealthZoneFacts.

Lemma Forall2_flat_map {A B C} (R : B -> C -> Prop) (f : A -> list B)
    (g : A -> list C) (l : list A) :
  (forall x, In x l -> Forall2 R (f x) (g x)) ->
  Forall2 R (flat_map f l) (flat_map g l).
Proof.
  induction l as [|x l IH]; simpl; intros H; [constructor|].
  apply Forall2_app; [apply H; now left|].
  apply IH. intros y Hy. apply H. now right.
Qed.

Lemma Forall2_map_both {A B C} (R : B -> C -> Prop) (f : A -> B) (g : A -> C)
    (l : list A) :
  (forall x, In x l -> R (f x) (g x)) -> Forall2 R (map f l) (map g l).
Proof.
  induction l as [|x l IH]; simpl; intros H; constructor.
  - apply H. now left.
  - apply IH. intros y Hy. apply H. now right.
Qed.

Lemma Forall2_filter_same {A} (R : A -> A -> Prop) (p : A -> bool) (l l' : list A) :
  (forall x y, R x y -> p y = p x) ->
  Forall2 R l l' -> Forall2 R (filter p l) (filter p l').
Proof.
  intros Hp H. induction H as [|x y l l' Hxy H IH]; simpl; [constructor|].
  rewrite (Hp x y Hxy). destruct (p x); [constructor; assumption | assumption].
Qed.

Lemma Forall2_map_rel {A B} (R : A -> A -> Prop) (R' : B -> B -> Prop)
    (f : A -> B) (l l' : list A) :
  (forall x y, R x y -> R' (f x) (f y)) ->
  Forall2 R l l' -> Forall2 R' (map f l) (map f l').
Proof.
  intros Hf H. induction H; simpl; constructor; auto.
Qed.

Lemma touch_targetId n status h :
  hc_targetId (touch n status h) = hc_targetId h.
Proof. unfold touch. destruct (hc_targetId h =? n); reflexivity. Qed.

Lemma filter_touch n status (p : Z -> bool) l :
  filter (fun h => p (hc_targetId h)) (map (touch n status) l)
  = map (touch n status) (filter (fun h => p (hc_targetId h)) l).
Proof.
  induction l as [|h l IH]; simpl; [reflexivity|].
  rewrite touch_targetId. destruct (p (hc_targetId h)); simpl; now rewrite IH.
Qed.

Lemma leftJoinHealth_updateHcHealth db n status t :
  leftJoinHealth (updateHcHealth db n status) t
  = map (option_map (touch n status)) (leftJoinHealth db t).
Proof.
  unfold leftJoinHealth, updateHcHealth. simpl.
  change (fun h => if hc_targetId h =? n
                   then {| hc_targetId := hc_targetId h;
                           hc_hcEnabled := hc_hcEnabled h;
                           hc_hcHealth := Some status |}
                   else h) with (touch n status).
  rewrite (filter_touch n status (fun i => i =? t_targetId t)).
  destruct (filter (fun h => hc_targetId h =? t_targetId t)
              (targetHealthCheck db)) as [|h hs]; [reflexivity|].
  cbn [map]. now rewrite !map_map.
Qed.

Lemma mkTargetRow_touch n status t s h :
  same_row_but_health status (mkTargetRow t s h)
    (mkTargetRow t s (option_map (touch n status) h)).
Proof.
  unfold same_row_but_health. destruct h as [h|]; simpl.
  - unfold touch. destruct (hc_targetId h =? n); simpl; repeat split; auto.
  - repeat split; auto.
Qed.

Lemma selectResourceTargets_updateHcHealth db n status rid :
  Forall2 (same_row_but_health status)
    (selectResourceTargets db rid)
    (selectResourceTargets (updateHcHealth db n status) rid).
Proof.
  unfold selectResourceTargets.
  change (targets (updateHcHealth db n status)) with (targets db).
  change (sites (updateHcHealth db n status)) with (sites db).
  apply Forall2_flat_map. intros t _.
  apply Forall2_flat_map. intros s _.
  rewrite leftJoinHealth_updateHcHealth, map_map.
  apply Forall2_map_both. intros h _. apply mkTargetRow_touch.
Qed.

Lemma validTarget_same_row status row row' :
  same_row_but_health status row row' -> validTarget row' = validTarget row.
Proof.
  intros (_ & _ & E1 & _ & _ & E2 & E3 & _). unfold validTarget.
  now rewrite E1, E2, E3.
Qed.

Lemma dnsTarget_same_row status row row' :
  same_row_but_health status row row' ->
  same_target_but_health status (dnsTarget row) (dnsTarget row').
Proof.
  intros (_ & E1 & _ & E2 & E3 & E4 & _ & E5 & E6).
  unfold same_target_but_health, dnsTarget. simpl.
  rewrite E1, E2, E3, E4, E5. repeat split.
  destruct (JS.truthy_bool (row_hcEnabled row)); [|now left].
  destruct E6 as [->| ->]; [now left | now right].
Qed.

End HealthZoneFacts.

(** X25. A health report cannot add or remove a zone or a zone target.
    Writing a status for a target leaves every resource's zone config null
    if it was null, and otherwise keeps its domain, TTL, routing policy and
    the list of targets with their IP, priority and site; only [healthy]
    flags may change, and a changed flag says whether the reported status
    is ["healthy"]. The Newt and Olm recipients stay the same. *)
Theorem health_update_keeps_zone_shape :
  forall (db : Db) (n : Z) (status : string) (resourceId : Z),
    let db' := updateHcHealth db n status in
    getDNSAuthoritySiteNewtIds db' resourceId
    = getDNSAuthoritySiteNewtIds db resourceId
    /\ getDNSAuthoritySiteOlmIds db' resourceId
       = getDNSAuthoritySiteOlmIds db resourceId
    /\ match buildDNSAuthorityConfig db resourceId,
             buildDNSAuthorityConfig db' resourceId with
       | None, None => True
       | Some cfg, Some cfg' =>
           z_enabled cfg' = z_enabled cfg /\ z_domain cfg' = z_domain cfg
           /\ z_ttl cfg' = z_ttl cfg
           /\ z_routingPolicy cfg' = z_routingPolicy cfg
           /\ Forall2 (same_target_but_health status)
                (z_targets cfg) (z_targets cfg')
       | _, _ => False
       end.
Proof.
  intros db n status rid db'. subst db'.
  split; [reflexivity|]. split; [reflexivity|].
  pose proof (selectResourceTargets_updateHcHealth db n status rid) as Hrows.
  apply (Forall2_filter_same _ validTarget) in Hrows.
  2:{ intros x y Hxy. now apply (validTarget_same_row status). }
  unfold buildDNSAuthorityConfig.
  change (select_resource (updateHcHealth db n status) rid)
    with (select_resource db rid).
  destruct (select_resource db rid) as [R|]; [|exact I].
  destruct (negb (r_dnsAuthorityEnabled R)); [exact I|].
  destruct (negb (JS.truthy_str (r_fullDomain R))); [exact I|].
  cbv zeta.
  destruct Hrows as [|row row' rows rows' Hrow Hrows]; [exact I|].
  cbn [List.length Nat.eqb z_enabled z_domain z_ttl z_routingPolicy z_targets].
  repeat split.
  apply (Forall2_map_rel (same_row_but_health status)).
  - intros x y Hxy. now apply dnsTarget_same_row.
  - constructor; assumption.
Qed.

(* ===================================================================== *)
(** ** Further properties: white space before a target id *)
(* ===================================================================== *)

(** X26. White space before the target id plays no role in the health
    ingestor: an entry whose key carries leading white-space characters
    (ASCII or not, such as a no-break space) is processed exactly as the
    entry with the key that follows them. *)
Theorem processEntry_ignores_leading_white_space :
  forall (SC : Type) (newtSiteId : Z) (wss : list string) (targetId : string)
         (healthStatus : TargetHealthStatus) (tally : Tally) (w : World SC),
    Forall (fun ws => In ws StrWhiteSpaceChar) wss ->
    processEntry SC newtSiteId tally
      (fold_right String.append targetId wss, healthStatus) w
    = processEntry SC newtSiteId tally (targetId, healthStatus) w.
Proof.
  intros SC sid wss key hs tally w Hws. unfold processEntry.
  now rewrite (parseInt_white_space wss key Hws).
Qed.

(** Witness of X26: a no-break space and a space before the key ["1"]. *)
Lemma processEntry_ignores_leading_white_space_witness :
  Forall (fun ws => In ws StrWhiteSpaceChar)
    [String "194" (String "160" ""); " "]
  /\ processEntry unit 1 emptyTally
       (String "194" (String "160" " 1"), Fixtures.report_unhealthy)
       Fixtures.world0
     = processEntry unit 1 emptyTally ("1", Fixtures.report_unhealthy)
         Fixtures.world0.
Proof.
  assert (H : Forall (fun ws => In ws StrWhiteSpaceChar)
                [String "194" (String "160" ""); " "]).
  { repeat constructor; unfold StrWhiteSpaceChar; simpl; tauto. }
  split; [exact H|].
  exact (processEntry_ignores_leading_white_space unit 1
           [String "194" (String "160" ""); " "] "1"
           Fixtures.report_unhealthy emptyTally Fixtures.world0 H).
Defined.
